(** * oorja_backend: the bill-extraction service and its HTTP handlers

    A shallow embedding of [src/services/pdfService.js] (the revision that
    lists six models and calls [openai.responses.create]) and of the PDF
    controller, together with the part of the JavaScript runtime these
    functions rely on: values and their coercions, IEEE-754 doubles,
    [Number.prototype.toFixed], [JSON.parse] and the two regular
    expressions used to recover JSON from a model reply.

    JavaScript strings are sequences of 16-bit code units and numbers are
    binary64 floats; both are modelled as such ([list N] and
    [spec_float] with precision 53 and maximal exponent 1024). *)

From Stdlib Require Import ZArith NArith List String Ascii Bool Lia.
From Stdlib Require Import Floats.SpecFloat.
From stdpp Require Import base option list gmap.

Open Scope Z_scope.

(** ** Strings *)

Module JsString.

Definition jstring := list N.

(** An ASCII literal as a sequence of code units. *)
Definition str (s : string) : jstring :=
  (fun a => N_of_ascii a) <$> list_ascii_of_string s.

Definition is_digit (c : N) : bool := ((48 <=? c) && (c <=? 57))%N.

Definition digit_val (c : N) : Z := Z.of_N c - 48.

(** The value of a run of decimal digits, most significant first. *)
Definition digits_value (ds : jstring) : Z :=
  fold_left (fun acc c => 10 * acc + digit_val c) ds 0.

(** Longest prefix whose elements satisfy [p], and the rest. *)
Fixpoint span (p : N -> bool) (s : jstring) : jstring * jstring :=
  match s with
  | c :: s' =>
      if p c then let '(a, b) := span p s' in (c :: a, b) else ([], s)
  | [] => ([], [])
  end.

Fixpoint uint_digits (d : Decimal.uint) : jstring :=
  match d with
  | Decimal.Nil => []
  | Decimal.D0 d => 48%N :: uint_digits d
  | Decimal.D1 d => 49%N :: uint_digits d
  | Decimal.D2 d => 50%N :: uint_digits d
  | Decimal.D3 d => 51%N :: uint_digits d
  | Decimal.D4 d => 52%N :: uint_digits d
  | Decimal.D5 d => 53%N :: uint_digits d
  | Decimal.D6 d => 54%N :: uint_digits d
  | Decimal.D7 d => 55%N :: uint_digits d
  | Decimal.D8 d => 56%N :: uint_digits d
  | Decimal.D9 d => 57%N :: uint_digits d
  end.

(** Decimal digits of a non-negative integer ("0" for zero). *)
Definition decimal (z : Z) : jstring := uint_digits (N.to_uint (Z.to_N z)).

Definition zeros (n : Z) : jstring := replicate (Z.to_nat n) 48%N.

(** [WhiteSpace] and [LineTerminator] code points: what [\s] matches
    without the [u] flag and what [StringToNumber] trims. *)
Definition is_js_space (c : N) : bool :=
  ((9 <=? c) && (c <=? 13) || (c =? 32) || (c =? 160) || (c =? 5760)
   || (8192 <=? c) && (c <=? 8202) || (c =? 8232) || (c =? 8233)
   || (c =? 8239) || (c =? 8287) || (c =? 12288) || (c =? 65279))%N.

Fixpoint drop_spaces (s : jstring) : jstring :=
  match s with
  | c :: s' => if is_js_space c then drop_spaces s' else s
  | [] => []
  end.

Definition trim (s : jstring) : jstring :=
  rev (drop_spaces (rev (drop_spaces s))).

Fixpoint eqb (s t : jstring) : bool :=
  match s, t with
  | [], [] => true
  | c :: s', d :: t' => (c =? d)%N && eqb s' t'
  | _, _ => false
  end.

Fixpoint prefix_of (p s : jstring) : option jstring :=
  match p, s with
  | [], _ => Some s
  | c :: p', d :: s' => if (c =? d)%N then prefix_of p' s' else None
  | _ :: _, [] => None
  end.

End JsString.
Export JsString.

(** ** Numbers: binary64 *)

Module Number.

Definition number := spec_float.

Definition prec := 53.
Definition emax := 1024.

Definition NaN : number := S754_nan.
Definition of_Z (z : Z) : number := binary_normalize prec emax z 0 false.

Definition add : number -> number -> number := SFadd prec emax.
Definition mul : number -> number -> number := SFmul prec emax.
Definition sub : number -> number -> number := SFsub prec emax.
Definition div : number -> number -> number := SFdiv prec emax.
Definition ltb : number -> number -> bool := SFltb.

(** The double nearest to [m * 10^e] (ties to even), with the sign
    [neg]: the rounding that [JSON.parse] and [StringToNumber] apply
    to a decimal literal. *)
Definition of_decimal (neg : bool) (m e : Z) : number :=
  if m =? 0 then S754_zero neg
  else if 0 <=? e then
    binary_normalize prec emax (cond_Zopp neg (m * 10 ^ e)) 0 neg
  else
    let '(q, e', l) := SFdiv_core_binary prec emax m 0 (10 ^ (- e)) 0 in
    binary_round_aux prec emax neg q e' l.

(** *** Number::toString, radix 10

    For a positive finite [x = m * 2^e] the digits are those of the
    shortest decimal [s * 10^(n-k)] that rounds back to [x], the
    closest one when several have that length.  All comparisons are
    exact: a real [v * 2^(e-2)] is compared with [s * 10^p] by
    cross-multiplication. *)
Section Shortest.
Variables (m : positive) (e : Z).

Definition scaled (v p : Z) : Z := v * 2 ^ Z.max (e - 2) 0 * 10 ^ Z.max (- p) 0.
Definition denom (p : Z) : Z := 2 ^ Z.max (2 - e) 0 * 10 ^ Z.max p 0.

Definition x4 : Z := 4 * Zpos m.
Definition hi4 : Z := 4 * Zpos m + 2.
Definition lo4 : Z :=
  if (Zpos m =? 2 ^ (prec - 1)) && (3 - emax - prec <? e)
  then 4 * Zpos m - 1 else 4 * Zpos m - 2.

(** [10^p <= x] *)
Definition pow10_le (p : Z) : bool := denom p <=? scaled x4 p.

(** [floor (log10 x)] *)
Definition log10_floor : Z :=
  let c := (Zpos (digits2_pos m) + e - 1) * 30103 / 100000 in
  if pow10_le (c + 1) then c + 1 else if pow10_le c then c else c - 1.

(** Does [s * 10^p] round to [x]?  The interval ends are ties, which
    go to the even mantissa. *)
Definition rounds_to_x (s p : Z) : bool :=
  if Z.even (Zpos m)
  then (scaled lo4 p <=? s * denom p) && (s * denom p <=? scaled hi4 p)
  else (scaled lo4 p <? s * denom p) && (s * denom p <? scaled hi4 p).

(** The [k]-digit candidate, if one rounds to [x]: the multiples of
    [10^p] just below and just above [x], [p = n0 - k]. *)
Definition candidate (k : Z) : option (Z * Z) :=
  let p := log10_floor + 1 - k in
  let s1 := scaled x4 p / denom p in
  let s2 := s1 + 1 in
  let d1 := scaled x4 p - s1 * denom p in
  let d2 := s2 * denom p - scaled x4 p in
  match rounds_to_x s1 p, rounds_to_x s2 p with
  | true, true =>
      if d1 <? d2 then Some (s1, p)
      else if d2 <? d1 then Some (s2, p)
      else if Z.even s1 then Some (s1, p) else Some (s2, p)
  | true, false => Some (s1, p)
  | false, true => Some (s2, p)
  | false, false => None
  end.

Fixpoint first_candidate (fuel : nat) (k : Z) : Z * Z :=
  match fuel with
  | O => (scaled x4 (log10_floor - 16) / denom (log10_floor - 16), log10_floor - 16)
  | S fuel' =>
      match candidate k with
      | Some sp => sp
      | None => first_candidate fuel' (k + 1)
      end
  end.

(** Seventeen significant digits always identify a double. *)
Definition shortest : Z * Z := first_candidate 17 1.
End Shortest.

Fixpoint strip_zeros (fuel : nat) (s p : Z) : Z * Z :=
  match fuel with
  | O => (s, p)
  | S fuel' => if (s mod 10 =? 0) && (0 <? s) then strip_zeros fuel' (s / 10) (p + 1) else (s, p)
  end.

Definition positive_toString (m : positive) (e : Z) : jstring :=
  let '(s0, p0) := shortest m e in
  let '(s, p) := strip_zeros 400 s0 p0 in
  let ds := decimal s in
  let k := Z.of_nat (length ds) in
  let n := p + k in
  if (k <=? n) && (n <=? 21) then ds ++ zeros (n - k)
  else if (0 <? n) && (n <=? 21) then
    take (Z.to_nat n) ds ++ str "." ++ drop (Z.to_nat n) ds
  else if (-6 <? n) && (n <=? 0) then str "0." ++ zeros (- n) ++ ds
  else
    let ex := n - 1 in
    let sign := if ex <? 0 then str "-" else str "+" in
    match ds with
    | [d] => d :: str "e" ++ sign ++ decimal (Z.abs ex)
    | d :: rest => d :: str "." ++ rest ++ str "e" ++ sign ++ decimal (Z.abs ex)
    | [] => []
    end.

Definition toString (x : number) : jstring :=
  match x with
  | S754_nan => str "NaN"
  | S754_zero _ => str "0"
  | S754_infinity false => str "Infinity"
  | S754_infinity true => str "-Infinity"
  | S754_finite false m e => positive_toString m e
  | S754_finite true m e => str "-" ++ positive_toString m e
  end.

(** *** Number.prototype.toFixed(f)

    [n] is the integer for which [n / 10^f - x] is closest to zero, the
    larger one on a tie; at [10^21] and above the result is that of
    [toString]. *)
Definition fixed_digits (m : positive) (e f : Z) : jstring :=
  let n :=
    if 0 <=? e then Zpos m * 2 ^ e * 10 ^ f
    else (2 * Zpos m * 10 ^ f + 2 ^ (- e)) / 2 ^ (1 - e) in
  let ds := decimal n in
  if f =? 0 then ds
  else
    let k := Z.of_nat (length ds) in
    let ds' := if k <=? f then zeros (f + 1 - k) ++ ds else ds in
    let k' := Z.of_nat (length ds') in
    take (Z.to_nat (k' - f)) ds' ++ str "." ++ drop (Z.to_nat (k' - f)) ds'.

Definition toFixed (x : number) (f : Z) : jstring :=
  match x with
  | S754_nan | S754_infinity _ => toString x
  | S754_zero _ => if f =? 0 then str "0" else str "0." ++ zeros f
  | S754_finite s m e =>
      if 10 ^ 21 * 2 ^ Z.max (- e) 0 <=? Zpos m * 2 ^ Z.max e 0
      then toString x
      else (if s then str "-" else []) ++ fixed_digits m e f
  end.

End Number.

(** ** Values, errors and coercions *)

Module Js.

Import Number.

(** JSON-shaped values, [undefined], and the members every object
    inherits from [Object.prototype] ([VBuiltin], named by the key
    under which they are found).  An object is its list of own
    properties in insertion order; that the engine enumerates keys
    that are array indices before the others is not modelled. *)
#[warnings="-register-all"] Inductive value :=
| VUndefined
| VNull
| VBool (b : bool)
| VNum (x : number)
| VStr (s : jstring)
| VArr (items : list value)
| VObj (props : list (jstring * value))
| VBuiltin (name : jstring).

Inductive error_name := Error | TypeError | SyntaxError | SystemError.

Record error := mkError { name : error_name; message : jstring }.

(** The result of evaluating an expression: a value or an exception. *)
Inductive outcome (A : Type) :=
| Return (a : A)
| Throw (e : error).
Arguments Return {A} a.
Arguments Throw {A} e.

#[export] Instance outcome_ret : MRet outcome := @Return.

#[export] Instance outcome_bind : MBind outcome := fun A B k m =>
  match m with
  | Return a => k a
  | Throw e => Throw e
  end.

Definition lit (m e : Z) : value := VNum (of_decimal false m e).

(** *** Properties *)

Fixpoint own (props : list (jstring * value)) (k : jstring) : option value :=
  match props with
  | (k', v) :: rest => if JsString.eqb k' k then Some v else own rest k
  | [] => None
  end.

(** [o[k] = v] on a list of own properties. *)
Fixpoint set_own (props : list (jstring * value)) (k : jstring) (v : value)
  : list (jstring * value) :=
  match props with
  | (k', v') :: rest =>
      if JsString.eqb k' k then (k', v) :: rest else (k', v') :: set_own rest k v
  | [] => [(k, v)]
  end.

Definition object_prototype_keys : list jstring :=
  str <$> [ "constructor"; "__defineGetter__"; "__defineSetter__";
            "hasOwnProperty"; "__lookupGetter__"; "__lookupSetter__";
            "isPrototypeOf"; "propertyIsEnumerable"; "toString"; "valueOf";
            "__proto__"; "toLocaleString" ]%string.

Definition inherited (k : jstring) : value :=
  if existsb (JsString.eqb k) object_prototype_keys then VBuiltin k else VUndefined.

(** An array index: a canonical decimal numeral. *)
Definition array_index (k : jstring) : option nat :=
  if forallb is_digit k && JsString.eqb (decimal (digits_value k)) k
  then Some (Z.to_nat (digits_value k)) else None.

Definition reading (what : string) (k : jstring) : error :=
  mkError TypeError
    (str "Cannot read properties of " ++ str what ++ str " (reading '" ++ k ++ str "')").

(** The property read [v[k]].  Own properties, array and string indices
    and [length], and what [Object.prototype] provides are looked up;
    the members of the other built-in prototypes are not tabulated
    (the program reads none of them). *)
Definition get (v : value) (k : jstring) : outcome value :=
  match v with
  | VUndefined => Throw (reading "undefined" k)
  | VNull => Throw (reading "null" k)
  | VObj props =>
      Return (match own props k with Some x => x | None => inherited k end)
  | VArr items =>
      Return (match array_index k with
              | Some i => match items !! i with Some x => x | None => VUndefined end
              | None =>
                  if JsString.eqb k (str "length")
                  then VNum (of_Z (Z.of_nat (length items))) else inherited k
              end)
  | VStr s =>
      Return (match array_index k with
              | Some i => match s !! i with Some c => VStr [c] | None => VUndefined end
              | None =>
                  if JsString.eqb k (str "length")
                  then VNum (of_Z (Z.of_nat (length s))) else inherited k
              end)
  | VBool _ | VNum _ => Return (inherited k)
  | VBuiltin _ => Return VUndefined
  end.

(** *** typeof, truthiness, [||] *)

Definition typeof (v : value) : jstring :=
  match v with
  | VUndefined => str "undefined"
  | VNull => str "object"
  | VBool _ => str "boolean"
  | VNum _ => str "number"
  | VStr _ => str "string"
  | VArr _ | VObj _ => str "object"
  | VBuiltin k => if JsString.eqb k (str "__proto__") then str "object" else str "function"
  end.

Definition truthy (v : value) : bool :=
  match v with
  | VUndefined | VNull => false
  | VBool b => b
  | VNum (S754_zero _) | VNum S754_nan => false
  | VNum _ => true
  | VStr [] => false
  | VStr _ => true
  | VArr _ | VObj _ | VBuiltin _ => true
  end.

(** [a || b]: [b] is evaluated only when [a] is falsy. *)
Definition or_else (a : outcome value) (b : outcome value) : outcome value :=
  x ← a; if truthy x then Return x else b.

(** *** ToString, ToPrimitive, ToNumber *)

Definition not_primitive : error :=
  mkError TypeError (str "Cannot convert object to primitive value").

(** An object converts through the inherited [Object.prototype.toString]
    unless an own property shadows it: an own [toString] parsed from
    JSON is not callable, and the inherited [valueOf] returns the object
    itself, so no primitive is obtained. *)
Fixpoint to_string (v : value) : outcome jstring :=
  match v with
  | VUndefined => Return (str "undefined")
  | VNull => Return (str "null")
  | VBool true => Return (str "true")
  | VBool false => Return (str "false")
  | VNum x => Return (Number.toString x)
  | VStr s => Return s
  | VArr items =>
      let element x :=
        match x with
        | VUndefined | VNull => Return []
        | _ => to_string x
        end in
      (fix join (l : list value) : outcome jstring :=
         match l with
         | [] => Return []
         | [x] => element x
         | x :: l' => s ← element x; r ← join l'; Return (s ++ str "," ++ r)
         end) items
  | VObj props =>
      match own props (str "toString") with
      | Some _ => Throw not_primitive
      | None => Return (str "[object Object]")
      end
  | VBuiltin k =>
      if JsString.eqb k (str "__proto__") then Return (str "[object Object]")
      else Return (str "function " ++ (if JsString.eqb k (str "constructor") then str "Object" else k)
                   ++ str "() { [native code] }")
  end.

Definition to_primitive (v : value) : outcome value :=
  match v with
  | VArr _ | VObj _ | VBuiltin _ => s ← to_string v; Return (VStr s)
  | _ => Return v
  end.

(** StringToNumber: surrounding white space is dropped; the empty string
    is [+0]; then a hexadecimal, octal or binary integer, a signed
    [Infinity], or a signed decimal literal; anything else is [NaN]. *)
Definition radix_digit (radix : Z) (c : N) : option Z :=
  let d :=
    if is_digit c then digit_val c
    else if ((97 <=? c) && (c <=? 102))%N then Z.of_N c - 87
    else if ((65 <=? c) && (c <=? 70))%N then Z.of_N c - 55
    else 99 in
  if d <? radix then Some d else None.

Fixpoint radix_value (radix : Z) (acc : Z) (s : jstring) : option Z :=
  match s with
  | [] => Some acc
  | c :: s' =>
      match radix_digit radix c with
      | Some d => radix_value radix (radix * acc + d) s'
      | None => None
      end
  end.

Definition radix_literal (radix : Z) (s : jstring) : number :=
  match s with
  | [] => NaN
  | _ => match radix_value radix 0 s with
         | Some z => of_Z z
         | None => NaN
         end
  end.

(** [e] or [E], an optional sign, digits: the exponent, or [None]. *)
Definition exponent_part (s : jstring) : option Z :=
  match s with
  | [] => Some 0
  | c :: s' =>
      if ((c =? 101) || (c =? 69))%N then
        let '(neg, ds) :=
          match s' with
          | 45%N :: ds => (true, ds)
          | 43%N :: ds => (false, ds)
          | _ => (false, s')
          end in
        match ds with
        | [] => None
        | _ => if forallb is_digit ds
               then Some (cond_Zopp neg (digits_value ds)) else None
        end
      else None
  end.

Definition decimal_literal (neg : bool) (s : jstring) : number :=
  if JsString.eqb s (str "Infinity") then S754_infinity neg
  else
    let '(ip, r1) := span is_digit s in
    let '(fp, r2) :=
      match r1 with
      | 46%N :: r => span is_digit r
      | _ => ([], r1)
      end in
    match ip ++ fp with
    | [] => NaN
    | ds => match exponent_part r2 with
            | Some ex => of_decimal neg (digits_value ds) (ex - Z.of_nat (length fp))
            | None => NaN
            end
    end.

Definition string_to_number (s : jstring) : number :=
  match trim s with
  | [] => S754_zero false
  | 48%N :: 120%N :: r | 48%N :: 88%N :: r => radix_literal 16 r
  | 48%N :: 111%N :: r | 48%N :: 79%N :: r => radix_literal 8 r
  | 48%N :: 98%N :: r | 48%N :: 66%N :: r => radix_literal 2 r
  | 45%N :: r => decimal_literal true r
  | 43%N :: r => decimal_literal false r
  | r => decimal_literal false r
  end.

Definition to_number (v : value) : outcome number :=
  match v with
  | VUndefined => Return NaN
  | VNull => Return (S754_zero false)
  | VBool true => Return (of_Z 1)
  | VBool false => Return (S754_zero false)
  | VNum x => Return x
  | VStr s => Return (string_to_number s)
  | VArr _ | VObj _ | VBuiltin _ => s ← to_string v; Return (string_to_number s)
  end.

(** *** Operators *)

Definition js_add (a b : value) : outcome value :=
  pa ← to_primitive a;
  pb ← to_primitive b;
  match pa, pb with
  | VStr _, _ | _, VStr _ =>
      sa ← to_string pa; sb ← to_string pb; Return (VStr (sa ++ sb))
  | _, _ =>
      na ← to_number pa; nb ← to_number pb; Return (VNum (add na nb))
  end.

Definition js_div (a b : value) : outcome value :=
  na ← to_number a; nb ← to_number b; Return (VNum (div na nb)).

Definition js_mul (a b : value) : outcome value :=
  na ← to_number a; nb ← to_number b; Return (VNum (mul na nb)).

(** The method call [v.toFixed(f)]; [expr] is the source text of [v],
    which the engine quotes when [v] has no such method. *)
Definition call_toFixed (expr : string) (v : value) (f : Z) : outcome jstring :=
  match v with
  | VUndefined => Throw (reading "undefined" (str "toFixed"))
  | VNull => Throw (reading "null" (str "toFixed"))
  | VNum x => Return (toFixed x f)
  | _ => Throw (mkError TypeError (str expr ++ str ".toFixed is not a function"))
  end.

End Js.

(** ** JSON.parse *)

Module Json.

Import Number Js.

(** A literal in which ['] stands for the double quote. *)
Definition qstr (s : string) : jstring :=
  (fun c => if (c =? 39)%N then 34%N else c) <$> str s.

(** *** Lexical analysis

    One pass over the code units.  A maximal run of code units that are
    neither white space, punctuation nor a quote is an atom, to be read
    as a number or as [true], [false] or [null]. *)
Inductive token :=
| TLBrace | TRBrace | TLBracket | TRBracket | TComma | TColon
| TString (s : jstring)
| TAtom (s : jstring).

Inductive lex_mode :=
| LDefault
| LAtom (acc : jstring)
| LString (acc : jstring)
| LEscape (acc : jstring)
| LUnicode (acc : jstring) (hex : list Z).

Definition is_json_space (c : N) : bool :=
  ((c =? 9) || (c =? 10) || (c =? 13) || (c =? 32))%N.

Definition punctuation (c : N) : option token :=
  if (c =? 123)%N then Some TLBrace
  else if (c =? 125)%N then Some TRBrace
  else if (c =? 91)%N then Some TLBracket
  else if (c =? 93)%N then Some TRBracket
  else if (c =? 44)%N then Some TComma
  else if (c =? 58)%N then Some TColon
  else None.

(** The character an escape [\c] denotes; [\u] is handled apart. *)
Definition escape (c : N) : option N :=
  if (c =? 34)%N then Some 34%N
  else if (c =? 92)%N then Some 92%N
  else if (c =? 47)%N then Some 47%N
  else if (c =? 98)%N then Some 8%N
  else if (c =? 102)%N then Some 12%N
  else if (c =? 110)%N then Some 10%N
  else if (c =? 114)%N then Some 13%N
  else if (c =? 116)%N then Some 9%N
  else None.

(** Tokens are accumulated in reverse. *)
Definition lex_outside (toks : list token) (c : N) : option (lex_mode * list token) :=
  if is_json_space c then Some (LDefault, toks)
  else match punctuation c with
       | Some t => Some (LDefault, t :: toks)
       | None => if (c =? 34)%N then Some (LString [], toks)
                 else Some (LAtom [c], toks)
       end.

Definition lex_step (st : lex_mode * list token) (c : N) : option (lex_mode * list token) :=
  let '(mode, toks) := st in
  match mode with
  | LDefault => lex_outside toks c
  | LAtom acc =>
      if is_json_space c || bool_decide (is_Some (punctuation c)) || (c =? 34)%N
      then lex_outside (TAtom (rev acc) :: toks) c
      else Some (LAtom (c :: acc), toks)
  | LString acc =>
      if (c =? 34)%N then Some (LDefault, TString (rev acc) :: toks)
      else if (c =? 92)%N then Some (LEscape acc, toks)
      else if (c <? 32)%N then None
      else Some (LString (c :: acc), toks)
  | LEscape acc =>
      if (c =? 117)%N then Some (LUnicode acc [], toks)
      else match escape c with
           | Some x => Some (LString (x :: acc), toks)
           | None => None
           end
  | LUnicode acc hex =>
      match radix_digit 16 c with
      | Some d =>
          match hex with
          | [a; b; c'] =>
              Some (LString (Z.to_N (((a * 16 + b) * 16 + c') * 16 + d) :: acc), toks)
          | _ => Some (LUnicode acc (hex ++ [d]), toks)
          end
      | None => None
      end
  end.

Fixpoint lex_from (st : lex_mode * list token) (s : jstring) : option (list token) :=
  match s with
  | c :: s' =>
      match lex_step st c with
      | Some st' => lex_from st' s'
      | None => None
      end
  | [] =>
      match st with
      | (LDefault, toks) => Some (rev toks)
      | (LAtom acc, toks) => Some (rev (TAtom (rev acc) :: toks))
      | _ => None
      end
  end.

Definition lex (s : jstring) : option (list token) := lex_from (LDefault, []) s.

(** A JSON number: an optional minus sign; an integer part, either a
    single zero or digits not starting with zero; an optional fraction
    (a dot and at least one digit); an optional exponent. *)
Definition json_number (s : jstring) : option number :=
  let '(neg, r0) := match s with 45%N :: r => (true, r) | _ => (false, s) end in
  let '(ip, r1) := span is_digit r0 in
  let int_ok := match ip with
                | [] => false
                | [_] => true
                | 48%N :: _ => false
                | _ => true
                end in
  let '(fp, r2, frac_ok) :=
    match r1 with
    | 46%N :: r => let '(fp, r2) := span is_digit r in
                   (fp, r2, negb (bool_decide (fp = [])))
    | _ => ([], r1, true)
    end in
  if int_ok && frac_ok then
    match exponent_part r2 with
    | Some ex => Some (of_decimal neg (digits_value (ip ++ fp)) (ex - Z.of_nat (length fp)))
    | None => None
    end
  else None.

Definition atom_value (s : jstring) : option value :=
  if JsString.eqb s (str "true") then Some (VBool true)
  else if JsString.eqb s (str "false") then Some (VBool false)
  else if JsString.eqb s (str "null") then Some VNull
  else VNum <$> json_number s.

(** *** Syntax analysis

    A pushdown automaton over the tokens.  A frame is an enclosing
    array with the elements read so far (in reverse), or an enclosing
    object with its members so far and the key whose value is being
    read.  A repeated key keeps its first position and takes the last
    value, as [JSON.parse] has it. *)
Inductive frame :=
| FArr (items : list value)
| FObj (props : list (jstring * value)) (key : jstring).

Inductive pstate :=
| PValue (stack : list frame)
| PArrStart (stack : list frame)
| PObjStart (stack : list frame)
| PKey (props : list (jstring * value)) (stack : list frame)
| PColon (props : list (jstring * value)) (key : jstring) (stack : list frame)
| PArrNext (items : list value) (stack : list frame)
| PObjNext (props : list (jstring * value)) (stack : list frame)
| PDone (v : value).

Definition complete (v : value) (stack : list frame) : pstate :=
  match stack with
  | [] => PDone v
  | FArr items :: st => PArrNext (v :: items) st
  | FObj props key :: st => PObjNext (set_own props key v) st
  end.

Definition value_token (t : token) (stack : list frame) : option pstate :=
  match t with
  | TString s => Some (complete (VStr s) stack)
  | TAtom a => (fun v => complete v stack) <$> atom_value a
  | TLBracket => Some (PArrStart stack)
  | TLBrace => Some (PObjStart stack)
  | _ => None
  end.

Definition parse_step (st : pstate) (t : token) : option pstate :=
  match st, t with
  | PValue stack, _ => value_token t stack
  | PArrStart stack, TRBracket => Some (complete (VArr []) stack)
  | PArrStart stack, _ => value_token t (FArr [] :: stack)
  | PObjStart stack, TRBrace => Some (complete (VObj []) stack)
  | PObjStart stack, TString k => Some (PColon [] k stack)
  | PKey props stack, TString k => Some (PColon props k stack)
  | PColon props k stack, TColon => Some (PValue (FObj props k :: stack))
  | PArrNext items stack, TComma => Some (PValue (FArr items :: stack))
  | PArrNext items stack, TRBracket => Some (complete (VArr (rev items)) stack)
  | PObjNext props stack, TComma => Some (PKey props stack)
  | PObjNext props stack, TRBrace => Some (complete (VObj props) stack)
  | _, _ => None
  end.

Fixpoint parse_from (st : pstate) (toks : list token) : option value :=
  match toks with
  | t :: toks' =>
      match parse_step st t with
      | Some st' => parse_from st' toks'
      | None => None
      end
  | [] => match st with PDone v => Some v | _ => None end
  end.

(** The value a JSON text denotes, if it is one. *)
Definition parse_text (s : jstring) : option value :=
  toks ← lex s; parse_from (PValue []) toks.

(** [JSON.parse(v)]: the argument is first converted to a string. *)
Definition JSON_parse (v : value) : outcome value :=
  s ← to_string v;
  match parse_text s with
  | Some x => Return x
  | None => Throw (mkError SyntaxError (str "Unexpected token in JSON"))
  end.

End Json.

(** ** Regular expressions

    A backtracking matcher for the constructs the two patterns of the
    service use, with the priorities of ECMAScript: a greedy quantifier
    tries the longest repetition first, a lazy one the shortest, and the
    first alternative that lets the rest of the pattern match wins. *)

Module Regex.

Inductive regex :=
| Eps
| Chr (c : N)
| Cat (r1 r2 : regex)
| Opt (r : regex)
| Star (p : N -> bool)
| LazyStar (p : N -> bool)
| Group (r : regex).

Definition Lit (s : string) : regex := foldr (fun c r => Cat (Chr c) r) Eps (str s).

(** [run r s cap k]: match [r] at the start of [s], then continue with
    [k] on what is left and on the text captured by group 1. *)
Fixpoint run {R} (r : regex) (s : jstring) (cap : option jstring)
  (k : jstring -> option jstring -> option R) : option R :=
  match r with
  | Eps => k s cap
  | Chr c =>
      match s with
      | x :: s' => if (x =? c)%N then k s' cap else None
      | [] => None
      end
  | Cat r1 r2 => run r1 s cap (fun s' cap' => run r2 s' cap' k)
  | Opt r1 =>
      match run r1 s cap k with
      | Some res => Some res
      | None => k s cap
      end
  | Star p =>
      (fix greedy (s : jstring) : option R :=
         match s with
         | x :: s' =>
             if p x then match greedy s' with
                         | Some res => Some res
                         | None => k s cap
                         end
             else k s cap
         | [] => k [] cap
         end) s
  | LazyStar p =>
      (fix lazy (s : jstring) : option R :=
         match k s cap with
         | Some res => Some res
         | None => match s with
                   | x :: s' => if p x then lazy s' else None
                   | [] => None
                   end
         end) s
  | Group r1 =>
      run r1 s cap (fun s' _ => k s' (Some (take (length s - length s') s)))
  end.

(** The result array of a successful match: the matched text and the
    text of group 1 ([undefined] when the pattern has no group). *)
Record match_result := { m0 : jstring; m1 : option jstring }.

Definition match_here (r : regex) (s : jstring) : option match_result :=
  run r s None (fun s' cap => Some {| m0 := take (length s - length s') s; m1 := cap |}).

(** [String.prototype.match] with a pattern without flags: the match at
    the leftmost position that has one. *)
Fixpoint search (r : regex) (s : jstring) : option match_result :=
  match match_here r s with
  | Some m => Some m
  | None => match s with
            | _ :: s' => search r s'
            | [] => None
            end
  end.

Definition any (c : N) : bool := true.

(** [/```(?:json)?\s*([\s\S]*?)\s*```/] *)
Definition fence : regex :=
  Cat (Lit "```")
    (Cat (Opt (Lit "json"))
       (Cat (Star is_js_space)
          (Cat (Group (LazyStar any))
             (Cat (Star is_js_space) (Lit "```"))))).

(** [/\{[\s\S]*\}/] *)
Definition brace : regex := Cat (Chr 123) (Cat (Star any) (Chr 125)).

End Regex.

(** ** Effects: the upload directory, the clock and the remote services *)

Module Effects.

Import Number Js.

(** [req.file] as the upload middleware leaves it. *)
Record file := { path : jstring; originalname : jstring }.

(** The argument of [openai.responses.create]: the model, the contents
    of the system and user messages, and the temperature ([None] for
    [undefined]). *)
Record api_request := {
  req_model : jstring;
  req_system : jstring;
  req_user : jstring;
  req_temperature : option number }.

(** What the service does not control: the PDF text extractor, the
    remote API, whether a removal fails, the readings of the clock and
    the formatting of a date. *)
Record env := {
  pdfParse : list N -> outcome value;
  responses_create : api_request -> outcome value;
  remove_failure : jstring -> option error;
  clock : nat -> Z;
  toISOString : Z -> jstring }.

(** The upload directory and the number of clock readings so far. *)
Record world := { files : gmap jstring (list N); ticks : nat }.

Definition M (A : Type) : Type := world -> outcome A * world.

#[export] Instance M_ret : MRet M := fun A a w => (Return a, w).

#[export] Instance M_bind : MBind M := fun A B k m w =>
  match m w with
  | (Return a, w') => k a w'
  | (Throw e, w') => (Throw e, w')
  end.

Definition throw {A} (e : error) : M A := fun w => (Throw e, w).

Definition lift {A} (o : outcome A) : M A := fun w => (o, w).

(** [try { m } catch (e) { handler e }]: what [m] did before it threw
    stays done. *)
Definition try_catch {A} (m : M A) (handler : error -> M A) : M A := fun w =>
  match m w with
  | (Return a, w') => (Return a, w')
  | (Throw e, w') => handler e w'
  end.

(** The keys of [files] are the paths of the stored files, written as
    the upload middleware writes them: absolute, with [/] between the
    names and no [.] or [..] among them.  A path names a stored file,
    or a directory: the files that lie below it. *)

(** A path without the separators at its end. *)
Fixpoint strip_separators (p : jstring) : jstring :=
  match p with
  | [] => []
  | c :: p' =>
      match strip_separators p' with
      | [] => if (c =? 47)%N then [] else [c]
      | d => c :: d
      end
  end.

(** The stored file [k] is what the path [p] names, or lies in the
    directory that [p] names.  The empty path names nothing. *)
Definition below (p k : jstring) : bool :=
  match p with
  | [] => false
  | _ :: _ =>
      let d := strip_separators p in
      JsString.eqb k d || bool_decide (is_Some (prefix_of (d ++ [47%N]) k))
  end.

(** What is left of the stored files once [p] is removed with all
    that lies below it. *)
Definition removed (p : jstring) (stored : gmap jstring (list N)) : gmap jstring (list N) :=
  filter (fun kv => below p kv.1 = false) stored.

Definition is_directory (p : jstring) (stored : gmap jstring (list N)) : bool :=
  existsb (fun kv => below p kv.1) (map_to_list stored).

Section WithEnv.
Variable E : env.

Definition readFile (p : jstring) : M (list N) := fun w =>
  match files w !! p with
  | Some bytes => (Return bytes, w)
  | None =>
      (Throw (mkError SystemError
                (if is_directory p (files w)
                 then str "EISDIR: illegal operation on a directory, read"
                 else str "ENOENT: no such file or directory, open '" ++ p ++ str "'")), w)
  end.

(** [fs.remove]: a file is removed, a directory is removed with all
    that is in it, and removing what does not exist succeeds. *)
Definition remove (p : jstring) : M unit := fun w =>
  match remove_failure E p with
  | Some e => (Throw e, w)
  | None => (Return tt, {| files := removed p (files w); ticks := ticks w |})
  end.

(** [new Date()], as milliseconds since the epoch. *)
Definition new_Date : M Z := fun w =>
  (Return (clock E (ticks w)), {| files := files w; ticks := S (ticks w) |}).
End WithEnv.

End Effects.

(** ** The service: [src/services/pdfService.js] *)

Module PdfService.

Import Number Js Json Regex Effects.

Definition AVAILABLE_MODELS : list jstring :=
  str <$> ["gpt-4.5-preview"; "gpt-4o"; "gpt-4o-mini"; "o3-mini"; "o1"; "o1-pro"]%string.

Definition rates (input cachedInput output : value) : value :=
  VObj [(str "input", input); (str "cachedInput", cachedInput); (str "output", output)].

(** The own properties of the object literal [prices]. *)
Definition price_table : list (jstring * value) :=
  [ (str "gpt-4.5-preview", rates (lit 750 (-1)) (lit 375 (-1)) (lit 1500 (-1)));
    (str "gpt-4o", rates (lit 25 (-1)) (lit 125 (-2)) (lit 100 (-1)));
    (str "gpt-4o-mini", rates (lit 15 (-2)) (lit 75 (-3)) (lit 60 (-2)));
    (str "o3-mini", rates (lit 110 (-2)) (lit 55 (-2)) (lit 440 (-2)));
    (str "o1", rates (lit 1500 (-2)) (lit 750 (-2)) (lit 6000 (-2)));
    (str "o1-pro", rates (lit 15000 (-2)) (lit 15000 (-2)) (lit 60000 (-2))) ].

Definition prices : value := VObj price_table.

Definition pricing (model : jstring) (inputRate cachedInputRate outputRate
                                       inputCost outputCost totalCost : jstring) : value :=
  VObj [ (str "model", VStr model);
         (str "rates", VObj [ (str "inputRate", VStr inputRate);
                              (str "cachedInputRate", VStr cachedInputRate);
                              (str "outputRate", VStr outputRate) ]);
         (str "costs", VObj [ (str "inputCost", VStr inputCost);
                              (str "outputCost", VStr outputCost);
                              (str "totalCost", VStr totalCost) ]) ].

Definition not_available (model : jstring) : value :=
  pricing model (str "N/A") (str "N/A") (str "N/A") (str "N/A") (str "N/A") (str "N/A").

(** [usage.prompt_tokens || usage.input_tokens || 0] *)
Definition prompt_tokens_of (usage : value) : outcome value :=
  or_else (or_else (get usage (str "prompt_tokens")) (get usage (str "input_tokens")))
          (Return (lit 0 0)).

(** [usage.completion_tokens || usage.output_tokens || 0] *)
Definition completion_tokens_of (usage : value) : outcome value :=
  or_else (or_else (get usage (str "completion_tokens")) (get usage (str "output_tokens")))
          (Return (lit 0 0)).

Definition per_million (rate : jstring) : jstring :=
  str "$" ++ rate ++ str " per million tokens".

Definition calculatePrice (model : jstring) (usage : value) : outcome value :=
  if negb (truthy usage) || negb (JsString.eqb (typeof usage) (str "object")) then
    Return (not_available model)
  else
    promptTokens ← prompt_tokens_of usage;
    completionTokens ← completion_tokens_of usage;
    totalTokens ← or_else (get usage (str "total_tokens"))
                          (js_add promptTokens completionTokens);
    modelPrices ← or_else (get prices model) (get prices (str "gpt-4o"));
    inputPrice ← (q ← js_div promptTokens (lit 1000000 0);
                  r ← get modelPrices (str "input"); js_mul q r);
    outputPrice ← (q ← js_div completionTokens (lit 1000000 0);
                   r ← get modelPrices (str "output"); js_mul q r);
    inputRate ← (r ← get modelPrices (str "input");
                 call_toFixed "modelPrices.input" r 2);
    cachedInputRate ← (r ← get modelPrices (str "cachedInput");
                       call_toFixed "modelPrices.cachedInput" r 2);
    outputRate ← (r ← get modelPrices (str "output");
                  call_toFixed "modelPrices.output" r 2);
    inputCost ← call_toFixed "inputPrice" inputPrice 6;
    outputCost ← call_toFixed "outputPrice" outputPrice 6;
    totalCost ← (t ← js_add inputPrice outputPrice;
                 call_toFixed "(inputPrice + outputPrice)" t 6);
    Return (pricing model (per_million inputRate) (per_million cachedInputRate)
              (per_million outputRate)
              (str "$" ++ inputCost) (str "$" ++ outputCost) (str "$" ++ totalCost)).

(** The [usage] object both entry points return:
    [{prompt_tokens: .., completion_tokens: .., total_tokens: ..}]. *)
Definition normalized_usage (usage : value) : outcome value :=
  prompt ← prompt_tokens_of usage;
  completion ← completion_tokens_of usage;
  total ← or_else (get usage (str "total_tokens"))
                  (p ← prompt_tokens_of usage;
                   c ← completion_tokens_of usage;
                   js_add p c);
  Return (VObj [ (str "prompt_tokens", prompt);
                 (str "completion_tokens", completion);
                 (str "total_tokens", total) ]).

(** *** Recovering JSON from the reply *)

Definition catch {A} (m : outcome A) (handler : error -> outcome A) : outcome A :=
  match m with
  | Return a => Return a
  | Throw e => handler e
  end.

(** [content.match(r)]: the match array, or [None] for [null]. *)
Definition content_match (content : value) (r : regex) : outcome (option match_result) :=
  match content with
  | VStr s => Return (search r s)
  | VUndefined => Throw (reading "undefined" (str "match"))
  | VNull => Throw (reading "null" (str "match"))
  | _ => Throw (mkError TypeError (str "content.match is not a function"))
  end.

(** [jsonMatch[1] || jsonMatch[0]] *)
Definition jsonString_of (m : match_result) : jstring :=
  match m1 m with
  | Some (c :: s) => c :: s
  | _ => m0 m
  end.

(** The two nested [try] blocks that assign [extractedData]; [failure]
    is what the inner [catch] throws. *)
Definition parse_reply (failure : error) (content : value) : outcome value :=
  catch (JSON_parse content) (fun firstError =>
    catch
      (fenced ← content_match content fence;
       jsonMatch ← match fenced with
                   | Some m => Return (Some m)
                   | None => content_match content brace
                   end;
       match jsonMatch with
       | None => Throw (mkError Error (str "No valid JSON found in response"))
       | Some m => JSON_parse (VStr (jsonString_of m))
       end)
      (fun secondError => Throw failure)).

(** [extractedData && typeof extractedData === 'object'] *)
Definition usable (extractedData : value) : bool :=
  truthy extractedData && JsString.eqb (typeof extractedData) (str "object").

Definition parse_failure : error :=
  mkError Error (str "Failed to parse bill data from OpenAI response").

Definition invalid_data_format : error :=
  mkError Error (str "Invalid data format received from OpenAI").

(** What the multi-model loop throws when no JSON is recovered. *)
Definition parse_failure_of (model : jstring) : error :=
  mkError Error (str "Failed to parse bill data from " ++ model ++ str " response").

(** The reconciliation of [extractBillData]: recover JSON from the
    reply, then validate what was recovered. *)
Definition reconcile_reply (content : value) : outcome value :=
  extractedData ← parse_reply parse_failure content;
  if negb (usable extractedData) then Throw invalid_data_format
  else Return extractedData.

(** *** The request to the model *)

Definition system_prompt : jstring :=
  str "You are a helpful assistant that extracts information from electricity bills. You must return your response as a valid JSON object without any markdown formatting or code blocks.".

Definition user_prompt (extractedText : jstring) : jstring :=
  str "Extract the following fields from this electricity bill text and return ONLY a JSON object (no markdown, no ``` blocks):"
  ++ [10%N; 10%N]
  ++ str "Required fields: Address, Arrears, BaCode, BillDate, BillDueDate, BilledUnit, BillFetchTimeStamp, BillMonth, BillNo, CanSerNo, CGST, CircleCode, CmrDt, CmrKwh, ConCat, ConnLd, ConnType, ConsumerName, ConsUnits, CurAmtPay, DiscCode, EleDuty, EngyChg, EntityCode, EntityType, Filename, FinalClosingReading, FinalConsUnits, FinalOpeningReading, FulCstAdj, FxdChg, GrosAmt, LastAmountpaid, LastAmountPaidDate, LtPaySurChg, MeterStatus, MetRent, MetrNo, MulFac, OmrDt, OmrKwh."
  ++ [10%N; 10%N] ++ str "Bill text:" ++ [10%N] ++ extractedText.

Definition startsWith (s p : jstring) : bool := bool_decide (is_Some (prefix_of p s)).

Definition request_for (model : jstring) (extractedText : jstring) : api_request :=
  {| req_model := model;
     req_system := system_prompt;
     req_user := user_prompt extractedText;
     req_temperature := if startsWith model (str "gpt-") then Some (of_decimal false 1 (-1))
                        else None |}.

Section WithEnv.
Variable E : env.

(** The inner [try] around the API call: the reply text and the usage
    counters, or an error naming the model. *)
Definition invoke (model : jstring) (extractedText : value) : outcome (value * value) :=
  catch
    (text ← to_string extractedText;
     response ← responses_create E (request_for model text);
     content ← get response (str "output_text");
     usage ← get response (str "usage");
     Return (content, usage))
    (fun error =>
       Throw (mkError Error (str "Failed to process with model " ++ model
                             ++ str ": " ++ message error))).

Definition extractBillData (fileData : file) (model_arg : option jstring) : M value :=
  let model := default (str "o3-mini") model_arg in
  try_catch
    (let tempFilePath := path fileData in
     pdfBuffer ← readFile tempFilePath;
     pdfData ← lift (pdfParse E pdfBuffer);
     extractedText ← lift (get pdfData (str "text"));
     '(content, usage) ← lift (invoke model extractedText);
     extractedData ← lift (reconcile_reply content);
     _ ← remove E (path fileData);
     pricing ← lift (calculatePrice model usage);
     usage' ← lift (normalized_usage usage);
     mret (VObj [ (str "data", extractedData);
                  (str "usage", usage');
                  (str "pricing", pricing) ]))
    (fun error => throw error).

Definition seconds (durationSec : jstring) : jstring := durationSec ++ str " seconds".

(** One iteration of the loop over the models: the entry pushed to
    [results], by the [try] body or by its [catch]. *)
Definition process_model (extractedText : value) (model : jstring) : M value :=
  try_catch
    (startTime ← new_Date E;
     '(content, usage) ← lift (invoke model extractedText);
     endTime ← new_Date E;
     let durationMs := sub (of_Z endTime) (of_Z startTime) in
     let durationSec := toFixed (div durationMs (of_Z 1000)) 2 in
     extractedData ← lift (parse_reply (parse_failure_of model) content);
     pricing ← lift (calculatePrice model usage);
     usage' ← lift (normalized_usage usage);
     processingTime ← lift (or_else (get usage (str "total_ms")) (Return (lit 0 0)));
     mret (VObj [ (str "model", VStr model);
                  (str "data", extractedData);
                  (str "usage", usage');
                  (str "pricing", pricing);
                  (str "timing",
                    VObj [ (str "startTime", VStr (toISOString E startTime));
                           (str "endTime", VStr (toISOString E endTime));
                           (str "durationMs", VNum durationMs);
                           (str "durationSec", VStr (seconds durationSec)) ]);
                  (str "processingTime", processingTime) ]))
    (fun modelError =>
       t1 ← new_Date E;
       t2 ← new_Date E;
       mret (VObj [ (str "model", VStr model);
                    (str "error", VStr (message modelError));
                    (str "data", VNull);
                    (str "usage", VNull);
                    (str "pricing", VNull);
                    (str "timing",
                      VObj [ (str "startTime", VStr (toISOString E t1));
                             (str "endTime", VStr (toISOString E t2));
                             (str "durationMs", lit 0 0);
                             (str "durationSec", VStr (str "0.00 seconds")) ]) ])).

(** [for (const model of models) { ... results.push(...) }] *)
Fixpoint for_each_model (extractedText : value) (models : list jstring)
  (results : list value) : M (list value) :=
  match models with
  | [] => mret results
  | model :: rest =>
      entry ← process_model extractedText model;
      for_each_model extractedText rest (results ++ [entry])
  end.

Definition extractBillDataWithModels (models : list jstring) (fileData : file) : M value :=
  try_catch
    (let tempFilePath := path fileData in
     pdfBuffer ← readFile tempFilePath;
     pdfData ← lift (pdfParse E pdfBuffer);
     extractedText ← lift (get pdfData (str "text"));
     results ← for_each_model extractedText models [];
     _ ← remove E (path fileData);
     mret (VArr results))
    (fun error =>
       _ ← (if truthy (VStr (path fileData))
            then try_catch (remove E (path fileData)) (fun _ => mret tt)
            else mret tt);
       throw error).

Definition extractBillDataWithAllModels : file -> M value :=
  extractBillDataWithModels AVAILABLE_MODELS.
End WithEnv.

End PdfService.

(** ** The controller: [src/controllers/pdfController.js] *)

Module PdfController.

Import Number Js Effects.

Record http_request := { req_file : option file }.

(** [res.status(code).json(body)] *)
Record http_response := { status : Z; body : value }.

Definition error_body (msg : jstring) : value :=
  VObj [ (str "status", VStr (str "error")); (str "message", VStr msg) ].

(** [data.Filename = name].  A property added to an array is not among
    its elements and does not reach the JSON body. *)
Definition set_Filename (data : value) (name : jstring) : value :=
  match data with
  | VObj props => VObj (set_own props (str "Filename") (VStr name))
  | _ => data
  end.

Definition fallback_message (msg fallback : jstring) : jstring :=
  match msg with
  | [] => fallback
  | _ => msg
  end.

(** What a [catch] clause binds: an [Error] object, or any other
    value that was thrown or that a promise was rejected with. *)
Inductive thrown :=
| AnError (e : error)
| AValue (v : value).

(** How an awaited call settles. *)
Inductive settled (A : Type) :=
| Fulfilled (a : A)
| Rejected (t : thrown).
Arguments Fulfilled {A} a.
Arguments Rejected {A} t.

(** A call that may be rejected with any value. *)
Definition async (A : Type) : Type := world -> settled A * world.

(** Code that throws [Error] objects only, as the service does. *)
Definition settle {A} (m : M A) : async A := fun w =>
  match m w with
  | (Return a, w') => (Fulfilled a, w')
  | (Throw e, w') => (Rejected (AnError e), w')
  end.

(** [const x = await p; k x] *)
Definition await {A B} (p : async A) (k : A -> M B) : async B := fun w =>
  match p w with
  | (Fulfilled a, w') => settle (k a) w'
  | (Rejected t, w') => (Rejected t, w')
  end.

(** [try { body } catch (error) { handler error }] *)
Definition catching {A} (body : async A) (handler : thrown -> M A) : M A := fun w =>
  match body w with
  | (Fulfilled a, w') => (Return a, w')
  | (Rejected t, w') => handler t w'
  end.

(** [error.message || fallback].  Reading the message of [null] or of
    [undefined] throws. *)
Definition message_or (error : thrown) (fallback : jstring) : outcome value :=
  match error with
  | AnError e => Return (VStr (fallback_message (message e) fallback))
  | AValue v =>
      m ← get v (str "message");
      Return (if truthy m then m else VStr fallback)
  end.

(** The [catch] clause of the handlers.  When it throws, the handler
    ends without a response. *)
Definition respond_500 (error : thrown) (fallback : jstring) : M http_response :=
  msg ← lift (message_or error fallback);
  mret {| status := 500;
          body := VObj [ (str "status", VStr (str "error")); (str "message", msg) ] |}.

Section WithService.
(** The two functions imported from the service. *)
Variable extractBillData : file -> async value.
Variable extractBillDataWithAllModels : file -> async value.

Definition processPdf (req : http_request) : M http_response :=
  catching
    (match req_file req with
     | None =>
         settle (mret {| status := 400; body := error_body (str "No PDF file provided") |})
     | Some f =>
         await (extractBillData f) (fun result =>
           data ← lift (get result (str "data"));
           if PdfService.usable data then
             usage ← lift (get result (str "usage"));
             pricing ← lift (get result (str "pricing"));
             mret {| status := 200;
                     body := VObj [ (str "status", VStr (str "success"));
                                    (str "data", set_Filename data (originalname f));
                                    (str "usage", usage);
                                    (str "pricing", pricing) ] |}
           else
             mret {| status := 422;
                     body := error_body (str "Failed to extract data from the PDF") |})
     end)
    (fun error => respond_500 error (str "Failed to process PDF")).

(** [results.forEach(result => { if (usable) result.data.Filename = .. })] *)
Definition with_Filename (name : jstring) (result : value) : outcome value :=
  data ← get result (str "data");
  if PdfService.usable data then
    match result with
    | VObj props => Return (VObj (set_own props (str "data") (set_Filename data name)))
    | _ => Return result
    end
  else Return result.

Definition processPdfWithAllModels (req : http_request) : M http_response :=
  catching
    (match req_file req with
     | None =>
         settle (mret {| status := 400; body := error_body (str "No PDF file provided") |})
     | Some f =>
         await (extractBillDataWithAllModels f) (fun results =>
           results' ← lift (match results with
                            | VArr items =>
                                items' ← mapM (with_Filename (originalname f)) items;
                                Return (VArr items')
                            | VUndefined => Throw (reading "undefined" (str "forEach"))
                            | VNull => Throw (reading "null" (str "forEach"))
                            | _ => Throw (mkError TypeError
                                            (str "results.forEach is not a function"))
                            end);
           mret {| status := 200;
                   body := VObj [ (str "status", VStr (str "success"));
                                  (str "filename", VStr (originalname f));
                                  (str "results", results') ] |})
     end)
    (fun error => respond_500 error (str "Failed to process PDF with multiple models")).
End WithService.

(** The handlers wired to the service, as the router mounts them. *)
Definition handle_pdf (E : env) : http_request -> M http_response :=
  processPdf (fun f => settle (PdfService.extractBillData E f None)).

Definition handle_pdf_all (E : env) : http_request -> M http_response :=
  processPdfWithAllModels (fun f => settle (PdfService.extractBillDataWithAllModels E f)).

End PdfController.

(** ** The earlier revisions of the service

    [src/services/pdfService.js] holds four revisions of the service.
    The three embedded here call [openai.chat.completions.create] and
    read the reply from [response.choices[0].message.content]; they
    share the prompts and the recovery of JSON with the revision above. *)

Module Chat.

Import Number Js Json Regex Effects PdfService.

(** The argument of [openai.chat.completions.create]. *)
Record chat_request := {
  chat_model : jstring;
  chat_system : jstring;
  chat_user : jstring;
  chat_temperature : number;
  chat_max_tokens : option number }.

Definition chat_request_for (model : jstring) (max_tokens : option number)
  (extractedText : jstring) : chat_request :=
  {| chat_model := model;
     chat_system := system_prompt;
     chat_user := user_prompt extractedText;
     chat_temperature := of_decimal false 1 (-1);
     chat_max_tokens := max_tokens |}.

(** [response.choices[0].message.content] *)
Definition content_of (response : value) : outcome value :=
  choices ← get response (str "choices");
  choice ← get choices (str "0");
  message ← get choice (str "message");
  get message (str "content").

(** [response.usage.k] *)
Definition usage_field (response : value) (k : string) : outcome value :=
  usage ← get response (str "usage"); get usage (str k).

(** [{prompt_tokens: response.usage.prompt_tokens, completion_tokens:
    response.usage.completion_tokens, total_tokens:
    response.usage.total_tokens}] *)
Definition reported_usage (response : value) : outcome value :=
  prompt ← usage_field response "prompt_tokens";
  completion ← usage_field response "completion_tokens";
  total ← usage_field response "total_tokens";
  Return (VObj [ (str "prompt_tokens", prompt);
                 (str "completion_tokens", completion);
                 (str "total_tokens", total) ]).

Definition price_table : list (jstring * value) :=
  [ (str "gpt-4.5-preview", rates (lit 750 (-1)) (lit 375 (-1)) (lit 1500 (-1)));
    (str "gpt-4o", rates (lit 25 (-1)) (lit 125 (-2)) (lit 100 (-1)));
    (str "gpt-4o-mini", rates (lit 15 (-2)) (lit 75 (-3)) (lit 60 (-2))) ].

Definition prices : value := VObj price_table.

(** [calculatePrice] as the first and the third revision have it:
    without a guard on [usage] and without the second naming of the
    counters. *)
Definition calculatePrice (model : jstring) (usage : value) : outcome value :=
  modelPrices ← or_else (get prices model) (get prices (str "gpt-4o"));
  inputPrice ← (p ← get usage (str "prompt_tokens");
                q ← js_div p (lit 1000000 0);
                r ← get modelPrices (str "input"); js_mul q r);
  outputPrice ← (c ← get usage (str "completion_tokens");
                 q ← js_div c (lit 1000000 0);
                 r ← get modelPrices (str "output"); js_mul q r);
  inputRate ← (r ← get modelPrices (str "input");
               call_toFixed "modelPrices.input" r 2);
  cachedInputRate ← (r ← get modelPrices (str "cachedInput");
                     call_toFixed "modelPrices.cachedInput" r 2);
  outputRate ← (r ← get modelPrices (str "output");
                call_toFixed "modelPrices.output" r 2);
  inputCost ← call_toFixed "inputPrice" inputPrice 6;
  outputCost ← call_toFixed "outputPrice" outputPrice 6;
  totalCost ← (t ← js_add inputPrice outputPrice;
               call_toFixed "(inputPrice + outputPrice)" t 6);
  Return (pricing model (per_million inputRate) (per_million cachedInputRate)
            (per_million outputRate)
            (str "$" ++ inputCost) (str "$" ++ outputCost) (str "$" ++ totalCost)).

Section WithEnv.
Variable E : env.
(** [openai.chat.completions.create] *)
Variable chat_completions_create : chat_request -> outcome value.

(** The call to the API with the prompt built from the text. *)
Definition complete (model : jstring) (max_tokens : option number)
  (extractedText : value) : outcome value :=
  text ← to_string extractedText;
  chat_completions_create (chat_request_for model max_tokens text).

(** [if (fileData.path) { await fs.remove(fileData.path).catch(() => {}) }] *)
Definition cleanup (fileData : file) : M unit :=
  if truthy (VStr (path fileData))
  then try_catch (remove E (path fileData)) (fun _ => mret tt)
  else mret tt.

End WithEnv.

End Chat.

(** *** Lines 1 to 251: a model argument, three models, no removal in
    the single-model function *)

Module Rev1.

Import Number Js Json Regex Effects PdfService Chat.

Definition AVAILABLE_MODELS : list jstring :=
  str <$> ["gpt-4.5-preview"; "gpt-4o"; "gpt-4o-mini"]%string.

Section WithEnv.
Variable E : env.
Variable chat_completions_create : chat_request -> outcome value.

Definition extractBillData (fileData : file) (model_arg : option jstring) : M value :=
  let model := default (str "gpt-4.5-preview") model_arg in
  try_catch
    (let tempFilePath := path fileData in
     pdfBuffer ← readFile tempFilePath;
     pdfData ← lift (pdfParse E pdfBuffer);
     extractedText ← lift (get pdfData (str "text"));
     response ← lift (complete chat_completions_create model None extractedText);
     content ← lift (content_of response);
     extractedData ← lift (reconcile_reply content);
     pricing ← lift (usage ← get response (str "usage"); calculatePrice model usage);
     usage' ← lift (reported_usage response);
     mret (VObj [ (str "data", extractedData);
                  (str "usage", usage');
                  (str "pricing", pricing) ]))
    (fun error => throw error).

(** One iteration of the loop: the entry pushed to [results]. *)
Definition process_model (extractedText : value) (model : jstring) : value :=
  match
    (response ← complete chat_completions_create model None extractedText;
     content ← content_of response;
     extractedData ← parse_reply (parse_failure_of model) content;
     pricing ← (usage ← get response (str "usage"); calculatePrice model usage);
     usage' ← reported_usage response;
     processingTime ← or_else (usage_field response "total_ms") (Return (lit 0 0));
     Return (VObj [ (str "model", VStr model);
                    (str "data", extractedData);
                    (str "usage", usage');
                    (str "pricing", pricing);
                    (str "processingTime", processingTime) ]))
  with
  | Return entry => entry
  | Throw modelError =>
      VObj [ (str "model", VStr model);
             (str "error", VStr (message modelError));
             (str "data", VNull);
             (str "usage", VNull);
             (str "pricing", VNull) ]
  end.

Definition extractBillDataWithModels (models : list jstring) (fileData : file) : M value :=
  try_catch
    (let tempFilePath := path fileData in
     pdfBuffer ← readFile tempFilePath;
     pdfData ← lift (pdfParse E pdfBuffer);
     extractedText ← lift (get pdfData (str "text"));
     let results := process_model extractedText <$> models in
     _ ← remove E (path fileData);
     mret (VArr results))
    (fun error => _ ← cleanup E fileData; throw error).

Definition extractBillDataWithAllModels : file -> M value :=
  extractBillDataWithModels AVAILABLE_MODELS.

End WithEnv.

End Rev1.

(** *** Lines 601 to 751: the model is gpt-4o; the file is removed on
    both paths *)

Module Rev3.

Import Number Js Json Regex Effects PdfService Chat.

Section WithEnv.
Variable E : env.
Variable chat_completions_create : chat_request -> outcome value.

Definition extractBillData (fileData : file) : M value :=
  try_catch
    (pdfBuffer ← readFile (path fileData);
     pdfData ← lift (pdfParse E pdfBuffer);
     extractedText ← lift (get pdfData (str "text"));
     let model := str "gpt-4o" in
     response ← lift (complete chat_completions_create model None extractedText);
     content ← lift (content_of response);
     extractedData ← lift (reconcile_reply content);
     _ ← remove E (path fileData);
     pricing ← lift (usage ← get response (str "usage"); calculatePrice model usage);
     usage' ← lift (reported_usage response);
     mret (VObj [ (str "data", extractedData);
                  (str "usage", usage');
                  (str "pricing", pricing) ]))
    (fun error => _ ← cleanup E fileData; throw error).

End WithEnv.

End Rev3.

(** *** Lines 752 to 850: gpt-4.5-preview with a token limit, no
    pricing *)

Module Rev4.

Import Number Js Json Regex Effects PdfService Chat.

Section WithEnv.
Variable E : env.
Variable chat_completions_create : chat_request -> outcome value.

Definition extractBillData (fileData : file) : M value :=
  try_catch
    (pdfBuffer ← readFile (path fileData);
     pdfData ← lift (pdfParse E pdfBuffer);
     extractedText ← lift (get pdfData (str "text"));
     response ← lift (complete chat_completions_create (str "gpt-4.5-preview")
                        (Some (of_Z 4000)) extractedText);
     content ← lift (content_of response);
     extractedData ← lift (reconcile_reply content);
     _ ← remove E (path fileData);
     usage' ← lift (reported_usage response);
     mret (VObj [ (str "data", extractedData); (str "usage", usage') ]))
    (fun error => _ ← cleanup E fileData; throw error).

End WithEnv.

End Rev4.

(** ** The upload middleware: [src/middleware/fileUploadMiddleware.js] *)

Module FileUploadMiddleware.

Import Js Effects PdfController.

(** What [fileFilter] hands to its callback: [cb(null, true)] or
    [cb(new Error(..), false)]. *)
Definition fileFilter (mimetype : value) : outcome bool :=
  match mimetype with
  | VStr s =>
      if JsString.eqb s (str "application/pdf") then Return true
      else Throw (mkError Error (str "Only PDF files are accepted"))
  | _ => Throw (mkError Error (str "Only PDF files are accepted"))
  end.

(** The error an upload ends with: an instance of [multer.MulterError]
    or any other error. *)
Inductive upload_error :=
| MulterError (e : error)
| OtherError (e : error).

(** The response of [handleUploadError], or [None] when it calls
    [next()]. *)
Definition handleUploadError (err : option upload_error) : option http_response :=
  match err with
  | Some (MulterError e) =>
      Some {| status := 400;
              body := error_body (str "Multer upload error: " ++ message e) |}
  | Some (OtherError e) => Some {| status := 400; body := error_body (message e) |}
  | None => None
  end.

(** How [uploadPdf] ends: with [req.file] set or left undefined, or with
    an error passed to [next]. *)
Inductive upload :=
| Stored (f : option file)
| Failed (err : upload_error).

(** [router.post('/pdf', uploadPdf, handleUploadError, processPdf)]: an
    error of the upload goes to [handleUploadError], which is skipped
    otherwise. *)
Definition post_pdf (processPdf : http_request -> M http_response) (u : upload)
  : M http_response :=
  match u with
  | Failed err =>
      match handleUploadError (Some err) with
      | Some r => mret r
      | None => processPdf {| req_file := None |}
      end
  | Stored f => processPdf {| req_file := f |}
  end.

End FileUploadMiddleware.

(** ** The authentication middleware: [src/middleware/authMiddleware.js] *)

Module AuthMiddleware.

Import Js Effects PdfService PdfController.

(** What the middleware does: it responds, or it sets [req.user] and
    calls [next()]. *)
Inductive verdict :=
| Respond (r : http_response)
| Next (user : value).

Definition example_user : value :=
  VObj [ (str "id", VStr (str "example-user-id")); (str "role", VStr (str "user")) ].

(** [authHeader] is [req.headers.authorization]: a string, or [None]
    for [undefined] when the request has no such header. *)
Definition isAuthenticated (authHeader : option jstring) : verdict :=
  match authHeader with
  | None | Some [] =>
      Respond {| status := 401;
                 body := error_body (str "Unauthorized: No authentication token provided") |}
  | Some h =>
      if startsWith h (str "Bearer ") then Next example_user
      else Respond {| status := 401;
                      body := error_body (str "Unauthorized: Invalid authentication token") |}
  end.

End AuthMiddleware.

(** ** The utility functions *)

Module Utils.

Import Js.

(** The patterns [emailRegex] is built from: the anchors, one character
    of a class, and one or more characters of a class, taken greedily. *)
Inductive pattern :=
| Bol
| Eol
| One (p : N -> bool)
| Plus (p : N -> bool)
| Seq (r1 r2 : pattern).

(** [accepts r at_start s k]: match [r] at the start of [s], which is
    the start of the input when [at_start] holds, then continue with
    [k]. *)
Fixpoint accepts (r : pattern) (at_start : bool) (s : jstring)
  (k : bool -> jstring -> bool) : bool :=
  match r with
  | Bol => at_start && k at_start s
  | Eol =>
      match s with
      | [] => k at_start s
      | _ :: _ => false
      end
  | One p =>
      match s with
      | x :: s' => p x && k false s'
      | [] => false
      end
  | Plus p =>
      match s with
      | x :: s' =>
          p x && (fix greedy (s : jstring) : bool :=
                    match s with
                    | y :: s'' => if p y then greedy s'' || k false s else k false s
                    | [] => k false []
                    end) s'
      | [] => false
      end
  | Seq r1 r2 => accepts r1 at_start s (fun b s' => accepts r2 b s' k)
  end.

(** [RegExp.prototype.test] without flags: is there a match at some
    position? *)
Fixpoint test_from (r : pattern) (at_start : bool) (s : jstring) : bool :=
  accepts r at_start s (fun _ _ => true)
  || match s with
     | _ :: s' => test_from r false s'
     | [] => false
     end.

Definition test (r : pattern) (s : jstring) : bool := test_from r true s.

(** [[^\s@]] *)
Definition not_space_or_at (c : N) : bool := negb (is_js_space c || (c =? 64)%N).

Definition is_char (c x : N) : bool := (x =? c)%N.

(** [/^[^\s@]+@[^\s@]+\.[^\s@]+$/] *)
Definition emailRegex : pattern :=
  Seq Bol
    (Seq (Plus not_space_or_at)
       (Seq (One (is_char 64))
          (Seq (Plus not_space_or_at)
             (Seq (One (is_char 46))
                (Seq (Plus not_space_or_at) Eol))))).

(** [test] converts its argument to a string first. *)
Definition isValidEmail (email : value) : outcome bool :=
  s ← to_string email; Return (test emailRegex s).

End Utils.

(** * Properties

    First the vocabulary of the statements, then the lemmas about the
    runtime model, then the properties of the service. *)

Import Number Js Json Regex Effects PdfService PdfController.

(** ** Vocabulary *)

(** A pricing result with its [model] field replaced. *)
Definition relabel (model : jstring) (r : outcome value) : outcome value :=
  match r with
  | Return (VObj ((k, _) :: rest)) => Return (VObj ((k, VStr model) :: rest))
  | _ => r
  end.

(** A usage argument that is [null], [undefined], or not an object. *)
Definition malformed (usage : value) : Prop :=
  usage = VNull \/ usage = VUndefined \/ typeof usage <> str "object".

(** In the words of the specification: a counter is taken from the
    field [k1] or, failing that, from the field [k2]; it is [0] when
    neither holds a count. *)
Definition taken_from (props : list (jstring * value)) (k1 k2 : jstring) : value :=
  let a := default VUndefined (own props k1) in
  let b := default VUndefined (own props k2) in
  if truthy a then a else if truthy b then b else lit 0 0.

Definition usage_object (prompt completion total : value) : value :=
  VObj [ (str "prompt_tokens", prompt);
         (str "completion_tokens", completion);
         (str "total_tokens", total) ].

Definition positive_count (x : number) : Prop := ltb (S754_zero false) x = true.

Definition sample_usage : value :=
  VObj [ (str "prompt_tokens", lit 1000 0); (str "completion_tokens", lit 500 0) ].

(** The reply of the round-trip property and the object it denotes. *)
Definition reply_object : jstring := qstr "{'A':'1'}".

Definition parsed_object : value := VObj [ (str "A", VStr (str "1")) ].

(** The reply inside a fenced block, tagged [json] or not, with white
    space [ws1] and [ws2] around it. *)
Definition fenced (tagged : bool) (ws1 ws2 : jstring) : jstring :=
  str "```" ++ (if tagged then str "json" else []) ++ ws1 ++ reply_object ++ ws2 ++ str "```".

(** The code unit [c] does not occur in [s]. *)
Definition free_of (c : N) (s : jstring) : Prop :=
  forallb (fun x => negb (x =? c)%N) s = true.

(** A greedy star over the class [p] cannot enter [s]. *)
Definition stops (p : N -> bool) (s : jstring) : bool :=
  match s with
  | [] => true
  | x :: _ => negb (p x)
  end.

Fixpoint groupless (r : regex) : bool :=
  match r with
  | Group _ => false
  | Cat r1 r2 => groupless r1 && groupless r2
  | Opt r1 => groupless r1
  | _ => true
  end.

(** The first token is an atom that starts with a backtick. *)
Definition backtick_first (toks : list token) : Prop :=
  exists a rest, toks = TAtom (96%N :: a) :: rest.

(** The lexer is reading, or has read, such an atom as its first token. *)
Definition lex_inv (st : lex_mode * list token) : Prop :=
  (exists acc, st = (LAtom acc, []) /\ last acc = Some 96%N)
  \/ (exists a, last (snd st) = Some (TAtom (96%N :: a))).

(** The steps of one iteration of the multi-model loop that can fail,
    without the clock readings taken between them: the data, the usage
    and the pricing of the entry. *)
Definition model_pipeline (E : env) (extractedText : value) (model : jstring)
  : outcome (value * value * value) :=
  '(content, usage) ← invoke E model extractedText;
  extractedData ← parse_reply (parse_failure_of model) content;
  pricing ← calculatePrice model usage;
  usage' ← normalized_usage usage;
  processingTime ← or_else (get usage (str "total_ms")) (Return (lit 0 0));
  Return (extractedData, usage', pricing).

Definition field (entry : value) (k : string) : outcome value := get entry (str k).

(** What the entry of a model is, given how the pipeline of that model
    ended: the error and three nulls, or the three results and no error. *)
Definition entry_for (model : jstring) (r : outcome (value * value * value))
  (entry : value) : Prop :=
  field entry "model" = Return (VStr model)
  /\ match r with
     | Throw e =>
         field entry "error" = Return (VStr (message e))
         /\ field entry "data" = Return VNull
         /\ field entry "usage" = Return VNull
         /\ field entry "pricing" = Return VNull
     | Return (data, usage, pricing) =>
         field entry "error" = Return VUndefined
         /\ field entry "data" = Return data
         /\ field entry "usage" = Return usage
         /\ field entry "pricing" = Return pricing
     end.

(** The world after [n] more clock readings. *)
Definition tick (n : nat) (w : world) : world :=
  {| files := files w; ticks := (n + ticks w)%nat |}.

(** The world after [n] more clock readings and the removal of [p]. *)
Definition without (p : jstring) (w : world) (n : nat) : world :=
  {| files := removed p (files w); ticks := (n + ticks w)%nat |}.

(** *** A sample request *)

Definition sample_file : file :=
  {| path := str "uploads/1700000000000-42.pdf"; originalname := str "bill.pdf" |}.

Definition sample_bytes : list N := [37; 80; 68; 70]%N.

Definition sample_world : world :=
  {| files := {[ path sample_file := sample_bytes ]}; ticks := 0 |}.

Definition sample_pdfData : value := VObj [ (str "text", VStr (str "Bill No 42")) ].

Definition sample_counters : value :=
  VObj [ (str "input_tokens", lit 1200 0); (str "output_tokens", lit 300 0) ].

Definition sample_response (content : jstring) : value :=
  VObj [ (str "output_text", VStr content); (str "usage", sample_counters) ].

(** An environment in which the file is readable and removable and the
    API answers each model with [reply model]. *)
Definition sample_env (reply : jstring -> outcome value) : env :=
  {| pdfParse := fun _ => Return sample_pdfData;
     responses_create := fun r => reply (req_model r);
     remove_failure := fun _ => None;
     clock := fun n => 1700000000000 + 250 * Z.of_nat n;
     toISOString := decimal |}.

Definition three_models : list jstring :=
  [str "gpt-4.5-preview"; str "gpt-4o"; str "gpt-4o-mini"].

Definition second_fails : env :=
  sample_env (fun model =>
                if JsString.eqb model (str "gpt-4o")
                then Throw (mkError Error (str "429 rate limit exceeded"))
                else Return (sample_response reply_object)).

Definition unreadable_reply : env :=
  sample_env (fun _ => Return (sample_response (str "I could not read this bill."))).

Definition array_reply : env :=
  sample_env (fun _ => Return (sample_response (str "[1,2,3]"))).

Definition no_usable_data : env :=
  sample_env (fun _ => Return (sample_response (str "null"))).

Definition returns_null_data : file -> async value :=
  fun _ w => (Fulfilled (VObj [ (str "data", VNull) ]), w).

(** *** Vocabulary of the further properties *)

(** The statuses a handler may answer with. *)
Definition answers (codes : list Z) (r : http_response) : Prop := In (status r) codes.

(** The body of a successful single-model response. *)
Definition success_body (data usage pricing : value) : value :=
  VObj [ (str "status", VStr (str "success"));
         (str "data", data);
         (str "usage", usage);
         (str "pricing", pricing) ].

(** The body of a successful multi-model response. *)
Definition batch_body (filename : jstring) (results : list value) : value :=
  VObj [ (str "status", VStr (str "success"));
         (str "filename", VStr filename);
         (str "results", VArr results) ].

Definition result_object (data usage pricing : value) : value :=
  VObj [ (str "data", data); (str "usage", usage); (str "pricing", pricing) ].

Definition is_object (v : value) : Prop := exists props, v = VObj props.

(** An environment like [E] in which removing a file fails with [e]. *)
Definition removal_fails (e : error) (E : env) : env :=
  {| pdfParse := pdfParse E;
     responses_create := responses_create E;
     remove_failure := fun _ => Some e;
     clock := clock E;
     toISOString := toISOString E |}.

Definition busy : error := mkError SystemError (str "EBUSY: resource busy or locked").

Definition answers_reply : env := sample_env (fun _ => Return (sample_response reply_object)).

(** The API answers with the reply but reports no usage. *)
Definition no_usage : env :=
  sample_env (fun _ => Return (VObj [ (str "output_text", VStr reply_object) ])).

Definition api_down : env :=
  sample_env (fun _ => Throw (mkError Error (str "503 service unavailable"))).

(** What the multi-model handler does to the data of an entry. *)
Definition labelled (name : jstring) (data : value) : value :=
  if usable data then set_Filename data name else data.

(** How the pipeline of a model ended, as the multi-model handler
    reports it. *)
Definition reported (name : jstring) (r : outcome (value * value * value))
  : outcome (value * value * value) :=
  match r with
  | Return (data, usage, pricing) => Return (labelled name data, usage, pricing)
  | Throw e => Throw e
  end.

Definition million : number := of_decimal false 1000000 0.

(** [(tokens / 1000000) * rate] on doubles. *)
Definition cost_of (tokens rate : number) : number := mul (div tokens million) rate.

(** The pricing result for [prompt] and [completion] tokens at the
    rates [input], [cachedInput] and [output]. *)
Definition priced_at (model : jstring) (input cachedInput output prompt completion : number)
  : value :=
  pricing model
    (per_million (toFixed input 2))
    (per_million (toFixed cachedInput 2))
    (per_million (toFixed output 2))
    (str "$" ++ toFixed (cost_of prompt input) 6)
    (str "$" ++ toFixed (cost_of completion output) 6)
    (str "$" ++ toFixed (add (cost_of prompt input) (cost_of completion output)) 6).

(** The error of the inner [catch] around the API call. *)
Definition invocation_error (model cause : jstring) : error :=
  mkError Error (str "Failed to process with model " ++ model ++ str ": " ++ cause).

(** Two objects in one reply, and a reply whose fenced block is empty. *)
Definition two_objects : jstring := qstr "{'A':'1'} and {'B':'2'}".

Definition empty_fence : jstring := str "```json" ++ [10%N] ++ str "```" ++ [10%N] ++ reply_object.

Definition tenth : number := of_decimal false 1 (-1).

(** *** Vocabulary of the properties of the other revisions and of the
    middleware *)

Import FileUploadMiddleware AuthMiddleware.

(** A response of the chat completions API with one choice. *)
Definition chat_response (content : jstring) (usage : value) : value :=
  VObj [ (str "choices",
           VArr [ VObj [ (str "message", VObj [ (str "content", VStr content) ]) ] ]);
         (str "usage", usage) ].

Definition chat_answers (content : jstring) : Chat.chat_request -> outcome value :=
  fun _ => Return (chat_response content sample_usage).

Definition chat_down : Chat.chat_request -> outcome value :=
  fun _ => Throw (mkError Error (str "503 service unavailable")).

(** The steps of the third revision that come before the removal. *)
Definition before_removal (chat : Chat.chat_request -> outcome value)
  (model : jstring) (max_tokens : option number) (text : value) : outcome value :=
  response ← Chat.complete chat model max_tokens text;
  content ← Chat.content_of response;
  reconcile_reply content.

(** The counter [k] of a usage object is the number [x], or is missing,
    in which case it counts as [NaN]. *)
Definition counts (props : list (jstring * value)) (k : string) (x : number) : Prop :=
  own props (str k) = Some (VNum x) \/ (own props (str k) = None /\ x = NaN).

(** An address in three parts: [local@domain.tld]. *)
Definition address (a b c : jstring) : jstring := a ++ 64%N :: b ++ 46%N :: c.

Definition word (s : jstring) : Prop :=
  s <> [] /\ forallb Utils.not_space_or_at s = true.

(** *** The entries of the multi-model result *)





(** ** Strings and lists *)

Lemma eqb_eq (s t : jstring) : JsString.eqb s t = true <-> s = t.
Proof.
  revert t. induction s as [|c s IH]; intros [|d t]; simpl; split; try done.
  - intros [Hc Hs]%andb_prop. apply N.eqb_eq in Hc. apply IH in Hs. by subst.
  - intros [= -> ->]. rewrite N.eqb_refl. simpl. by apply IH.
Qed.

Lemma eqb_refl (s : jstring) : JsString.eqb s s = true.
Proof. by apply eqb_eq. Qed.

Lemma prefix_of_spec (p s rest : jstring) : prefix_of p s = Some rest <-> s = p ++ rest.
Proof.
  revert s. induction p as [|c p IH]; intros s; simpl.
  - split; congruence.
  - destruct s as [|d s]; [done|].
    destruct (c =? d)%N eqn:E.
    + apply N.eqb_eq in E as ->. rewrite IH. split; congruence.
    + apply N.eqb_neq in E. split; [done|]. intros [= -> _]. done.
Qed.

(** ** Paths and removal *)

Lemma strip_separators_spec (p : jstring) :
  exists t, p = strip_separators p ++ t /\ forallb (fun c => (c =? 47)%N) t = true.
Proof.
  induction p as [|c p (t & Hp & Ht)]; [by exists []|].
  cbn [strip_separators]. destruct (strip_separators p) as [|x d] eqn:Hd.
  - simpl in Hp. subst p. destruct (c =? 47)%N eqn:Hc.
    + exists (c :: t). split; [done|]. simpl. by rewrite Hc.
    + by exists t.
  - exists t. split; [|done]. simpl. by rewrite Hp at 1.
Qed.

(** A path names itself. *)
Lemma below_refl (p : jstring) : p <> [] -> below p p = true.
Proof.
  intros Hp. unfold below. destruct p as [|c p]; [done|].
  destruct (strip_separators_spec (c :: p)) as (t & Hs & Ht).
  set (d := strip_separators (c :: p)) in *. cbv zeta.
  destruct t as [|x t].
  - rewrite app_nil_r in Hs. rewrite <- Hs, eqb_refl. reflexivity.
  - apply orb_true_iff. right. apply bool_decide_eq_true. exists t.
    apply prefix_of_spec. simpl in Ht. apply andb_prop in Ht as [Hx%N.eqb_eq _].
    subst x. by rewrite <- app_assoc.
Qed.

Lemma lookup_removed (p k : jstring) (stored : gmap jstring (list N)) :
  removed p stored !! k = if below p k then None else stored !! k.
Proof.
  unfold removed. destruct (below p k) eqn:Hb.
  - apply map_lookup_filter_None. right. intros x _. simpl. congruence.
  - destruct (stored !! k) as [x|] eqn:Hk.
    + apply map_lookup_filter_Some. by split.
    + apply map_lookup_filter_None. by left.
Qed.

Lemma lookup_removed_self (p : jstring) (stored : gmap jstring (list N)) :
  p <> [] -> removed p stored !! p = None.
Proof. intros Hp. by rewrite lookup_removed, below_refl. Qed.

Lemma take_app_sub {A} (x y : list A) :
  take (length (x ++ y) - length y)%nat (x ++ y) = x.
Proof.
  rewrite length_app.
  replace (length x + length y - length y)%nat with (length x) by lia.
  apply take_app_length.
Qed.

Lemma last_cons_Some {A} (x y : A) (l : list A) :
  last l = Some y -> last (x :: l) = Some y.
Proof. destruct l; [done|]. by rewrite last_cons_cons. Qed.

Lemma rev_last_Some {A} (l : list A) (y : A) :
  last l = Some y -> exists l', rev l = y :: l'.
Proof. intros [l' ->]%last_Some. exists (rev l'). by rewrite rev_unit. Qed.

Lemma free_of_app c s t : free_of c (s ++ t) <-> free_of c s /\ free_of c t.
Proof. unfold free_of. rewrite forallb_app. apply andb_true_iff. Qed.

Lemma space_not (c x : N) :
  is_js_space c = false -> is_js_space x = true -> (x =? c)%N = false.
Proof. intros Hc Hx. destruct (N.eqb_spec x c) as [->|]; [congruence|done]. Qed.

(** ** The matcher *)

Section RegexFacts.
Context {R : Type}.
Implicit Types (k : jstring -> option jstring -> option R).

Lemma run_star_cons p x s cap k :
  run (Star p) (x :: s) cap k
  = if p x then match run (Star p) s cap k with
                | Some r => Some r
                | None => k (x :: s) cap
                end
    else k (x :: s) cap.
Proof. reflexivity. Qed.

Lemma run_star_stops p s cap k :
  stops p s = true -> run (Star p) s cap k = k s cap.
Proof.
  destruct s as [|x s]; [reflexivity|]. simpl stops. intros Hx%negb_true_iff.
  by rewrite run_star_cons, Hx.
Qed.

(** A greedy star takes all of a run [ws] it matches when the rest of
    the pattern accepts what follows the run. *)
Lemma run_star_all p ws rest cap k r :
  forallb p ws = true -> stops p rest = true -> k rest cap = Some r ->
  run (Star p) (ws ++ rest) cap k = Some r.
Proof.
  intros Hws Hstop Hk. induction ws as [|x ws IH]; simpl app.
  - by rewrite run_star_stops.
  - simpl in Hws. apply andb_prop in Hws as [Hx Hws].
    by rewrite run_star_cons, Hx, (IH Hws).
Qed.

Lemma run_lazy_unfold p s cap k :
  run (LazyStar p) s cap k
  = match k s cap with
    | Some r => Some r
    | None => match s with
              | x :: s' => if p x then run (LazyStar p) s' cap k else None
              | [] => None
              end
    end.
Proof. destruct s; reflexivity. Qed.

(** A lazy star over any character skips a prefix at no position of
    which the rest of the pattern matches, and stops where it first
    does. *)
Lemma run_lazy_skip skipped rest cap k r :
  (forall a b, skipped = a ++ b -> b <> [] -> k (b ++ rest) cap = None) ->
  k rest cap = Some r ->
  run (LazyStar any) (skipped ++ rest) cap k = Some r.
Proof.
  induction skipped as [|x s IH]; intros Hskip Hk; simpl app.
  - by rewrite run_lazy_unfold, Hk.
  - rewrite run_lazy_unfold.
    pose proof (Hskip [] (x :: s) eq_refl ltac:(done)) as H0.
    simpl app in H0. rewrite H0. simpl any. cbv iota.
    apply IH; [|done]. intros a b -> Hb. by apply (Hskip (x :: a) b).
Qed.

(** A greedy star over any character followed by the character [c]:
    the match ends at the last [c]. *)
Lemma run_star_any_none c s cap k :
  free_of c s ->
  run (Star any) s cap (fun s' cap' => run (Chr c) s' cap' k) = None.
Proof.
  unfold free_of. induction s as [|x s IH]; [reflexivity|]. simpl forallb.
  intros [Hx Hs]%andb_prop. apply negb_true_iff in Hx.
  rewrite run_star_cons. simpl any. cbv iota. rewrite (IH Hs). simpl. by rewrite Hx.
Qed.

Lemma run_star_any_last c a suf cap k r :
  free_of c suf ->
  k suf cap = Some r ->
  run (Star any) (a ++ c :: suf) cap (fun s' cap' => run (Chr c) s' cap' k) = Some r.
Proof.
  intros Hsuf Hk.
  induction a as [|x a IH]; simpl app; rewrite run_star_cons; simpl any; cbv iota.
  - rewrite (run_star_any_none c suf cap k Hsuf). simpl. by rewrite N.eqb_refl.
  - by rewrite IH.
Qed.

(** A pattern without a group leaves the capture as it found it. *)
Lemma run_groupless (r : regex) :
  groupless r = true ->
  forall s cap k res, run r s cap k = Some res -> exists s', k s' cap = Some res.
Proof.
  induction r as [|c|r1 IH1 r2 IH2|r1 IH1|p|p|r1 IH1]; simpl groupless; intros Hg s cap k res.
  - simpl. eauto.
  - simpl. destruct s as [|x s]; [done|]. destruct (x =? c)%N; [eauto|done].
  - apply andb_prop in Hg as [Hg1 Hg2]. simpl. intros H.
    apply (IH1 Hg1) in H as [s' H]. by apply (IH2 Hg2) in H.
  - simpl. destruct (run r1 s cap k) eqn:E.
    + intros [= <-]. by apply (IH1 Hg) in E.
    + eauto.
  - induction s as [|x s IHs]; [simpl; eauto|].
    rewrite run_star_cons. destruct (p x); [|eauto].
    destruct (run (Star p) s cap k) eqn:E; [|eauto].
    intros [= <-]. by apply IHs.
  - induction s as [|x s IHs]; rewrite run_lazy_unfold.
    + destruct (k [] cap) eqn:E; [|done]. intros [= <-]. eauto.
    + destruct (k (x :: s) cap) eqn:E; [intros [= <-]; eauto|].
      destruct (p x); [exact IHs|done].
  - done.
Qed.

Lemma run_ticks cap k :
  run (Cat (Chr 96) (Cat (Chr 96) (Cat (Chr 96) Eps))) (str "```") cap k = k [] cap.
Proof. reflexivity. Qed.

End RegexFacts.

Lemma search_here (r : regex) (s : jstring) (m : match_result) :
  match_here r s = Some m -> search r s = Some m.
Proof. intros H. destruct s; cbn [search]; by rewrite H. Qed.

Lemma search_groupless (r : regex) (s : jstring) (m : match_result) :
  groupless r = true -> search r s = Some m -> m1 m = None.
Proof.
  intros Hg. induction s as [|x s IH]; cbn [search].
  - destruct (match_here r []) eqn:E; [|done]. intros [= <-].
    apply (run_groupless r Hg) in E as [s' [= <-]]. reflexivity.
  - destruct (match_here r (x :: s)) eqn:E; [|exact IH]. intros [= <-].
    apply (run_groupless r Hg) in E as [s' [= <-]]. reflexivity.
Qed.

(** *** The fence pattern *)

Lemma fence_unfold :
  fence = Cat (Cat (Chr 96) (Cat (Chr 96) (Cat (Chr 96) Eps)))
            (Cat (Opt (Cat (Chr 106) (Cat (Chr 115) (Cat (Chr 111) (Cat (Chr 110) Eps)))))
               (Cat (Star is_js_space)
                  (Cat (Group (LazyStar any))
                     (Cat (Star is_js_space)
                        (Cat (Chr 96) (Cat (Chr 96) (Cat (Chr 96) Eps))))))).
Proof. reflexivity. Qed.

(** Without a backtick there is no fence. *)
Lemma search_fence_none (s : jstring) : free_of 96 s -> search fence s = None.
Proof.
  unfold free_of. induction s as [|x s IH]; [reflexivity|]. simpl forallb.
  intros [Hx Hs]%andb_prop. apply negb_true_iff in Hx.
  simpl search. unfold match_here. rewrite fence_unfold. simpl run. rewrite Hx. by apply IH.
Qed.

Lemma reply_object_unfold :
  reply_object = [123; 34; 65; 34; 58; 34; 49; 34; 125]%N.
Proof. reflexivity. Qed.

(** The pattern from its group on, at the reply followed by white space
    and the closing fence: the group captures the reply. *)
Lemma fence_tail_at_reply {R} (ws2 : jstring)
  (k : jstring -> option jstring -> option R) cap r :
  forallb is_js_space ws2 = true ->
  k [] (Some reply_object) = Some r ->
  run (Cat (Group (LazyStar any))
         (Cat (Star is_js_space) (Cat (Chr 96) (Cat (Chr 96) (Cat (Chr 96) Eps)))))
      (reply_object ++ ws2 ++ str "```") cap k
  = Some r.
Proof.
  intros Hws2 Hk.
  set (interior := reply_object ++ ws2 ++ str "```").
  change (run (Cat (Group (LazyStar any)) ?r) interior cap k)
    with (run (LazyStar any) interior cap
            (fun s' _ => run r s' (Some (take (length interior - length s')%nat interior)) k)).
  unfold interior.
  apply run_lazy_skip.
  - intros a b Hab Hb.
    rewrite reply_object_unfold in Hab.
    repeat (destruct a as [|? a];
            [ simpl in Hab; subst b; reflexivity
            | simpl in Hab; injection Hab as ? Hab; subst ]).
    destruct a; [simpl in Hab; by subst b | discriminate].
  - change (run (Cat (Star is_js_space) ?r) ?s ?c k)
      with (run (Star is_js_space) s c (fun s' cap' => run r s' cap' k)).
    apply run_star_all; [done|reflexivity|].
    cbv beta. rewrite run_ticks, take_app_sub. exact Hk.
Qed.

(** The fence pattern matches a fenced reply at its start and captures
    the reply. *)
Lemma fenced_match (tagged : bool) (ws1 ws2 : jstring) :
  forallb is_js_space ws1 = true -> forallb is_js_space ws2 = true ->
  exists m, search fence (fenced tagged ws1 ws2) = Some m
            /\ jsonString_of m = reply_object.
Proof.
  intros Hws1 Hws2. unfold fenced.
  set (interior := reply_object ++ ws2 ++ str "```").
  set (text := str "```" ++ (if tagged then str "json" else []) ++ ws1 ++ interior).
  set (m := {| m0 := text; m1 := Some reply_object |}).
  exists m. split; [|reflexivity].
  apply search_here.
  unfold match_here. rewrite fence_unfold.
  set (k := fun (s' : jstring) (cap : option jstring) =>
              Some {| m0 := take (length text - length s')%nat text; m1 := cap |}).
  assert (Hk : k [] (Some reply_object) = Some m).
  { unfold k, m. do 2 f_equal. apply take_ge. simpl length. lia. }
  assert (Hrest : forall cap,
    run (Cat (Star is_js_space)
           (Cat (Group (LazyStar any))
              (Cat (Star is_js_space) (Cat (Chr 96) (Cat (Chr 96) (Cat (Chr 96) Eps))))))
        (ws1 ++ interior) cap k = Some m).
  { intros cap.
    change (run (Cat (Star is_js_space) ?r) ?s ?c k)
      with (run (Star is_js_space) s c (fun s' cap' => run r s' cap' k)).
    apply run_star_all; [done|reflexivity|].
    by apply fence_tail_at_reply. }
  unfold text. destruct tagged.
  - change (run _ _ None k) with
      (match run (Cat (Star is_js_space)
                    (Cat (Group (LazyStar any))
                       (Cat (Star is_js_space)
                          (Cat (Chr 96) (Cat (Chr 96) (Cat (Chr 96) Eps))))))
               (ws1 ++ interior) None k with
       | Some res => Some res
       | None => run (Cat (Star is_js_space)
                        (Cat (Group (LazyStar any))
                           (Cat (Star is_js_space)
                              (Cat (Chr 96) (Cat (Chr 96) (Cat (Chr 96) Eps))))))
                   (str "json" ++ ws1 ++ interior) None k
       end).
    by rewrite Hrest.
  - assert (Hj : forall (k' : jstring -> option jstring -> option match_result),
              run (Cat (Chr 106) (Cat (Chr 115) (Cat (Chr 111) (Cat (Chr 110) Eps))))
                  (ws1 ++ interior) None k' = None).
    { intros k'. destruct ws1 as [|x ws]; [reflexivity|].
      simpl in Hws1. apply andb_prop in Hws1 as [Hx _].
      simpl. by rewrite (space_not 106 x). }
    change (run _ _ None k) with
      (match run (Cat (Chr 106) (Cat (Chr 115) (Cat (Chr 111) (Cat (Chr 110) Eps))))
               (ws1 ++ interior) None
               (fun s' cap' =>
                  run (Cat (Star is_js_space)
                         (Cat (Group (LazyStar any))
                            (Cat (Star is_js_space)
                               (Cat (Chr 96) (Cat (Chr 96) (Cat (Chr 96) Eps))))))
                      s' cap' k) with
       | Some res => Some res
       | None => run (Cat (Star is_js_space)
                        (Cat (Group (LazyStar any))
                           (Cat (Star is_js_space)
                              (Cat (Chr 96) (Cat (Chr 96) (Cat (Chr 96) Eps))))))
                   (ws1 ++ interior) None k
       end).
    by rewrite Hj, Hrest.
Qed.

(** *** The brace pattern *)

Lemma search_brace_skip (pre s : jstring) :
  free_of 123 pre -> search brace (pre ++ s) = search brace s.
Proof.
  unfold free_of. induction pre as [|x pre IH]; [done|]. simpl forallb.
  intros [Hx Hs]%andb_prop. apply negb_true_iff in Hx.
  simpl app. simpl search at 1. unfold match_here at 1. simpl run. rewrite Hx. by apply IH.
Qed.

Lemma search_brace_span (a suf : jstring) :
  free_of 125 suf ->
  search brace (123%N :: a ++ 125%N :: suf)
  = Some {| m0 := 123%N :: a ++ [125%N]; m1 := None |}.
Proof.
  intros Hsuf. apply search_here.
  unfold match_here, brace.
  change (run (Cat (Chr 123) (Cat (Star any) (Chr 125))) (123%N :: a ++ 125%N :: suf) None ?k)
    with (run (Star any) (a ++ 125%N :: suf) None (fun s' cap' => run (Chr 125) s' cap' k)).
  erewrite run_star_any_last; [reflexivity|done|].
  f_equal. f_equal.
  change (123%N :: a ++ 125%N :: suf) with ((123%N :: a) ++ 125%N :: suf).
  rewrite (cons_middle 125%N), app_assoc. apply take_app_sub.
Qed.

(** ** Text that starts with a backtick is not JSON *)

Lemma lex_outside_last toks c st y :
  last toks = Some y -> lex_outside toks c = Some st -> last (snd st) = Some y.
Proof.
  intros Hl. unfold lex_outside.
  destruct (is_json_space c); [by intros [= <-]|].
  destruct (punctuation c); [intros [= <-]; by apply last_cons_Some|].
  destruct (c =? 34)%N; by intros [= <-].
Qed.

Lemma lex_step_inv st c st' :
  lex_inv st -> lex_step st c = Some st' -> lex_inv st'.
Proof.
  intros [(acc & -> & Hacc) | (a & Hlast)].
  - simpl.
    destruct (is_json_space c || bool_decide (is_Some (punctuation c)) || (c =? 34)%N).
    + intros Hout. right.
      destruct (rev_last_Some acc _ Hacc) as [a Ha]. exists a.
      eapply lex_outside_last; [|exact Hout]. simpl. by rewrite Ha.
    + intros [= <-]. left. exists (c :: acc). split; [done|]. by apply last_cons_Some.
  - destruct st as [mode toks]. simpl in Hlast. intros Hstep. right. exists a.
    destruct mode; simpl in Hstep.
    + by eapply lex_outside_last.
    + destruct (is_json_space c || bool_decide (is_Some (punctuation c)) || (c =? 34)%N).
      * eapply lex_outside_last; [|exact Hstep]. by apply last_cons_Some.
      * by injection Hstep as <-.
    + destruct (c =? 34)%N; [injection Hstep as <-; by apply last_cons_Some|].
      destruct (c =? 92)%N; [by injection Hstep as <-|].
      destruct (c <? 32)%N; [done|]. by injection Hstep as <-.
    + destruct (c =? 117)%N; [by injection Hstep as <-|].
      destruct (escape c); [|done]. by injection Hstep as <-.
    + destruct (radix_digit 16 c); [|done].
      destruct hex as [|? [|? [|? [|? ?]]]]; by injection Hstep as <-.
Qed.

Lemma lex_from_inv s st toks :
  lex_inv st -> lex_from st s = Some toks -> backtick_first toks.
Proof.
  revert st. induction s as [|c s IH]; intros st Hinv; simpl.
  - destruct Hinv as [(acc & -> & Hacc) | (a & Hlast)].
    + intros [= <-]. destruct (rev_last_Some acc _ Hacc) as [a Ha].
      exists a, []. simpl. by rewrite Ha.
    + destruct st as [mode toks0]. simpl in Hlast.
      destruct mode; try done; intros [= <-].
      * destruct (rev_last_Some toks0 _ Hlast) as [l' Hl]. by exists a, l'.
      * destruct (rev_last_Some (TAtom (rev acc) :: toks0) (TAtom (96%N :: a))) as [l' Hl];
          [by apply last_cons_Some|]. by exists a, l'.
  - destruct (lex_step st c) as [st'|] eqn:Hstep; [|done].
    apply IH. by eapply lex_step_inv.
Qed.

Lemma parse_text_backtick (s : jstring) : parse_text (96%N :: s) = None.
Proof.
  unfold parse_text, lex.
  change (lex_from (LDefault, []) (96%N :: s)) with (lex_from (LAtom [96%N], []) s).
  destruct (lex_from (LAtom [96%N], []) s) as [toks|] eqn:Hlex; [|reflexivity].
  apply lex_from_inv in Hlex as (a & rest & ->); [reflexivity|].
  left. by exists [96%N].
Qed.

(** ** Recovering JSON from a reply *)

Lemma JSON_parse_text (s : jstring) :
  JSON_parse (VStr s) = match parse_text s with
                        | Some x => Return x
                        | None => Throw (mkError SyntaxError (str "Unexpected token in JSON"))
                        end.
Proof. reflexivity. Qed.

Lemma parse_reply_direct failure content v :
  JSON_parse content = Return v -> parse_reply failure content = Return v.
Proof. intros H. unfold parse_reply. by rewrite H. Qed.

Lemma parse_reply_fenced failure s m :
  parse_text s = None -> search fence s = Some m ->
  parse_reply failure (VStr s)
  = catch (JSON_parse (VStr (jsonString_of m))) (fun _ => Throw failure).
Proof.
  intros Hp Hf. unfold parse_reply. rewrite JSON_parse_text, Hp. simpl. rewrite Hf. simpl.
  by destruct (JSON_parse _).
Qed.

Lemma parse_reply_brace failure s :
  parse_text s = None -> search fence s = None ->
  parse_reply failure (VStr s)
  = match search brace s with
    | Some m => catch (JSON_parse (VStr (jsonString_of m))) (fun _ => Throw failure)
    | None => Throw failure
    end.
Proof.
  intros Hp Hf. unfold parse_reply. rewrite JSON_parse_text, Hp. simpl. rewrite Hf. simpl.
  destruct (search brace s); [|reflexivity]. simpl. by destruct (JSON_parse _).
Qed.

(** Whatever goes wrong while recovering, the error is the given one. *)
Lemma parse_reply_throw failure content e :
  parse_reply failure content = Throw e -> e = failure.
Proof.
  unfold parse_reply, catch. destruct (JSON_parse content); [done|].
  match goal with
  | |- context [match ?m with Return _ => _ | Throw _ => _ end] => destruct m
  end; congruence.
Qed.

(** C1, as the claim states it, fails: the reply [[1,2,3]] is valid JSON
    denoting an array, the reconciliation of [extractBillData] returns
    the array and does not throw the 'invalid data format' error, and
    the whole of [extractBillData] returns it as [data]. *)
Lemma array_reply_is_accepted :
  parse_text (str "[1,2,3]") = Some (VArr [lit 1 0; lit 2 0; lit 3 0])
  /\ reconcile_reply (VStr (str "[1,2,3]")) = Return (VArr [lit 1 0; lit 2 0; lit 3 0])
  /\ reconcile_reply (VStr (str "[1,2,3]")) <> Throw invalid_data_format
  /\ (result ← fst (extractBillData array_reply sample_file None sample_world);
      get result (str "data")) = Return (VArr [lit 1 0; lit 2 0; lit 3 0]).
Proof.
  split; [vm_compute; reflexivity|]. split; [vm_compute; reflexivity|]. split.
  - intros H. vm_compute in H. discriminate.
  - vm_compute. reflexivity.
Qed.

(** C1, amended: for every reply whose text is valid JSON denoting an
    array, the reconciliation of [extractBillData] returns the array as
    the extracted data; it throws the 'invalid data format' error exactly
    when the value recovered from the reply is falsy or its [typeof] is
    not ['object'] (null, a boolean, a number or a string). *)
Theorem array_reply_passes_validation :
  (forall content items,
     parse_text content = Some (VArr items) ->
     reconcile_reply (VStr content) = Return (VArr items))
  /\ (forall content,
        reconcile_reply content = Throw invalid_data_format
        <-> exists v, parse_reply parse_failure content = Return v
                      /\ (truthy v = false \/ typeof v <> str "object")).
Proof.
  split.
  - intros content items H. unfold reconcile_reply.
    rewrite (parse_reply_direct parse_failure (VStr content) (VArr items)); [reflexivity|].
    by rewrite JSON_parse_text, H.
  - intros content. unfold reconcile_reply.
    destruct (parse_reply parse_failure content) as [v|e] eqn:Hp; simpl.
    + unfold usable. split.
      * intros H. exists v. split; [done|].
        destruct (truthy v); [right|by left].
        destruct (JsString.eqb (typeof v) (str "object")) eqn:Ht; [done|].
        intros Heq. apply eqb_eq in Heq. congruence.
      * intros (v' & [= <-] & [Ht | Ht]); [by rewrite Ht|].
        destruct (JsString.eqb (typeof v) (str "object")) eqn:Heq.
        -- apply eqb_eq in Heq. contradiction.
        -- by rewrite andb_false_r.
    + split; [|by intros (v & [=] & _)].
      intros [= ->]. apply parse_reply_throw in Hp. discriminate.
Qed.

Lemma array_reply_passes_validation_witness :
  reconcile_reply (VStr (str "[ ]")) = Return (VArr [])
  /\ reconcile_reply (VStr (str "null")) = Throw invalid_data_format.
Proof.
  split.
  - exact (proj1 array_reply_passes_validation (str "[ ]") [] eq_refl).
  - apply (proj2 array_reply_passes_validation (VStr (str "null"))).
    exists VNull. split; [reflexivity | left; reflexivity].
Defined.

(** C2: the reply [{"A":"1"}] is recovered as the same object whether it
    comes raw, inside a fenced block (tagged [json] or not, with any
    white space around the reply), or between leading and trailing prose
    that holds no backtick and no other brace-delimited span and keeps
    the whole from being JSON; and the order of the attempts is: the
    whole text, then the interior of a fenced block, then (only when
    there is no fenced block) the first brace-delimited span.  This holds
    with the error of either entry point. *)
Theorem reply_recovered_raw_fenced_or_embedded (failure : error) :
  parse_reply failure (VStr reply_object) = Return parsed_object
  /\ (forall tagged ws1 ws2,
        forallb is_js_space ws1 = true -> forallb is_js_space ws2 = true ->
        parse_reply failure (VStr (fenced tagged ws1 ws2)) = Return parsed_object)
  /\ (forall pre suf,
        free_of 96 pre -> free_of 123 pre -> free_of 96 suf -> free_of 125 suf ->
        parse_text (pre ++ reply_object ++ suf) = None ->
        parse_reply failure (VStr (pre ++ reply_object ++ suf)) = Return parsed_object)
  /\ (forall content v,
        JSON_parse content = Return v -> parse_reply failure content = Return v)
  /\ (forall s m,
        parse_text s = None -> search fence s = Some m ->
        parse_reply failure (VStr s)
        = catch (JSON_parse (VStr (jsonString_of m))) (fun _ => Throw failure))
  /\ (forall s,
        parse_text s = None -> search fence s = None ->
        parse_reply failure (VStr s)
        = match search brace s with
          | Some m => catch (JSON_parse (VStr (m0 m))) (fun _ => Throw failure)
          | None => Throw failure
          end).
Proof.
  split; [reflexivity|]. split; [|split; [|split; [|split]]].
  - intros tagged ws1 ws2 H1 H2.
    destruct (fenced_match tagged ws1 ws2 H1 H2) as (m & Hm & Hj).
    rewrite (parse_reply_fenced failure _ m); [by rewrite Hj| |exact Hm].
    apply parse_text_backtick.
  - intros pre suf Hp1 Hp2 Hs1 Hs2 Hdirect.
    rewrite parse_reply_brace; [|done|].
    + rewrite search_brace_skip by exact Hp2.
      change (reply_object ++ suf)
        with (123%N :: [34; 65; 34; 58; 34; 49; 34]%N ++ 125%N :: suf).
      by rewrite search_brace_span.
    + apply search_fence_none.
      apply free_of_app. split; [done|]. apply free_of_app. by split.
  - apply parse_reply_direct.
  - apply parse_reply_fenced.
  - intros s Hp Hf. rewrite parse_reply_brace by done.
    destruct (search brace s) as [m|] eqn:Hb; [|done].
    unfold jsonString_of. by rewrite (search_groupless brace s m eq_refl Hb).
Qed.

Lemma reply_recovered_witness :
  parse_reply parse_failure (VStr (fenced true [10%N] [10%N])) = Return parsed_object
  /\ parse_reply parse_failure
       (VStr (str "Here is the data: " ++ reply_object ++ str " Anything else?"))
     = Return parsed_object.
Proof.
  split.
  - exact (proj1 (proj2 (reply_recovered_raw_fenced_or_embedded parse_failure))
             true [10%N] [10%N] eq_refl eq_refl).
  - exact (proj1 (proj2 (proj2 (reply_recovered_raw_fenced_or_embedded parse_failure)))
             (str "Here is the data: ") (str " Anything else?")
             eq_refl eq_refl eq_refl eq_refl eq_refl).
Defined.

(** ** Pricing *)

Lemma get_obj (props : list (jstring * value)) (k : jstring) :
  get (VObj props) k = Return (match own props k with Some x => x | None => inherited k end).
Proof. reflexivity. Qed.

Lemma get_own (props : list (jstring * value)) (k : jstring) :
  inherited k = VUndefined ->
  get (VObj props) k = Return (default VUndefined (own props k)).
Proof. intros H. simpl. rewrite H. by destruct (own props k). Qed.

(** Case analysis on the first result a chain of binds depends on. *)
Ltac step :=
  match goal with
  | |- context [match ?m with Return _ => _ | Throw _ => _ end] =>
      destruct m; cbv beta iota
  end.

(** A model that is neither in the table nor the name of an inherited
    member is priced at the rates of gpt-4o. *)
Lemma calculatePrice_fallback (model : jstring) (usage : value) :
  own price_table model = None ->
  inherited model = VUndefined ->
  calculatePrice model usage = relabel model (calculatePrice (str "gpt-4o") usage).
Proof.
  intros Hown Hinh. unfold calculatePrice.
  destruct (negb (truthy usage) || negb (JsString.eqb (typeof usage) (str "object")));
    [reflexivity|].
  assert (Hm : or_else (get prices model) (get prices (str "gpt-4o"))
               = or_else (get prices (str "gpt-4o")) (get prices (str "gpt-4o"))).
  { unfold prices. rewrite (get_obj price_table model), Hown, Hinh. reflexivity. }
  rewrite Hm. unfold pricing. cbv beta delta [mbind outcome_bind].
  repeat step; reflexivity.
Qed.

(** The names of the members that every object inherits are not in
    the price table, and for them the default entry is not used:
    [prices[name]] is the inherited member, which is truthy; its
    [input] is [undefined], and [calculatePrice] throws a TypeError. *)
Lemma calculatePrice_throws_for_inherited_key :
  own price_table (str "constructor") = None
  /\ calculatePrice (str "constructor") sample_usage
     = Throw (mkError TypeError
                (str "Cannot read properties of undefined (reading 'toFixed')"))
  /\ Forall (fun k => own price_table k = None
                      /\ exists e, calculatePrice k sample_usage = Throw e)
       object_prototype_keys.
Proof.
  split; [reflexivity|]. split; [vm_compute; reflexivity|].
  unfold object_prototype_keys. simpl fmap.
  repeat (constructor; [split; [reflexivity | eexists; vm_compute; reflexivity]|]).
  constructor.
Qed.

(** C6: for a usage argument that is [null], [undefined] or not an
    object, [calculatePrice] does not throw; it returns the pricing
    result whose three rates and three costs are the string ['N/A']. *)
Theorem calculatePrice_malformed_usage (model : jstring) (usage : value) :
  malformed usage ->
  calculatePrice model usage =
    Return (VObj [ (str "model", VStr model);
                   (str "rates", VObj [ (str "inputRate", VStr (str "N/A"));
                                        (str "cachedInputRate", VStr (str "N/A"));
                                        (str "outputRate", VStr (str "N/A")) ]);
                   (str "costs", VObj [ (str "inputCost", VStr (str "N/A"));
                                        (str "outputCost", VStr (str "N/A"));
                                        (str "totalCost", VStr (str "N/A")) ]) ]).
Proof.
  intros H. unfold calculatePrice.
  assert (Hguard : negb (truthy usage)
                   || negb (JsString.eqb (typeof usage) (str "object")) = true).
  { destruct H as [-> | [-> | H]]; [reflexivity | reflexivity |].
    apply orb_true_iff. right. apply negb_true_iff.
    destruct (JsString.eqb (typeof usage) (str "object")) eqn:Heq; [|done].
    apply eqb_eq in Heq. contradiction. }
  rewrite Hguard. reflexivity.
Qed.

Lemma calculatePrice_malformed_usage_witness :
  malformed (VNum (of_Z 7))
  /\ calculatePrice (str "o1") (VNum (of_Z 7)) = Return (not_available (str "o1"))
  /\ calculatePrice (str "o1") VNull = Return (not_available (str "o1"))
  /\ calculatePrice (str "o1") VUndefined = Return (not_available (str "o1")).
Proof.
  assert (H : malformed (VNum (of_Z 7))) by (right; right; vm_compute; discriminate).
  split; [exact H|]. split; [|split].
  - exact (calculatePrice_malformed_usage (str "o1") (VNum (of_Z 7)) H).
  - exact (calculatePrice_malformed_usage (str "o1") VNull (or_introl eq_refl)).
  - exact (calculatePrice_malformed_usage (str "o1") VUndefined (or_intror (or_introl eq_refl))).
Defined.

(** C9: for the usage [{prompt_tokens: 1000000, completion_tokens: 0}]
    and gpt-4o, whose input rate is 2.5 dollars per million tokens
    (shown as "$2.50 per million tokens"), the input cost that
    [calculatePrice] returns is exactly the string "$2.500000". *)
Theorem calculatePrice_one_million_prompt_tokens :
  (entry ← get prices (str "gpt-4o"); get entry (str "input")) = Return (lit 25 (-1))
  /\ (r ← calculatePrice (str "gpt-4o")
            (VObj [ (str "prompt_tokens", lit 1000000 0);
                    (str "completion_tokens", lit 0 0) ]);
      rates ← get r (str "rates");
      get rates (str "inputRate")) = Return (VStr (str "$2.50 per million tokens"))
  /\ (r ← calculatePrice (str "gpt-4o")
            (VObj [ (str "prompt_tokens", lit 1000000 0);
                    (str "completion_tokens", lit 0 0) ]);
      costs ← get r (str "costs");
      get costs (str "inputCost")) = Return (VStr (str "$2.500000")).
Proof. repeat split; vm_compute; reflexivity. Qed.

(** ** Usage *)

Lemma prompt_tokens_of_obj props :
  prompt_tokens_of (VObj props)
  = Return (taken_from props (str "prompt_tokens") (str "input_tokens")).
Proof.
  unfold prompt_tokens_of, or_else, taken_from.
  rewrite !get_own by reflexivity. simpl.
  destruct (truthy (default VUndefined (own props (str "prompt_tokens")))) eqn:Ha; simpl.
  - by rewrite Ha.
  - destruct (truthy (default VUndefined (own props (str "input_tokens")))) eqn:Hb;
      simpl; by rewrite ?Hb.
Qed.

Lemma completion_tokens_of_obj props :
  completion_tokens_of (VObj props)
  = Return (taken_from props (str "completion_tokens") (str "output_tokens")).
Proof.
  unfold completion_tokens_of, or_else, taken_from.
  rewrite !get_own by reflexivity. simpl.
  destruct (truthy (default VUndefined (own props (str "completion_tokens")))) eqn:Ha; simpl.
  - by rewrite Ha.
  - destruct (truthy (default VUndefined (own props (str "output_tokens")))) eqn:Hb;
      simpl; by rewrite ?Hb.
Qed.

Lemma positive_truthy x : positive_count x -> truthy (VNum x) = true.
Proof. unfold positive_count, ltb, SFltb. destruct x as [| | |[] ? ?]; simpl; done. Qed.

(** C7: for a usage object without a [total_tokens] field, the total of
    the normalized usage is the prompt count plus the completion count
    (the [+] of JavaScript; the sum of two doubles when both are
    numbers), the prompt count being taken from [prompt_tokens] or
    [input_tokens] and the completion count from [completion_tokens] or
    [output_tokens]. *)
Theorem total_is_prompt_plus_completion (props : list (jstring * value)) :
  own props (str "total_tokens") = None ->
  let prompt := taken_from props (str "prompt_tokens") (str "input_tokens") in
  let completion := taken_from props (str "completion_tokens") (str "output_tokens") in
  normalized_usage (VObj props)
  = (total ← js_add prompt completion; Return (usage_object prompt completion total))
  /\ forall x y, prompt = VNum x -> completion = VNum y ->
       normalized_usage (VObj props) = Return (usage_object (VNum x) (VNum y) (VNum (add x y))).
Proof.
  intros Htot prompt completion.
  assert (Hn : normalized_usage (VObj props)
               = (total ← js_add prompt completion;
                  Return (usage_object prompt completion total))).
  { unfold normalized_usage. rewrite prompt_tokens_of_obj, completion_tokens_of_obj.
    simpl. rewrite Htot. simpl. reflexivity. }
  split; [exact Hn|].
  intros x y Hp Hc. rewrite Hn, Hp, Hc. reflexivity.
Qed.

Lemma total_is_prompt_plus_completion_witness :
  own [ (str "input_tokens", lit 1200 0); (str "output_tokens", lit 300 0) ]
      (str "total_tokens") = None
  /\ normalized_usage sample_counters
     = Return (usage_object (lit 1200 0) (lit 300 0) (lit 1500 0)).
Proof.
  split; [reflexivity|].
  exact (proj2 (total_is_prompt_plus_completion
                  [ (str "input_tokens", lit 1200 0); (str "output_tokens", lit 300 0) ]
                  eq_refl) _ _ eq_refl eq_refl).
Defined.

(** C10: a count of 0 is treated as absent.  When [total_tokens] is
    present and 0 and the prompt and completion counts are numbers
    (positive or not), the normalized total is the sum of the prompt
    and the completion count, under either naming of the counters:
    each count is taken from [prompt_tokens] or [input_tokens], and
    from [completion_tokens] or [output_tokens].  And when
    [prompt_tokens] is 0 and [input_tokens] is present, the normalized
    prompt count is decided by [input_tokens] (its value, unless that
    is falsy too); likewise for [completion_tokens] and
    [output_tokens]. *)
Theorem zero_token_count_is_absent :
  (forall props s x y,
     own props (str "total_tokens") = Some (VNum (S754_zero s)) ->
     taken_from props (str "prompt_tokens") (str "input_tokens") = VNum x ->
     taken_from props (str "completion_tokens") (str "output_tokens") = VNum y ->
     normalized_usage (VObj props)
     = Return (usage_object (VNum x) (VNum y) (VNum (add x y))))
  /\ (forall props s v,
        own props (str "prompt_tokens") = Some (VNum (S754_zero s)) ->
        own props (str "input_tokens") = Some v ->
        prompt_tokens_of (VObj props) = Return (if truthy v then v else lit 0 0))
  /\ (forall props s v,
        own props (str "completion_tokens") = Some (VNum (S754_zero s)) ->
        own props (str "output_tokens") = Some v ->
        completion_tokens_of (VObj props) = Return (if truthy v then v else lit 0 0)).
Proof.
  split; [|split].
  - intros props s x y Ht Hpt Hct.
    unfold normalized_usage.
    rewrite prompt_tokens_of_obj, completion_tokens_of_obj, Hpt, Hct.
    simpl. rewrite Ht. reflexivity.
  - intros props s v Hp Hi. rewrite prompt_tokens_of_obj.
    unfold taken_from. rewrite Hp, Hi. reflexivity.
  - intros props s v Hp Hi. rewrite completion_tokens_of_obj.
    unfold taken_from. rewrite Hp, Hi. reflexivity.
Qed.

Lemma zero_token_count_is_absent_witness :
  normalized_usage (VObj [ (str "prompt_tokens", lit 1200 0);
                           (str "completion_tokens", lit 300 0);
                           (str "total_tokens", lit 0 0) ])
  = Return (usage_object (lit 1200 0) (lit 300 0) (lit 1500 0))
  /\ normalized_usage (VObj [ (str "input_tokens", lit 1200 0);
                              (str "output_tokens", lit 300 0);
                              (str "total_tokens", lit 0 0) ])
     = Return (usage_object (lit 1200 0) (lit 300 0) (lit 1500 0))
  /\ prompt_tokens_of (VObj [ (str "prompt_tokens", lit 0 0); (str "input_tokens", lit 1200 0) ])
     = Return (lit 1200 0)
  /\ completion_tokens_of (VObj [ (str "completion_tokens", lit 0 0);
                                  (str "output_tokens", lit 300 0) ])
     = Return (lit 300 0).
Proof.
  split; [|split; [|split]].
  - exact (proj1 zero_token_count_is_absent
             [ (str "prompt_tokens", lit 1200 0);
               (str "completion_tokens", lit 300 0);
               (str "total_tokens", lit 0 0) ]
             false _ _ eq_refl eq_refl eq_refl).
  - exact (proj1 zero_token_count_is_absent
             [ (str "input_tokens", lit 1200 0);
               (str "output_tokens", lit 300 0);
               (str "total_tokens", lit 0 0) ]
             false _ _ eq_refl eq_refl eq_refl).
  - exact (proj1 (proj2 zero_token_count_is_absent)
             [ (str "prompt_tokens", lit 0 0); (str "input_tokens", lit 1200 0) ]
             false _ eq_refl eq_refl).
  - exact (proj2 (proj2 zero_token_count_is_absent)
             [ (str "completion_tokens", lit 0 0); (str "output_tokens", lit 300 0) ]
             false _ eq_refl eq_refl).
Defined.

(** ** The multi-model loop *)

Lemma tick_tick (a b : nat) (w : world) : tick a (tick b w) = tick (a + b) w.
Proof. unfold tick. simpl. f_equal. lia. Qed.

Section Loop.
Variable E : env.
Variable text : value.

(** An iteration always pushes an entry, the one its pipeline calls
    for; only the clock advances. *)
Lemma process_model_entry (model : jstring) (w : world) :
  exists entry n,
    process_model E text model w = (Return entry, tick n w)
    /\ entry_for model (model_pipeline E text model) entry.
Proof.
  unfold process_model, model_pipeline, try_catch, mbind, M_bind, lift, new_Date, mret, M_ret.
  simpl.
  destruct (invoke E model text) as [[content usage]|e]; simpl.
  2: { eexists _, 3%nat. split; [reflexivity|]. repeat split. }
  destruct (parse_reply (parse_failure_of model) content) as [data|e]; simpl.
  2: { eexists _, 4%nat. split; [reflexivity|]. repeat split. }
  destruct (calculatePrice model usage) as [pricing|e]; simpl.
  2: { eexists _, 4%nat. split; [reflexivity|]. repeat split. }
  destruct (normalized_usage usage) as [usage'|e]; simpl.
  2: { eexists _, 4%nat. split; [reflexivity|]. repeat split. }
  destruct (or_else (get usage (str "total_ms")) (Return (lit 0 0))) as [pt|e]; simpl.
  2: { eexists _, 4%nat. split; [reflexivity|]. repeat split. }
  eexists _, 2%nat. split; [reflexivity|]. repeat split.
Qed.

Lemma for_each_model_entries (models : list jstring) :
  forall results w,
  exists entries n,
    for_each_model E text models results w = (Return (results ++ entries), tick n w)
    /\ Forall2 (fun model entry => entry_for model (model_pipeline E text model) entry)
         models entries.
Proof.
  induction models as [|model models IH]; intros results w.
  - exists [], 0%nat. split; [|constructor]. simpl. rewrite app_nil_r. by destruct w.
  - destruct (process_model_entry model w) as (entry & n & Hrun & Hentry).
    destruct (IH (results ++ [entry]) (tick n w)) as (entries & n' & Hloop & Hall).
    exists (entry :: entries), (n' + n)%nat. split; [|by constructor].
    cbn [for_each_model]. unfold mbind, M_bind at 1. rewrite Hrun, Hloop.
    by rewrite <- app_assoc, tick_tick.
Qed.

End Loop.

(** The example of the specification: three models, the second fails. *)
Example second_of_three_fails :
  model_pipeline second_fails (VStr (str "Bill No 42")) (str "gpt-4o")
  = Throw (mkError Error (str "Failed to process with model gpt-4o: 429 rate limit exceeded"))
  /\ (results ← fst (extractBillDataWithModels second_fails three_models
                        sample_file sample_world);
      length' ← get results (str "length");
      second ← get results (str "1");
      error ← get second (str "error");
      data ← get second (str "data");
      first ← get results (str "0");
      data1 ← get first (str "data");
      third ← get results (str "2");
      data3 ← get third (str "data");
      Return [length'; error; data; data1; data3])
     = Return [ lit 3 0;
                VStr (str "Failed to process with model gpt-4o: 429 rate limit exceeded");
                VNull; parsed_object; parsed_object ].
Proof. split; vm_compute; reflexivity. Qed.

(** ** The scratch file *)

(** C4 fails on the code: when the reply cannot be read as JSON,
    [extractBillData] rethrows from its [catch] without removing the
    upload, and the scratch file is still in the upload directory when
    the request completes. *)
Theorem extractBillData_keeps_scratch_file_on_failure :
  fst (extractBillData unreadable_reply sample_file None sample_world) = Throw parse_failure
  /\ files (snd (extractBillData unreadable_reply sample_file None sample_world))
       !! path sample_file = Some sample_bytes.
Proof. split; vm_compute; reflexivity. Qed.

(** Whatever fails in [extractBillData] before the removal leaves the
    world as it was. *)
Lemma extractBillData_failure_before_removal (E : env) (f : file) (model : option jstring)
  (w : world) (bytes : list N) (pdfData text : value) :
  files w !! path f = Some bytes ->
  pdfParse E bytes = Return pdfData ->
  get pdfData (str "text") = Return text ->
  forall e,
    ('(content, _) ← invoke E (default (str "o3-mini") model) text;
     reconcile_reply content) = Throw e ->
    extractBillData E f model w = (Throw e, w).
Proof.
  intros Hfile Hpdf Htext e He.
  unfold extractBillData, try_catch, mbind, M_bind at 1 2 3 4 5.
  unfold readFile at 1. rewrite Hfile. unfold lift. rewrite Hpdf, Htext.
  destruct (invoke E (default (str "o3-mini") model) text) as [[content usage]|e'];
    simpl in He |- *; [|by injection He as ->].
  by rewrite He.
Qed.

(** The multi-model entry point, for its part, removes the file on
    every path, as long as the removal itself does not fail. *)
Lemma all_models_removes_scratch_file (E : env) (models : list jstring) (f : file) (w : world) :
  remove_failure E (path f) = None -> path f <> [] ->
  files (snd (extractBillDataWithModels E models f w)) !! path f = None.
Proof.
  intros Hrm Hpath.
  assert (Hremove : forall w0, remove E (path f) w0
                               = (Return tt, {| files := removed (path f) (files w0);
                                                ticks := ticks w0 |})).
  { intros w0. unfold remove. by rewrite Hrm. }
  assert (Htruthy : truthy (VStr (path f)) = true) by by destruct (path f).
  unfold extractBillDataWithModels, try_catch. rewrite Htruthy.
  match goal with
  | |- context [match ?body w with _ => _ end] => destruct (body w) as [[r|e] w1] eqn:Hbody
  end.
  - unfold mbind, M_bind at 1 2 3 4 5 in Hbody.
    destruct (readFile (path f) w) as [[?|?] ?]; [|done].
    destruct (lift _ _) as [[?|?] ?]; [|done].
    destruct (lift _ _) as [[?|?] ?]; [|done].
    destruct (for_each_model _ _ _ _ _) as [[?|?] ?]; [|done].
    rewrite Hremove in Hbody. injection Hbody as _ <-. simpl. by apply lookup_removed_self.
  - unfold mbind, M_bind, try_catch. rewrite Hremove. simpl. by apply lookup_removed_self.
Qed.

(** A removal that fails after the loop is rethrown, and the results are
    lost with it. *)
Lemma all_models_removal_failure_propagates (E : env) (models : list jstring) (f : file)
  (w : world) (bytes : list N) (pdfData text : value) (e : error) :
  files w !! path f = Some bytes ->
  pdfParse E bytes = Return pdfData ->
  get pdfData (str "text") = Return text ->
  remove_failure E (path f) = Some e ->
  fst (extractBillDataWithModels E models f w) = Throw e.
Proof.
  intros Hfile Hpdf Htext Hrm.
  destruct (for_each_model_entries E text models [] w) as (entries & n & Hloop & _).
  unfold extractBillDataWithModels, try_catch, mbind, M_bind at 1 2 3 4 5.
  unfold readFile at 1. rewrite Hfile. unfold lift. rewrite Hpdf, Htext, Hloop.
  unfold remove at 1. rewrite Hrm.
  destruct (truthy (VStr (path f))); unfold mbind, M_bind, try_catch, remove;
    rewrite ?Hrm; reflexivity.
Qed.

(** ** The single-model handler *)

(** What [extractBillData] returns has passed its validation. *)
Lemma extractBillData_result (E : env) (f : file) (model : option jstring) (w w' : world)
  (result : value) :
  extractBillData E f model w = (Return result, w') ->
  exists data usage pricing,
    result = VObj [ (str "data", data); (str "usage", usage); (str "pricing", pricing) ]
    /\ usable data = true.
Proof.
  unfold extractBillData, reconcile_reply, try_catch, mbind, M_bind, outcome_bind, lift,
    mret, M_ret.
  intros H.
  destruct (readFile (path f) w) as [[?|?] ?]; [|done].
  destruct (pdfParse E _) as [pdfData|?]; [|done].
  destruct (get pdfData _) as [text|?]; [|done].
  destruct (invoke E _ text) as [[content usage]|?]; [|done].
  destruct (parse_reply parse_failure content) as [data|?]; [|done].
  destruct (usable data) eqn:Hu; [|done]. simpl in H.
  destruct (remove E (path f) _) as [[?|?] ?]; [|done].
  destruct (calculatePrice _ usage) as [pricing|?]; [|done].
  destruct (normalized_usage usage) as [usage'|?]; [|done].
  injection H as <- _. by exists data, usage', pricing.
Qed.

(** C8, as the claim states it, fails: the reply [null] is valid JSON
    that yields no usable data, and the handler answers 500 (with the
    'invalid data format' message of the service), not 422. *)
Lemma null_reply_answers_500 :
  parse_text (str "null") = Some VNull
  /\ usable VNull = false
  /\ exists r,
       fst (handle_pdf no_usable_data {| req_file := Some sample_file |} sample_world)
       = Return r
       /\ status r = 500
       /\ status r <> 422
       /\ body r = error_body (str "Invalid data format received from OpenAI").
Proof.
  split; [vm_compute; reflexivity|]. split; [reflexivity|].
  eexists. split; [vm_compute; reflexivity|]. by repeat split.
Qed.

(** C8, amended: in single-model mode the handler answers 422 with a
    [{status: "error", message}] body when [extractBillData] returns a
    result whose data is not usable, and 500 with such a body whenever
    [extractBillData] throws an [Error].  [extractBillData] itself throws when the
    reply yields no usable data (no JSON recovered, or a value that is
    falsy or not an object), so with this service such a reply is
    answered with 500 and the handler never answers 422: its status is
    200, 400 or 500. *)
Theorem unusable_data_answers_422_only_from_a_returned_result :
  (forall service f w result w1 data,
     service f w = (Fulfilled result, w1) ->
     get result (str "data") = Return data ->
     usable data = false ->
     processPdf service {| req_file := Some f |} w
     = (Return {| status := 422;
                  body := error_body (str "Failed to extract data from the PDF") |}, w1))
  /\ (forall service f w e w1,
        service f w = (Rejected (AnError e), w1) ->
        processPdf service {| req_file := Some f |} w
        = (Return {| status := 500;
                     body := error_body (fallback_message (message e)
                                           (str "Failed to process PDF")) |}, w1))
  /\ (forall E f w bytes pdfData text content usage e,
        files w !! path f = Some bytes ->
        pdfParse E bytes = Return pdfData ->
        get pdfData (str "text") = Return text ->
        invoke E (str "o3-mini") text = Return (content, usage) ->
        reconcile_reply content = Throw e ->
        handle_pdf E {| req_file := Some f |} w
        = (Return {| status := 500;
                     body := error_body (fallback_message (message e)
                                           (str "Failed to process PDF")) |}, w))
  /\ (forall E req w,
        exists r w',
          handle_pdf E req w = (Return r, w')
          /\ (status r = 200 \/ status r = 400 \/ status r = 500)).
Proof.
  assert (Hthrow : forall service f w e w1,
            service f w = (Rejected (AnError e), w1) ->
            processPdf service {| req_file := Some f |} w
            = (Return {| status := 500;
                         body := error_body (fallback_message (message e)
                                               (str "Failed to process PDF")) |}, w1)).
  { intros service f w e w1 Hs.
    unfold processPdf, catching, await. cbn [req_file]. by rewrite Hs. }
  split; [|split; [exact Hthrow|split]].
  - intros service f w result w1 data Hs Hd Hu.
    unfold processPdf, catching, await. cbn [req_file]. rewrite Hs.
    unfold settle, mbind, M_bind at 1. unfold lift. rewrite Hd, Hu. reflexivity.
  - intros E f w bytes pdfData text content usage e Hfile Hpdf Htext Hinv Hrec.
    apply Hthrow. unfold settle.
    rewrite (extractBillData_failure_before_removal E f None w bytes pdfData text
               Hfile Hpdf Htext e); [reflexivity|].
    simpl default. rewrite Hinv. exact Hrec.
  - intros E [[f|]] w.
    2: { eexists _, _. split; [reflexivity|]. right. by left. }
    unfold handle_pdf.
    destruct (extractBillData E f None w) as [[result|e] w1] eqn:Hs.
    + apply extractBillData_result in Hs as Hres.
      destruct Hres as (data & usage & pricing & -> & Hu).
      eexists _, _. split.
      { unfold processPdf, catching, await. cbn [req_file]. unfold settle at 1.
        rewrite Hs. unfold settle, mbind, M_bind at 1. unfold lift.
        change (get (VObj _) (str "data")) with (Return data).
        cbv beta iota. rewrite Hu. reflexivity. }
      by left.
    + eexists _, _. split; [apply Hthrow; unfold settle; by rewrite Hs|]. right. by right.
Qed.

Lemma unusable_data_answers_422_witness :
  processPdf returns_null_data {| req_file := Some sample_file |} sample_world
  = (Return {| status := 422;
               body := error_body (str "Failed to extract data from the PDF") |}, sample_world)
  /\ handle_pdf no_usable_data {| req_file := Some sample_file |} sample_world
     = (Return {| status := 500;
                  body := error_body (str "Invalid data format received from OpenAI") |},
        sample_world).
Proof.
  split.
  - exact (proj1 unusable_data_answers_422_only_from_a_returned_result
             returns_null_data sample_file sample_world _ _ VNull eq_refl eq_refl eq_refl).
  - refine (proj1 (proj2 (proj2 unusable_data_answers_422_only_from_a_returned_result))
             no_usable_data sample_file sample_world sample_bytes
             sample_pdfData (VStr (str "Bill No 42")) (VStr (str "null")) sample_counters
             invalid_data_format _ eq_refl eq_refl eq_refl eq_refl).
    vm_compute. reflexivity.
Defined.

(** * Further properties of the code

    What follows goes beyond the statements of the specification: the
    behaviour of the handlers, of the pricing, of the recovery of JSON
    and of the removal of the scratch file on inputs at the edges, the
    other revisions of the service, and the middleware. *)

(** ** Own properties *)

Lemma eqb_neq (s t : jstring) : s <> t -> JsString.eqb s t = false.
Proof. intros H. destruct (JsString.eqb s t) eqn:E; [|done]. by apply eqb_eq in E. Qed.

Lemma own_set_own_eq props k v : own (set_own props k v) k = Some v.
Proof.
  induction props as [|[k' v'] props IH]; simpl.
  - by rewrite eqb_refl.
  - destruct (JsString.eqb k' k) eqn:E; simpl; by rewrite E.
Qed.

Lemma own_set_own_ne props k v k' : k' <> k -> own (set_own props k v) k' = own props k'.
Proof.
  intros Hne. induction props as [|[k0 v0] props IH]; simpl.
  - rewrite eqb_neq; [done|]. congruence.
  - destruct (JsString.eqb k0 k) eqn:E; simpl.
    + apply eqb_eq in E as ->. by rewrite eqb_neq by congruence.
    + by rewrite IH.
Qed.

Lemma field_set_own_ne props k v (k' : string) :
  str k' <> k -> field (VObj (set_own props k v)) k' = field (VObj props) k'.
Proof. intros H. unfold field. rewrite !get_obj. by rewrite own_set_own_ne. Qed.

Lemma field_set_own_eq props (k : string) v :
  field (VObj (set_own props (str k) v)) k = Return v.
Proof. unfold field. rewrite get_obj. by rewrite own_set_own_eq. Qed.

(** ** The handlers *)

(** X1: a handler responds unless the service rejects with [null] or
    with [undefined].  Whatever else the service does (fulfil with any
    value, reject with an [Error] or with any other value),
    [processPdf] answers with status 200, 400, 422 or 500 and
    [processPdfWithAllModels] with status 200, 400 or 500.  When the
    rejection value is [null] or [undefined], reading its [message] in
    the [catch] clause throws a TypeError, and the handler ends
    without a response. *)
Theorem handlers_respond_unless_rejected_with_nothing (service : file -> async value)
  (req : http_request) (w : world) :
  (forall f w1,
     req_file req = Some f -> service f w = (Rejected (AValue VNull), w1) ->
     processPdf service req w = (Throw (reading "null" (str "message")), w1)
     /\ processPdfWithAllModels service req w
        = (Throw (reading "null" (str "message")), w1))
  /\ (forall f w1,
        req_file req = Some f -> service f w = (Rejected (AValue VUndefined), w1) ->
        processPdf service req w = (Throw (reading "undefined" (str "message")), w1)
        /\ processPdfWithAllModels service req w
           = (Throw (reading "undefined" (str "message")), w1))
  /\ ((forall f w1,
         req_file req = Some f ->
         service f w <> (Rejected (AValue VNull), w1)
         /\ service f w <> (Rejected (AValue VUndefined), w1)) ->
      (exists r w', processPdf service req w = (Return r, w')
                    /\ answers [200; 400; 422; 500] r)
      /\ (exists r w', processPdfWithAllModels service req w = (Return r, w')
                       /\ answers [200; 400; 500] r)).
Proof.
  split; [|split].
  - intros f w1 Hf Hs. unfold processPdf, processPdfWithAllModels, catching, await.
    rewrite Hf, Hs. by split.
  - intros f w1 Hf Hs. unfold processPdf, processPdfWithAllModels, catching, await.
    rewrite Hf, Hs. by split.
  - intros Hnot. unfold processPdf, processPdfWithAllModels, catching, await, answers.
    destruct (req_file req) as [f|].
    2: { split; eexists _, _; (split; [reflexivity|]); simpl; tauto. }
    specialize (Hnot f).
    destruct (service f w) as [[result|[e|v]] w1].
    + split.
      * unfold settle, mbind, M_bind, lift, mret, M_ret.
        destruct (get result (str "data")) as [data|e].
        2: { eexists _, _. split; [reflexivity|]. simpl. tauto. }
        destruct (usable data).
        2: { eexists _, _. split; [reflexivity|]. simpl. tauto. }
        destruct (get result (str "usage")) as [usage|e].
        2: { eexists _, _. split; [reflexivity|]. simpl. tauto. }
        destruct (get result (str "pricing")) as [pricing|e].
        2: { eexists _, _. split; [reflexivity|]. simpl. tauto. }
        eexists _, _. split; [reflexivity|]. simpl. tauto.
      * unfold settle, mbind, M_bind, lift, mret, M_ret.
        match goal with
        | |- context [match ?o with Return _ => _ | Throw _ => _ end] => destruct o
        end; eexists _, _; (split; [reflexivity|]); simpl; tauto.
    + split; eexists _, _; (split; [reflexivity|]); simpl; tauto.
    + destruct (Hnot w1 eq_refl) as [H1 H2].
      assert (Hm : exists m, get v (str "message") = Return m).
      { destruct v; try (exfalso; congruence); by eexists. }
      destruct Hm as [m Hm].
      split; eexists _, _; (split; [unfold respond_500, mbind, M_bind, lift, message_or;
                                    rewrite Hm; reflexivity|]); simpl; tauto.
Qed.

Lemma handlers_respond_unless_rejected_with_nothing_witness :
  processPdf (fun _ w => (Rejected (AValue VNull), w)) {| req_file := Some sample_file |}
    sample_world
  = (Throw (reading "null" (str "message")), sample_world)
  /\ exists r w',
       processPdf (fun _ w => (Rejected (AValue (VStr (str "boom"))), w))
         {| req_file := Some sample_file |} sample_world = (Return r, w')
       /\ answers [200; 400; 422; 500] r.
Proof.
  split.
  - exact (proj1 (proj1 (handlers_respond_unless_rejected_with_nothing
                           (fun _ w => (Rejected (AValue VNull), w))
                           {| req_file := Some sample_file |} sample_world)
                    sample_file sample_world eq_refl eq_refl)).
  - apply (proj2 (proj2 (handlers_respond_unless_rejected_with_nothing
                           (fun _ w => (Rejected (AValue (VStr (str "boom"))), w))
                           {| req_file := Some sample_file |} sample_world))).
    intros f w1 _. split; discriminate.
Defined.

(** X2: when the service returns a result whose data is an object,
    [processPdf] answers 200 with that data in which [Filename] is the
    original name of the upload, whether or not the model had given a
    [Filename] of its own; every other field of the data is as the
    service returned it, and the usage and the pricing are passed on. *)
Theorem processPdf_sets_the_Filename (service : file -> async value) (f : file)
  (w w1 : world) (props : list (jstring * value)) (usage pricing : value) :
  service f w = (Fulfilled (result_object (VObj props) usage pricing), w1) ->
  exists props',
    processPdf service {| req_file := Some f |} w
    = (Return {| status := 200; body := success_body (VObj props') usage pricing |}, w1)
    /\ own props' (str "Filename") = Some (VStr (originalname f))
    /\ forall k, k <> str "Filename" -> own props' k = own props k.
Proof.
  intros Hs. exists (set_own props (str "Filename") (VStr (originalname f))).
  split; [|split].
  - unfold processPdf, catching, await. cbn [req_file]. rewrite Hs. reflexivity.
  - apply own_set_own_eq.
  - intros k Hk. by apply own_set_own_ne.
Qed.

Lemma processPdf_sets_the_Filename_witness :
  exists props',
    processPdf (fun _ w => (Fulfilled (result_object
                                      (VObj [ (str "BillNo", VStr (str "42"));
                                              (str "Filename", VStr (str "guess.pdf")) ])
                                      VNull VNull), w))
      {| req_file := Some sample_file |} sample_world
    = (Return {| status := 200; body := success_body (VObj props') VNull VNull |}, sample_world)
    /\ own props' (str "Filename") = Some (VStr (str "bill.pdf"))
    /\ forall k, k <> str "Filename"
                 -> own props' k = own [ (str "BillNo", VStr (str "42"));
                                         (str "Filename", VStr (str "guess.pdf")) ] k.
Proof.
  exact (processPdf_sets_the_Filename _ sample_file sample_world sample_world
           [ (str "BillNo", VStr (str "42")); (str "Filename", VStr (str "guess.pdf")) ]
           VNull VNull eq_refl).
Defined.

(** ** The multi-model handler on top of the loop *)

Lemma process_model_object (E : env) (text : value) (model : jstring) (w : world) :
  exists props n,
    process_model E text model w = (Return (VObj props), tick n w)
    /\ entry_for model (model_pipeline E text model) (VObj props).
Proof.
  unfold process_model, model_pipeline, try_catch, mbind, M_bind, lift, new_Date, mret, M_ret.
  simpl.
  destruct (invoke E model text) as [[content usage]|e]; simpl.
  2: { eexists _, 3%nat. split; [reflexivity|]. repeat split. }
  destruct (parse_reply (parse_failure_of model) content) as [data|e]; simpl.
  2: { eexists _, 4%nat. split; [reflexivity|]. repeat split. }
  destruct (calculatePrice model usage) as [pricing|e]; simpl.
  2: { eexists _, 4%nat. split; [reflexivity|]. repeat split. }
  destruct (normalized_usage usage) as [usage'|e]; simpl.
  2: { eexists _, 4%nat. split; [reflexivity|]. repeat split. }
  destruct (or_else (get usage (str "total_ms")) (Return (lit 0 0))) as [pt|e]; simpl.
  2: { eexists _, 4%nat. split; [reflexivity|]. repeat split. }
  eexists _, 2%nat. split; [reflexivity|]. repeat split.
Qed.

Lemma for_each_model_objects (E : env) (text : value) (models : list jstring) :
  forall results w,
  exists entries n,
    for_each_model E text models results w = (Return (results ++ entries), tick n w)
    /\ Forall2 (fun model entry => is_object entry
                                   /\ entry_for model (model_pipeline E text model) entry)
         models entries.
Proof.
  induction models as [|model models IH]; intros results w.
  - exists [], 0%nat. split; [|constructor]. simpl. rewrite app_nil_r. by destruct w.
  - destruct (process_model_object E text model w) as (props & n & Hrun & Hentry).
    destruct (IH (results ++ [VObj props]) (tick n w)) as (entries & n' & Hloop & Hall).
    exists (VObj props :: entries), (n' + n)%nat. split.
    + cbn [for_each_model]. unfold mbind, M_bind at 1. rewrite Hrun, Hloop.
      by rewrite <- app_assoc, tick_tick.
    + constructor; [|done]. split; [by eexists|done].
Qed.

(** The handler leaves an entry as it is, but for the [Filename] it
    sets in data that is an object. *)
Lemma with_Filename_entry (name model : jstring) (r : outcome (value * value * value))
  (props : list (jstring * value)) :
  entry_for model r (VObj props) ->
  exists props',
    with_Filename name (VObj props) = Return (VObj props')
    /\ entry_for model (reported name r) (VObj props').
Proof.
  intros [Hmodel Hr]. unfold with_Filename.
  assert (Hne : forall k : string, str k <> str "data" ->
                forall v, field (VObj (set_own props (str "data") v)) k = field (VObj props) k).
  { intros k Hk v. by apply field_set_own_ne. }
  destruct r as [[[data usage] pricing]|e].
  - destruct Hr as (Herr & Hdata & Husage & Hpricing).
    unfold field in Hdata. rewrite Hdata. cbv beta iota delta [mbind outcome_bind].
    unfold reported, labelled. destruct (usable data).
    + eexists. split; [reflexivity|]. split; [|split; [|split; [|split]]].
      * rewrite Hne; [done|]. intros H; vm_compute in H; discriminate.
      * rewrite Hne; [done|]. intros H; vm_compute in H; discriminate.
      * apply field_set_own_eq.
      * rewrite Hne; [done|]. intros H; vm_compute in H; discriminate.
      * rewrite Hne; [done|]. intros H; vm_compute in H; discriminate.
    + eexists. split; [reflexivity|]. by repeat split.
  - destruct Hr as (Herr & Hdata & Husage & Hpricing).
    unfold field in Hdata. rewrite Hdata. cbv beta iota delta [mbind outcome_bind].
    change (usable VNull) with false. cbv iota.
    eexists. split; [reflexivity|]. by repeat split.
Qed.

Lemma mapM_with_Filename (name : jstring) (r : jstring -> outcome (value * value * value))
  (models : list jstring) (entries : list value) :
  Forall2 (fun model entry => is_object entry /\ entry_for model (r model) entry)
    models entries ->
  exists entries',
    mapM (with_Filename name) entries = Return entries'
    /\ Forall2 (fun model entry => entry_for model (reported name (r model)) entry)
         models entries'.
Proof.
  induction 1 as [|model entry models entries [[props ->] Hentry] _ IH].
  - exists []. split; [reflexivity|constructor].
  - destruct IH as (entries' & Hmap & Hall).
    destruct (with_Filename_entry name model (r model) props Hentry) as (props' & Hw & He).
    exists (VObj props' :: entries'). split; [|by constructor].
    change (mapM (with_Filename name) (VObj props :: entries))
      with (y ← with_Filename name (VObj props);
            k ← mapM (with_Filename name) entries; mret (y :: k)).
    rewrite Hw, Hmap. reflexivity.
Qed.

(** X3: once the file is read, its text extracted and the final
    removal done, the multi-model handler answers 200 whatever the API
    does, also when every model fails.  The body names the upload and
    holds one entry for each of the six models, in their order: for a
    model whose pipeline failed, the error and null data, usage and
    pricing; for every other model, the usage and pricing of its
    pipeline and its data, in which [Filename] has been set when the
    data is an object.  The scratch file is gone afterwards. *)
Theorem handle_pdf_all_reports_every_model (E : env) (f : file) (w : world)
  (bytes : list N) (pdfData text : value) :
  files w !! path f = Some bytes ->
  pdfParse E bytes = Return pdfData ->
  get pdfData (str "text") = Return text ->
  remove_failure E (path f) = None ->
  exists results n,
    handle_pdf_all E {| req_file := Some f |} w
    = (Return {| status := 200; body := batch_body (originalname f) results |},
       without (path f) w n)
    /\ Forall2 (fun model entry =>
                  entry_for model
                    (reported (originalname f) (model_pipeline E text model)) entry)
         AVAILABLE_MODELS results.
Proof.
  intros Hfile Hpdf Htext Hrm.
  destruct (for_each_model_objects E text AVAILABLE_MODELS [] w)
    as (entries & n & Hloop & Hall).
  destruct (mapM_with_Filename (originalname f) (model_pipeline E text) _ _ Hall)
    as (entries' & Hmap & Hall').
  exists entries', n. split; [|done].
  assert (Hs : extractBillDataWithAllModels E f w
               = (Return (VArr entries), without (path f) w n)).
  { unfold extractBillDataWithAllModels, extractBillDataWithModels, try_catch,
      mbind, M_bind at 1 2 3 4 5.
    unfold readFile at 1. rewrite Hfile. unfold lift. rewrite Hpdf, Htext, Hloop.
    unfold remove. rewrite Hrm. reflexivity. }
  unfold handle_pdf_all, processPdfWithAllModels, catching, await. cbn [req_file].
  unfold settle at 1. rewrite Hs. unfold settle, mbind, M_bind at 1. unfold lift.
  rewrite Hmap. reflexivity.
Qed.

Lemma handle_pdf_all_reports_every_model_witness :
  exists results n,
    handle_pdf_all api_down {| req_file := Some sample_file |} sample_world
    = (Return {| status := 200; body := batch_body (str "bill.pdf") results |},
       without (path sample_file) sample_world n)
    /\ Forall2 (fun model entry =>
                  entry_for model
                    (reported (str "bill.pdf")
                       (model_pipeline api_down (VStr (str "Bill No 42")) model)) entry)
         AVAILABLE_MODELS results.
Proof.
  apply (handle_pdf_all_reports_every_model api_down sample_file sample_world
           sample_bytes sample_pdfData (VStr (str "Bill No 42"))).
  - vm_compute. reflexivity.
  - reflexivity.
  - reflexivity.
  - reflexivity.
Defined.

(** ** Pricing of the listed and of the other models *)

Lemma get_rates (i c o : value) :
  get (rates i c o) (str "input") = Return i
  /\ get (rates i c o) (str "cachedInput") = Return c
  /\ get (rates i c o) (str "output") = Return o.
Proof. repeat split. Qed.

Lemma total_tokens_returns (props : list (jstring * value)) (x y : number) :
  exists t, or_else (get (VObj props) (str "total_tokens")) (js_add (VNum x) (VNum y))
            = Return t.
Proof.
  unfold or_else. rewrite get_obj. cbv beta iota delta [mbind outcome_bind].
  destruct (truthy _); by eexists.
Qed.

(** With an entry of its own in the table and counters that are
    numbers, the result is made of the entry's rates with two decimals
    and of the costs with six. *)
Lemma calculatePrice_at_rates (model : jstring) (props : list (jstring * value))
  (i c o x y : number) :
  own price_table model = Some (rates (VNum i) (VNum c) (VNum o)) ->
  taken_from props (str "prompt_tokens") (str "input_tokens") = VNum x ->
  taken_from props (str "completion_tokens") (str "output_tokens") = VNum y ->
  calculatePrice model (VObj props) = Return (priced_at model i c o x y).
Proof.
  intros Hown Hx Hy. unfold calculatePrice.
  change (negb (truthy (VObj props))
          || negb (JsString.eqb (typeof (VObj props)) (str "object"))) with false.
  cbv iota.
  rewrite prompt_tokens_of_obj, completion_tokens_of_obj, Hx, Hy.
  cbv beta iota delta [mbind outcome_bind].
  destruct (total_tokens_returns props x y) as [t ->]. cbv beta iota.
  unfold prices. rewrite (get_obj price_table model), Hown.
  change (or_else (Return (rates (VNum i) (VNum c) (VNum o)))
            (get (VObj price_table) (str "gpt-4o")))
    with (Return (rates (VNum i) (VNum c) (VNum o))).
  cbv beta iota.
  destruct (get_rates (VNum i) (VNum c) (VNum o)) as (-> & -> & ->).
  reflexivity.
Qed.

(** X4: every model of [AVAILABLE_MODELS] has an entry of its own in
    the price table, so none of them is priced at the rates of the
    default; for a usage object whose counters are numbers the result
    shows the three rates of the entry with two decimals, and the costs
    [(prompt / 1000000) * input], [(completion / 1000000) * output] and
    their sum, computed on doubles and shown with six decimals. *)
Theorem calculatePrice_available_model (model : jstring) (props : list (jstring * value))
  (x y : number) :
  In model AVAILABLE_MODELS ->
  taken_from props (str "prompt_tokens") (str "input_tokens") = VNum x ->
  taken_from props (str "completion_tokens") (str "output_tokens") = VNum y ->
  exists i c o,
    own price_table model = Some (rates (VNum i) (VNum c) (VNum o))
    /\ calculatePrice model (VObj props) = Return (priced_at model i c o x y).
Proof.
  intros Hin Hx Hy.
  assert (H : exists i c o, own price_table model = Some (rates (VNum i) (VNum c) (VNum o))).
  { unfold AVAILABLE_MODELS in Hin. cbn [fmap list_fmap In] in Hin.
    destruct Hin as [<-|[<-|[<-|[<-|[<-|[<-|[]]]]]]]; eexists _, _, _; reflexivity. }
  destruct H as (i & c & o & Hown). exists i, c, o. split; [done|].
  by apply calculatePrice_at_rates.
Qed.

Lemma calculatePrice_available_model_witness :
  exists i c o,
    own price_table (str "o1-pro") = Some (rates (VNum i) (VNum c) (VNum o))
    /\ calculatePrice (str "o1-pro") sample_counters
       = Return (priced_at (str "o1-pro") i c o
                   (of_decimal false 1200 0) (of_decimal false 300 0)).
Proof.
  apply (calculatePrice_available_model (str "o1-pro")
           [ (str "input_tokens", lit 1200 0); (str "output_tokens", lit 300 0) ]).
  - vm_compute. tauto.
  - reflexivity.
  - reflexivity.
Defined.

Lemma inherited_cases (k : jstring) : inherited k = VUndefined \/ inherited k = VBuiltin k.
Proof. unfold inherited. destruct (existsb _ _); auto. Qed.

(** X5: for a model without an entry in the price table and a usage
    object whose counters are numbers, [calculatePrice] does one of two
    things.  When the model is not the name of a member that objects
    inherit, the result carries the name of the model and the rates of
    gpt-4o (2.5, 1.25 and 10).  When it is such a name, the call throws
    the TypeError of reading [toFixed] of [undefined]. *)
Theorem unlisted_model_default_or_throws (model : jstring) (props : list (jstring * value))
  (x y : number) :
  own price_table model = None ->
  taken_from props (str "prompt_tokens") (str "input_tokens") = VNum x ->
  taken_from props (str "completion_tokens") (str "output_tokens") = VNum y ->
  calculatePrice model (VObj props)
  = match inherited model with
    | VUndefined =>
        Return (priced_at model (of_decimal false 25 (-1)) (of_decimal false 125 (-2))
                  (of_decimal false 100 (-1)) x y)
    | _ => Throw (reading "undefined" (str "toFixed"))
    end.
Proof.
  intros Hown Hx Hy.
  destruct (inherited_cases model) as [Hi|Hi]; rewrite Hi.
  - rewrite (calculatePrice_fallback model (VObj props) Hown Hi).
    by rewrite (calculatePrice_at_rates (str "gpt-4o") props _ _ _ x y eq_refl Hx Hy).
  - unfold calculatePrice.
    change (negb (truthy (VObj props))
            || negb (JsString.eqb (typeof (VObj props)) (str "object"))) with false.
    cbv iota.
    rewrite prompt_tokens_of_obj, completion_tokens_of_obj, Hx, Hy.
    cbv beta iota delta [mbind outcome_bind].
    destruct (total_tokens_returns props x y) as [t ->]. cbv beta iota.
    unfold prices. rewrite (get_obj price_table model), Hown, Hi.
    reflexivity.
Qed.

Lemma unlisted_model_default_or_throws_witness :
  calculatePrice (str "gpt-5") sample_counters
  = Return (priced_at (str "gpt-5") (of_decimal false 25 (-1)) (of_decimal false 125 (-2))
              (of_decimal false 100 (-1)) (of_decimal false 1200 0) (of_decimal false 300 0))
  /\ calculatePrice (str "valueOf") sample_counters
     = Throw (reading "undefined" (str "toFixed")).
Proof.
  split.
  - exact (unlisted_model_default_or_throws (str "gpt-5")
             [ (str "input_tokens", lit 1200 0); (str "output_tokens", lit 300 0) ]
             _ _ eq_refl eq_refl eq_refl).
  - exact (unlisted_model_default_or_throws (str "valueOf")
             [ (str "input_tokens", lit 1200 0); (str "output_tokens", lit 300 0) ]
             _ _ eq_refl eq_refl eq_refl).
Defined.



(** ** The call of the API *)

(** X6: whatever fails inside the [try] around the API call (the call
    itself, or reading the reply), the error that leaves it is an
    [Error] whose message is "Failed to process with model ", the
    model, ": " and a cause; when the API call throws, the cause is the
    message of the error of the API. *)
Theorem invoke_failure_names_the_model (E : env) (model : jstring) :
  (forall text e,
     invoke E model text = Throw e -> exists cause, e = invocation_error model cause)
  /\ (forall text cause,
        responses_create E (request_for model text) = Throw cause ->
        invoke E model (VStr text) = Throw (invocation_error model (message cause))).
Proof.
  split.
  - intros text e. unfold invoke, catch. intros H.
    match type of H with
    | match ?m with Return _ => _ | Throw _ => _ end = _ => destruct m as [?|cause]
    end; [done|].
    injection H as <-. by exists (message cause).
  - intros text cause H. unfold invoke. cbn [to_string].
    cbv beta iota delta [mbind outcome_bind]. by rewrite H.
Qed.

Lemma invoke_failure_names_the_model_witness :
  (exists cause,
     mkError Error (str "Failed to process with model o1: 503 service unavailable")
     = invocation_error (str "o1") cause)
  /\ invoke api_down (str "o1") (VStr (str "Bill No 42"))
     = Throw (invocation_error (str "o1") (str "503 service unavailable")).
Proof.
  split.
  - apply (proj1 (invoke_failure_names_the_model api_down (str "o1"))
             (VStr (str "Bill No 42"))).
    vm_compute. reflexivity.
  - apply (proj2 (invoke_failure_names_the_model api_down (str "o1"))
             (str "Bill No 42") (mkError Error (str "503 service unavailable"))).
    reflexivity.
Defined.

(** ** A response without usage *)

Lemma normalized_usage_undefined :
  normalized_usage VUndefined = Throw (reading "undefined" (str "prompt_tokens")).
Proof. reflexivity. Qed.

(** X7: when the response of the API has no [usage] and the reply
    yields usable data, [extractBillData] still fails: the pricing
    degrades to 'N/A', but building the usage object reads
    [prompt_tokens] of [undefined] and throws a TypeError that does not
    name the model.  By then the scratch file has been removed. *)
Theorem missing_usage_fails_after_removal (E : env) (f : file) (model : option jstring)
  (w : world) (bytes : list N) (pdfData text content data : value) :
  files w !! path f = Some bytes ->
  pdfParse E bytes = Return pdfData ->
  get pdfData (str "text") = Return text ->
  invoke E (default (str "o3-mini") model) text = Return (content, VUndefined) ->
  reconcile_reply content = Return data ->
  remove_failure E (path f) = None ->
  extractBillData E f model w
  = (Throw (reading "undefined" (str "prompt_tokens")), without (path f) w 0).
Proof.
  intros Hfile Hpdf Htext Hinv Hrec Hrm.
  unfold extractBillData, try_catch, mbind, M_bind at 1 2 3 4 5 6 7 8.
  unfold readFile at 1. rewrite Hfile. unfold lift. rewrite Hpdf, Htext, Hinv, Hrec.
  unfold remove. rewrite Hrm.
  change (calculatePrice (default (str "o3-mini") model) VUndefined)
    with (Return (not_available (default (str "o3-mini") model))).
  rewrite normalized_usage_undefined. reflexivity.
Qed.

Lemma missing_usage_fails_after_removal_witness :
  extractBillData no_usage sample_file None sample_world
  = (Throw (reading "undefined" (str "prompt_tokens")),
     without (path sample_file) sample_world 0).
Proof.
  apply (missing_usage_fails_after_removal no_usage sample_file None sample_world
           sample_bytes sample_pdfData (VStr (str "Bill No 42"))
           (VStr reply_object) parsed_object).
  - vm_compute. reflexivity.
  - reflexivity.
  - reflexivity.
  - vm_compute. reflexivity.
  - vm_compute. reflexivity.
  - reflexivity.
Defined.

(** X8: in the loop over the models, a response without [usage] turns
    the entry of that model into a failure although its reply was
    parsed: the entry has the TypeError's message as [error] and null
    [data], [usage] and [pricing], and the data recovered from the
    reply is dropped. *)
Theorem missing_usage_discards_the_data (E : env) (text : value) (model : jstring)
  (w : world) (content data : value) :
  invoke E model text = Return (content, VUndefined) ->
  parse_reply (parse_failure_of model) content = Return data ->
  exists entry n,
    process_model E text model w = (Return entry, tick n w)
    /\ entry_for model (Throw (reading "undefined" (str "prompt_tokens"))) entry.
Proof.
  intros Hinv Hparse.
  destruct (process_model_entry E text model w) as (entry & n & Hrun & Hentry).
  exists entry, n. split; [done|].
  assert (Hp : model_pipeline E text model
               = Throw (reading "undefined" (str "prompt_tokens"))).
  { unfold model_pipeline. rewrite Hinv. cbv beta iota delta [mbind outcome_bind].
    rewrite Hparse. reflexivity. }
  by rewrite Hp in Hentry.
Qed.

Lemma missing_usage_discards_the_data_witness :
  exists entry n,
    process_model no_usage (VStr (str "Bill No 42")) (str "gpt-4o") sample_world
    = (Return entry, tick n sample_world)
    /\ entry_for (str "gpt-4o") (Throw (reading "undefined" (str "prompt_tokens"))) entry.
Proof.
  apply (missing_usage_discards_the_data no_usage (VStr (str "Bill No 42")) (str "gpt-4o")
           sample_world (VStr reply_object) parsed_object).
  - vm_compute. reflexivity.
  - vm_compute. reflexivity.
Defined.

(** ** The scratch file *)

(** X9: the multi-model entry point leaves no scratch file behind on
    any path, as long as the removal itself does not fail and the path
    is not empty.  When removing the file fails (each time it is
    tried), the error of the removal after the loop is what the
    function throws, the results of all the models are lost, and the
    file is still there: the failure of the second attempt, in the
    [catch] block, is swallowed. *)
Theorem multi_model_cleanup (E : env) (models : list jstring) (f : file) (w : world) :
  (remove_failure E (path f) = None -> path f <> [] ->
   files (snd (extractBillDataWithModels E models f w)) !! path f = None)
  /\ (forall bytes pdfData text e,
        files w !! path f = Some bytes ->
        pdfParse E bytes = Return pdfData ->
        get pdfData (str "text") = Return text ->
        remove_failure E (path f) = Some e ->
        fst (extractBillDataWithModels E models f w) = Throw e
        /\ files (snd (extractBillDataWithModels E models f w)) !! path f = Some bytes).
Proof.
  split; [apply all_models_removes_scratch_file|].
  intros bytes pdfData text e Hfile Hpdf Htext Hrm.
  split; [by eapply all_models_removal_failure_propagates|].
  destruct (for_each_model_entries E text models [] w) as (entries & n & Hloop & _).
  unfold extractBillDataWithModels, try_catch, mbind, M_bind at 1 2 3 4 5.
  unfold readFile at 1. rewrite Hfile. unfold lift. rewrite Hpdf, Htext, Hloop.
  unfold remove at 1. rewrite Hrm.
  destruct (truthy (VStr (path f))); unfold mbind, M_bind, try_catch, remove;
    rewrite ?Hrm; exact Hfile.
Qed.

Lemma multi_model_cleanup_witness :
  files (snd (extractBillDataWithModels api_down three_models sample_file sample_world))
    !! path sample_file = None
  /\ fst (extractBillDataWithModels (removal_fails busy answers_reply) three_models
            sample_file sample_world) = Throw busy
  /\ files (snd (extractBillDataWithModels (removal_fails busy answers_reply) three_models
                   sample_file sample_world)) !! path sample_file = Some sample_bytes.
Proof.
  split.
  - apply (proj1 (multi_model_cleanup api_down three_models sample_file sample_world)).
    + reflexivity.
    + vm_compute. discriminate.
  - apply (proj2 (multi_model_cleanup (removal_fails busy answers_reply) three_models
                    sample_file sample_world)
             sample_bytes sample_pdfData (VStr (str "Bill No 42")) busy).
    + vm_compute. reflexivity.
    + reflexivity.
    + reflexivity.
    + reflexivity.
Defined.

(** X10: whenever [extractBillData] returns a result, the scratch file
    has been removed, and the removal of its path is the only change:
    no file elsewhere is touched, and the clock is not read. *)
Theorem extractBillData_success_removes_the_file (E : env) (f : file)
  (model : option jstring) (w w' : world) (result : value) :
  extractBillData E f model w = (Return result, w') ->
  w' = without (path f) w 0.
Proof.
  unfold extractBillData, reconcile_reply, try_catch, mbind, M_bind, outcome_bind, lift,
    mret, M_ret.
  intros H.
  unfold readFile in H. destruct (files w !! path f); [|done].
  destruct (pdfParse E _) as [pdfData|?]; [|done].
  destruct (get pdfData _) as [text|?]; [|done].
  destruct (invoke E _ text) as [[content usage]|?]; [|done].
  destruct (parse_reply parse_failure content) as [data|?]; [|done].
  destruct (usable data) eqn:Hu; [|done]. simpl in H.
  unfold remove in H. destruct (remove_failure E (path f)); [done|].
  destruct (calculatePrice _ usage) as [pricing|?]; [|done].
  destruct (normalized_usage usage) as [usage'|?]; [|done].
  by injection H as _ <-.
Qed.

Lemma extractBillData_success_removes_the_file_witness :
  exists result w',
    extractBillData answers_reply sample_file None sample_world = (Return result, w')
    /\ w' = without (path sample_file) sample_world 0.
Proof.
  eexists _, _. split; [vm_compute; reflexivity|].
  eapply (extractBillData_success_removes_the_file answers_reply sample_file None
            sample_world).
  vm_compute. reflexivity.
Defined.



(** X12: with a reply that is a JSON object and a response whose usage
    counters are numbers, the single-model handler answers 200; the
    data is the object of the reply with [Filename] set, the usage is
    the normalized usage, the pricing is at the rates of o3-mini (1.10,
    0.55 and 4.40), and the scratch file has been removed. *)
Theorem handle_pdf_success (E : env) (f : file) (w : world) (bytes : list N)
  (pdfData text : value) (s : jstring) (props uprops : list (jstring * value))
  (x y : number) (usage' : value) :
  files w !! path f = Some bytes ->
  pdfParse E bytes = Return pdfData ->
  get pdfData (str "text") = Return text ->
  invoke E (str "o3-mini") text = Return (VStr s, VObj uprops) ->
  parse_text s = Some (VObj props) ->
  remove_failure E (path f) = None ->
  taken_from uprops (str "prompt_tokens") (str "input_tokens") = VNum x ->
  taken_from uprops (str "completion_tokens") (str "output_tokens") = VNum y ->
  normalized_usage (VObj uprops) = Return usage' ->
  handle_pdf E {| req_file := Some f |} w
  = (Return {| status := 200;
               body := success_body
                         (VObj (set_own props (str "Filename") (VStr (originalname f))))
                         usage'
                         (priced_at (str "o3-mini") (of_decimal false 110 (-2))
                            (of_decimal false 55 (-2)) (of_decimal false 440 (-2)) x y) |},
     without (path f) w 0).
Proof.
  intros Hfile Hpdf Htext Hinv Hparse Hrm Hx Hy Hu.
  assert (Hs : extractBillData E f None w
               = (Return (result_object (VObj props) usage'
                            (priced_at (str "o3-mini") (of_decimal false 110 (-2))
                               (of_decimal false 55 (-2)) (of_decimal false 440 (-2)) x y)),
                  without (path f) w 0)).
  { unfold extractBillData, try_catch, mbind, M_bind at 1 2 3 4 5 6 7 8.
    unfold readFile at 1. rewrite Hfile. unfold lift. rewrite Hpdf, Htext.
    change (default (str "o3-mini") None) with (str "o3-mini"). rewrite Hinv.
    assert (Hr : reconcile_reply (VStr s) = Return (VObj props)).
    { unfold reconcile_reply.
      rewrite (parse_reply_direct parse_failure (VStr s) (VObj props));
        [reflexivity|]. by rewrite JSON_parse_text, Hparse. }
    rewrite Hr. unfold remove. rewrite Hrm.
    rewrite (calculatePrice_at_rates (str "o3-mini") uprops _ _ _ x y eq_refl Hx Hy), Hu.
    reflexivity. }
  unfold handle_pdf, processPdf, catching, await. cbn [req_file].
  unfold settle at 1. rewrite Hs. reflexivity.
Qed.

Lemma handle_pdf_success_witness :
  handle_pdf answers_reply {| req_file := Some sample_file |} sample_world
  = (Return {| status := 200;
               body := success_body
                         (VObj [ (str "A", VStr (str "1"));
                                 (str "Filename", VStr (str "bill.pdf")) ])
                         (usage_object (lit 1200 0) (lit 300 0) (lit 1500 0))
                         (priced_at (str "o3-mini") (of_decimal false 110 (-2))
                            (of_decimal false 55 (-2)) (of_decimal false 440 (-2))
                            (of_decimal false 1200 0) (of_decimal false 300 0)) |},
     without (path sample_file) sample_world 0).
Proof.
  apply (handle_pdf_success answers_reply sample_file sample_world sample_bytes
           sample_pdfData (VStr (str "Bill No 42")) reply_object
           [ (str "A", VStr (str "1")) ]
           [ (str "input_tokens", lit 1200 0); (str "output_tokens", lit 300 0) ]).
  - vm_compute. reflexivity.
  - reflexivity.
  - reflexivity.
  - vm_compute. reflexivity.
  - vm_compute. reflexivity.
  - reflexivity.
  - reflexivity.
  - reflexivity.
  - vm_compute. reflexivity.
Defined.

(** ** Replies from which nothing is recovered *)

Lemma search_brace_unclosed (s : jstring) : free_of 125 s -> search brace s = None.
Proof.
  unfold free_of. induction s as [|x s IH]; [reflexivity|]. simpl forallb.
  intros [Hx Hs]%andb_prop.
  cbn [search]. rewrite (IH Hs).
  assert (Hm : match_here brace (x :: s) = None).
  { unfold match_here, brace.
    change (run (Cat (Chr 123) (Cat (Star any) (Chr 125))) (x :: s) None ?k)
      with (if (x =? 123)%N
            then run (Star any) s None (fun s' cap' => run (Chr 125) s' cap' k)
            else None).
    destruct (x =? 123)%N; [|done]. by apply run_star_any_none. }
  by rewrite Hm.
Qed.

Lemma search_brace_unopened (s : jstring) : free_of 123 s -> search brace s = None.
Proof.
  intros H. rewrite <- (app_nil_r s). by rewrite search_brace_skip.
Qed.

(** X13: nothing is recovered, and the error of the inner [catch] is
    thrown, from a text that is not JSON and holds no backtick and no
    opening brace or no closing brace; and from a reply that is not a
    string and that [JSON.parse] rejects (a missing [output_text], for
    one), because calling [match] on it throws inside the inner [try]. *)
Theorem reply_without_json_fails (failure : error) :
  (forall s,
     parse_text s = None -> free_of 96 s -> free_of 123 s \/ free_of 125 s ->
     parse_reply failure (VStr s) = Throw failure)
  /\ (forall content e,
        (forall s, content <> VStr s) -> JSON_parse content = Throw e ->
        parse_reply failure content = Throw failure).
Proof.
  split.
  - intros s Hp Hf Hb. rewrite parse_reply_brace; [|done|by apply search_fence_none].
    destruct Hb as [Hb|Hb]; [by rewrite search_brace_unopened|by rewrite search_brace_unclosed].
  - intros content e Hc He. unfold parse_reply. rewrite He.
    destruct content; try reflexivity. by destruct (Hc s).
Qed.

Lemma reply_without_json_fails_witness :
  parse_reply parse_failure (VStr (str "I could not read this bill.")) = Throw parse_failure
  /\ parse_reply parse_failure VUndefined = Throw parse_failure.
Proof.
  split.
  - apply (proj1 (reply_without_json_fails parse_failure)).
    + vm_compute. reflexivity.
    + vm_compute. reflexivity.
    + left. vm_compute. reflexivity.
  - apply (proj2 (reply_without_json_fails parse_failure) VUndefined
             (mkError SyntaxError (str "Unexpected token in JSON"))).
    + intros s H. discriminate H.
    + vm_compute. reflexivity.
Defined.

(** X14: in a reply without backticks that is not JSON as a whole, what
    is parsed is the text from the first opening brace to the last
    closing brace, whatever lies between them.  A reply with two
    objects is therefore not recovered: the span runs from the start of
    the first to the end of the second. *)
Theorem brace_span_is_first_to_last (failure : error) (pre a suf : jstring) :
  free_of 96 (pre ++ 123%N :: a ++ 125%N :: suf) ->
  free_of 123 pre -> free_of 125 suf ->
  parse_text (pre ++ 123%N :: a ++ 125%N :: suf) = None ->
  parse_reply failure (VStr (pre ++ 123%N :: a ++ 125%N :: suf))
  = catch (JSON_parse (VStr (123%N :: a ++ [125%N]))) (fun _ => Throw failure).
Proof.
  intros Hf Hpre Hsuf Hp.
  rewrite parse_reply_brace; [|done|by apply search_fence_none].
  by rewrite search_brace_skip, search_brace_span.
Qed.

Lemma brace_span_is_first_to_last_witness :
  parse_reply parse_failure (VStr two_objects) = Throw parse_failure.
Proof.
  exact (brace_span_is_first_to_last parse_failure []
           (qstr "'A':'1'} and {'B':'2'") [] eq_refl eq_refl eq_refl eq_refl).
Defined.

(** *** A fenced block without content *)

Lemma run_shrinks {R} (r : regex) :
  forall s cap (k : jstring -> option jstring -> option R) res,
    run r s cap k = Some res ->
    exists s' cap', k s' cap' = Some res /\ (length s' <= length s)%nat.
Proof.
  induction r as [|c|r1 IH1 r2 IH2|r1 IH1|p|p|r1 IH1]; intros s cap k res.
  - simpl. eauto.
  - simpl. destruct s as [|x s]; [done|]. destruct (x =? c)%N; [|done].
    intros H. exists s, cap. split; [done|]. simpl. lia.
  - simpl. intros H.
    apply IH1 in H as (s1 & cap1 & H & Hl1).
    apply IH2 in H as (s2 & cap2 & H & Hl2).
    exists s2, cap2. split; [done|lia].
  - simpl. destruct (run r1 s cap k) eqn:E.
    + intros [= <-]. by apply IH1 in E.
    + eauto.
  - induction s as [|x s IHs]; [simpl; eauto|].
    rewrite run_star_cons.
    destruct (p x); [|eauto].
    destruct (run (Star p) s cap k) eqn:E; [|eauto].
    intros [= <-]. destruct (IHs eq_refl) as (s' & cap' & H & Hl).
    exists s', cap'. split; [done|]. simpl. lia.
  - induction s as [|x s IHs]; rewrite run_lazy_unfold.
    + destruct (k [] cap) eqn:E; [|done]. intros [= <-]. eauto.
    + destruct (k (x :: s) cap) eqn:E; [intros [= <-]; eauto|].
      destruct (p x); [|done]. intros H.
      destruct (IHs H) as (s' & cap' & H' & Hl).
      exists s', cap'. split; [done|]. simpl. lia.
  - simpl. intros H. apply IH1 in H as (s1 & cap1 & H & Hl1). eauto.
Qed.

Lemma match_here_fence_backtick (s : jstring) (m : match_result) :
  match_here fence s = Some m -> exists t, m0 m = 96%N :: t.
Proof.
  unfold match_here. rewrite fence_unfold.
  destruct s as [|x s]; [done|].
  match goal with
  | |- run (Cat (Cat (Chr 96) ?r1) ?r2) _ _ ?k = _ -> _ =>
      change (run (Cat (Cat (Chr 96) r1) r2) (x :: s) None k)
        with (if (x =? 96)%N then run (Cat r1 r2) s None k else None)
  end.
  destruct (x =? 96)%N eqn:Hx; [|done]. apply N.eqb_eq in Hx as ->.
  intros H. apply run_shrinks in H as (s' & cap' & [= <-] & Hl).
  cbn [m0]. cbn [length]. destruct (S (length s) - length s')%nat as [|n] eqn:Hn; [lia|].
  by eexists.
Qed.

Lemma search_fence_backtick (s : jstring) (m : match_result) :
  search fence s = Some m -> exists t, m0 m = 96%N :: t.
Proof.
  induction s as [|x s IH]; cbn [search].
  - destruct (match_here fence []) eqn:E; [|done]. intros [= <-].
    by apply match_here_fence_backtick in E.
  - destruct (match_here fence (x :: s)) eqn:E; [|exact IH]. intros [= <-].
    by apply match_here_fence_backtick in E.
Qed.

(** X15: when the first fenced block of a reply has no content (the
    captured group is empty), the text parsed in its place is the whole
    match, fence markers included, which is never JSON: the recovery
    fails, also when an object follows the block. *)
Theorem empty_fenced_block_fails (failure : error) (s : jstring) (m : match_result) :
  parse_text s = None -> search fence s = Some m -> m1 m = Some [] ->
  parse_reply failure (VStr s) = Throw failure.
Proof.
  intros Hp Hf Hm. rewrite (parse_reply_fenced failure s m Hp Hf).
  unfold jsonString_of. rewrite Hm.
  destruct (search_fence_backtick s m Hf) as [t ->].
  by rewrite JSON_parse_text, parse_text_backtick.
Qed.

Lemma empty_fenced_block_fails_witness :
  parse_reply parse_failure (VStr empty_fence) = Throw parse_failure.
Proof.
  apply (empty_fenced_block_fails parse_failure empty_fence
           {| m0 := str "```json" ++ [10%N] ++ str "```"; m1 := Some [] |}).
  - vm_compute. reflexivity.
  - vm_compute. reflexivity.
  - reflexivity.
Defined.

(** ** The request *)

Lemma startsWith_spec (s p : jstring) : startsWith s p = true <-> exists rest, s = p ++ rest.
Proof.
  unfold startsWith. rewrite bool_decide_eq_true. split.
  - intros [rest H]. exists rest. by apply prefix_of_spec.
  - intros [rest H]. exists rest. by apply prefix_of_spec.
Qed.

(** X16: the request carries the temperature 0.1 exactly when the
    name of the model starts with "gpt-", and no temperature
    otherwise. *)
Theorem temperature_only_for_gpt_models (model text : jstring) :
  (req_temperature (request_for model text) = Some tenth
   <-> exists rest, model = str "gpt-" ++ rest)
  /\ (req_temperature (request_for model text) = None
      <-> ~ exists rest, model = str "gpt-" ++ rest).
Proof.
  unfold request_for. cbn [req_temperature]. rewrite <- startsWith_spec.
  destruct (startsWith model (str "gpt-")); repeat split; try done; intros H; by destruct H.
Qed.

Lemma temperature_only_for_gpt_models_witness :
  req_temperature (request_for (str "gpt-4o-mini") (str "Bill No 42")) = Some tenth
  /\ req_temperature (request_for (str "o3-mini") (str "Bill No 42")) = None.
Proof.
  split.
  - apply (proj1 (temperature_only_for_gpt_models (str "gpt-4o-mini") (str "Bill No 42"))).
    by exists (str "4o-mini").
  - apply (proj2 (temperature_only_for_gpt_models (str "o3-mini") (str "Bill No 42"))).
    intros [rest H]. vm_compute in H. discriminate H.
Defined.

(** ** The other revisions of the service *)

Lemma cleanup_removes (E : env) (f : file) (w : world) :
  remove_failure E (path f) = None -> path f <> [] ->
  Chat.cleanup E f w = (Return tt, without (path f) w 0).
Proof.
  intros Hrm Hpath. unfold Chat.cleanup.
  assert (Htruthy : truthy (VStr (path f)) = true) by by destruct (path f).
  rewrite Htruthy. unfold try_catch, remove. by rewrite Hrm.
Qed.

Lemma cleanup_returns (E : env) (f : file) (w : world) :
  exists w', Chat.cleanup E f w = (Return tt, w').
Proof.
  unfold Chat.cleanup, try_catch, remove.
  destruct (truthy (VStr (path f))); [|by eexists].
  destruct (remove_failure E (path f)); by eexists.
Qed.

(** X17: in the third and the fourth revision of [extractBillData] and
    in the first revision of the multi-model function, no scratch file
    is left behind on any path, success or failure, as long as the
    removal itself does not fail and the path is not empty. *)
Theorem later_revisions_remove_the_file (E : env)
  (chat : Chat.chat_request -> outcome value) (models : list jstring) (f : file)
  (w : world) :
  remove_failure E (path f) = None -> path f <> [] ->
  files (snd (Rev3.extractBillData E chat f w)) !! path f = None
  /\ files (snd (Rev4.extractBillData E chat f w)) !! path f = None
  /\ files (snd (Rev1.extractBillDataWithModels E chat models f w)) !! path f = None.
Proof.
  intros Hrm Hpath.
  assert (Hremove : forall w0, remove E (path f) w0 = (Return tt, without (path f) w0 0)).
  { intros w0. unfold remove. by rewrite Hrm. }
  assert (Hcatch : forall (e : error) w0,
            files (snd ((_ ← Chat.cleanup E f; throw e) w0 : outcome value * world))
              !! path f = None).
  { intros e w0. unfold mbind, M_bind. rewrite cleanup_removes by done.
    simpl. by apply lookup_removed_self. }
  split; [|split].
  - unfold Rev3.extractBillData, try_catch.
    match goal with
    | |- context [match ?body w with _ => _ end] => destruct (body w) as [[r|e] w1] eqn:Hbody
    end; [|apply Hcatch].
    unfold mbind, M_bind at 1 2 3 4 5 6 7 in Hbody.
    destruct (readFile (path f) w) as [[?|?] ?]; [|done].
    destruct (lift _ _) as [[?|?] ?]; [|done].
    destruct (lift _ _) as [[?|?] ?]; [|done].
    destruct (lift _ _) as [[?|?] ?]; [|done].
    destruct (lift _ _) as [[?|?] ?]; [|done].
    destruct (lift _ _) as [[?|?] ?]; [|done].
    rewrite Hremove in Hbody. unfold mbind, M_bind, lift, mret, M_ret in Hbody.
    repeat match type of Hbody with
           | context [match ?o with Return _ => _ | Throw _ => _ end] => destruct o
           end; try done.
    injection Hbody as _ <-. simpl. by apply lookup_removed_self.
  - unfold Rev4.extractBillData, try_catch.
    match goal with
    | |- context [match ?body w with _ => _ end] => destruct (body w) as [[r|e] w1] eqn:Hbody
    end; [|apply Hcatch].
    unfold mbind, M_bind at 1 2 3 4 5 6 7 in Hbody.
    destruct (readFile (path f) w) as [[?|?] ?]; [|done].
    destruct (lift _ _) as [[?|?] ?]; [|done].
    destruct (lift _ _) as [[?|?] ?]; [|done].
    destruct (lift _ _) as [[?|?] ?]; [|done].
    destruct (lift _ _) as [[?|?] ?]; [|done].
    destruct (lift _ _) as [[?|?] ?]; [|done].
    rewrite Hremove in Hbody. unfold mbind, M_bind, lift, mret, M_ret in Hbody.
    repeat match type of Hbody with
           | context [match ?o with Return _ => _ | Throw _ => _ end] => destruct o
           end; try done.
    injection Hbody as _ <-. simpl. by apply lookup_removed_self.
  - unfold Rev1.extractBillDataWithModels, try_catch.
    match goal with
    | |- context [match ?body w with _ => _ end] => destruct (body w) as [[r|e] w1] eqn:Hbody
    end; [|apply Hcatch].
    unfold mbind, M_bind at 1 2 3 4 in Hbody.
    destruct (readFile (path f) w) as [[?|?] ?]; [|done].
    destruct (lift _ _) as [[?|?] ?]; [|done].
    destruct (lift _ _) as [[?|?] ?]; [|done].
    rewrite Hremove in Hbody. injection Hbody as _ <-. simpl. by apply lookup_removed_self.
Qed.

Lemma later_revisions_remove_the_file_witness :
  files (snd (Rev3.extractBillData api_down chat_down sample_file sample_world))
    !! path sample_file = None
  /\ files (snd (Rev4.extractBillData api_down chat_down sample_file sample_world))
       !! path sample_file = None
  /\ files (snd (Rev1.extractBillDataWithModels api_down chat_down three_models
                   sample_file sample_world)) !! path sample_file = None.
Proof.
  apply (later_revisions_remove_the_file api_down chat_down three_models sample_file
           sample_world).
  - reflexivity.
  - vm_compute. discriminate.
Defined.

(** X18: in the third revision, whatever fails before the removal (the
    API call, reading the reply, recovering or validating the data) is
    rethrown as it is, whether the removal in the [catch] block
    succeeds or fails: a failure of the cleanup never replaces the
    first error.  The error of the API is not wrapped. *)
Theorem cleanup_failure_keeps_the_first_error (E : env)
  (chat : Chat.chat_request -> outcome value) (f : file) (w : world)
  (bytes : list N) (pdfData text : value) (e : error) :
  files w !! path f = Some bytes ->
  pdfParse E bytes = Return pdfData ->
  get pdfData (str "text") = Return text ->
  before_removal chat (str "gpt-4o") None text = Throw e ->
  fst (Rev3.extractBillData E chat f w) = Throw e.
Proof.
  intros Hfile Hpdf Htext He.
  unfold Rev3.extractBillData, try_catch, mbind, M_bind at 1 2 3 4 5 6.
  unfold readFile at 1. rewrite Hfile. unfold lift. rewrite Hpdf, Htext.
  unfold before_removal in He. cbv beta iota delta [mbind outcome_bind] in He.
  destruct (Chat.complete chat (str "gpt-4o") None text) as [response|?].
  2: { injection He as ->. unfold mbind, M_bind.
       destruct (cleanup_returns E f w) as [w' ->]. reflexivity. }
  destruct (Chat.content_of response) as [content|?].
  2: { injection He as ->. unfold mbind, M_bind.
       destruct (cleanup_returns E f w) as [w' ->]. reflexivity. }
  rewrite He. unfold mbind, M_bind.
  destruct (cleanup_returns E f w) as [w' ->]. reflexivity.
Qed.

Lemma cleanup_failure_keeps_the_first_error_witness :
  fst (Rev3.extractBillData (removal_fails busy api_down) chat_down sample_file sample_world)
  = Throw (mkError Error (str "503 service unavailable")).
Proof.
  apply (cleanup_failure_keeps_the_first_error (removal_fails busy api_down) chat_down
           sample_file sample_world sample_bytes sample_pdfData (VStr (str "Bill No 42"))).
  - vm_compute. reflexivity.
  - reflexivity.
  - reflexivity.
  - reflexivity.
Defined.

(** X19: the first revision of [extractBillData] never removes the
    scratch file: on every path, success or failure, it leaves the
    upload directory and the clock as they were. *)
Theorem first_revision_keeps_the_file (E : env)
  (chat : Chat.chat_request -> outcome value) (f : file) (model : option jstring)
  (w : world) :
  snd (Rev1.extractBillData E chat f model w) = w.
Proof.
  unfold Rev1.extractBillData, try_catch, mbind, M_bind, lift, mret, M_ret, throw.
  unfold readFile. destruct (files w !! path f); [|done].
  repeat match goal with
         | |- context [match ?o with Return _ => _ | Throw _ => _ end] => destruct o
         end; done.
Qed.

(** *** The price calculation without a guard *)

Lemma counts_get (props : list (jstring * value)) (k : string) (x : number) :
  inherited (str k) = VUndefined -> counts props k x ->
  (p ← get (VObj props) (str k); js_div p (VNum million)) = Return (VNum (div x million)).
Proof.
  intros Hk [H|[H ->]]; rewrite get_obj, H, ?Hk; reflexivity.
Qed.

Lemma chat_calculatePrice_at_rates (model : jstring) (props : list (jstring * value))
  (i c o x y : number) :
  own Chat.price_table model = Some (rates (VNum i) (VNum c) (VNum o)) ->
  counts props "prompt_tokens" x ->
  counts props "completion_tokens" y ->
  Chat.calculatePrice model (VObj props) = Return (priced_at model i c o x y).
Proof.
  intros Hown Hx Hy. unfold Chat.calculatePrice.
  unfold Chat.prices. rewrite (get_obj Chat.price_table model), Hown.
  change (or_else (Return (rates (VNum i) (VNum c) (VNum o)))
            (get (VObj Chat.price_table) (str "gpt-4o")))
    with (Return (rates (VNum i) (VNum c) (VNum o))).
  cbv beta iota delta [mbind outcome_bind].
  pose proof (counts_get props "prompt_tokens" x eq_refl Hx) as Hp.
  pose proof (counts_get props "completion_tokens" y eq_refl Hy) as Hc.
  cbv beta iota delta [mbind outcome_bind] in Hp, Hc.
  change (lit 1000000 0) with (VNum million).
  destruct (get (VObj props) (str "prompt_tokens")) as [p|?]; [|done].
  destruct (get (VObj props) (str "completion_tokens")) as [q|?]; [|done].
  rewrite Hp, Hc.
  destruct (get_rates (VNum i) (VNum c) (VNum o)) as (-> & -> & ->).
  reflexivity.
Qed.

Lemma NaN_cost (rate : number) : toFixed (cost_of NaN rate) 6 = str "NaN".
Proof. by destruct rate. Qed.

(** X20: [calculatePrice] as the first and the third revision have it
    has no guard: for a usage that is [undefined] or [null] it throws
    the TypeError of reading [prompt_tokens]; for a usage object and a
    model with an entry in the table it returns the rates and costs of
    that entry, a missing counter counting as [NaN], and a cost
    computed from [NaN] is shown as "NaN". *)
Theorem unguarded_calculatePrice (model : jstring) :
  Chat.calculatePrice model VUndefined = Throw (reading "undefined" (str "prompt_tokens"))
  /\ Chat.calculatePrice model VNull = Throw (reading "null" (str "prompt_tokens"))
  /\ (forall props i c o x y,
        own Chat.price_table model = Some (rates (VNum i) (VNum c) (VNum o)) ->
        counts props "prompt_tokens" x ->
        counts props "completion_tokens" y ->
        Chat.calculatePrice model (VObj props) = Return (priced_at model i c o x y))
  /\ (forall rate, toFixed (cost_of NaN rate) 6 = str "NaN").
Proof.
  assert (Hm : exists modelPrices,
            or_else (get Chat.prices model) (get Chat.prices (str "gpt-4o"))
            = Return modelPrices).
  { unfold or_else, Chat.prices. rewrite (get_obj Chat.price_table model).
    cbv beta iota delta [mbind outcome_bind]. destruct (truthy _); by eexists. }
  destruct Hm as [modelPrices Hm].
  split; [|split; [|split]].
  - unfold Chat.calculatePrice. rewrite Hm. reflexivity.
  - unfold Chat.calculatePrice. rewrite Hm. reflexivity.
  - intros. by apply chat_calculatePrice_at_rates.
  - apply NaN_cost.
Qed.

Lemma unguarded_calculatePrice_witness :
  Chat.calculatePrice (str "gpt-4o-mini")
    (VObj [ (str "completion_tokens", lit 500 0) ])
  = Return (priced_at (str "gpt-4o-mini")
              (of_decimal false 15 (-2)) (of_decimal false 75 (-3))
              (of_decimal false 60 (-2)) NaN (of_decimal false 500 0)).
Proof.
  apply (proj1 (proj2 (proj2 (unguarded_calculatePrice (str "gpt-4o-mini"))))).
  - reflexivity.
  - right. split; reflexivity.
  - left. reflexivity.
Defined.

Lemma taken_from_number (props : list (jstring * value)) (k1 k2 : jstring) (x : number) :
  own props k1 = Some (VNum x) -> truthy (VNum x) = true ->
  taken_from props k1 k2 = VNum x.
Proof.
  intros H Ht. unfold taken_from. rewrite H. cbv zeta.
  change (default VUndefined (Some (VNum x))) with (VNum x). by rewrite Ht.
Qed.

(** X21: for each of the three models of the first revision and a
    usage object whose [prompt_tokens] and [completion_tokens] are
    numbers other than zero and [NaN], the [calculatePrice] of the
    first and third revision and that of the second return the same
    result. *)
Theorem revisions_agree_on_the_price (model : jstring) (props : list (jstring * value))
  (x y : number) :
  In model Rev1.AVAILABLE_MODELS ->
  own props (str "prompt_tokens") = Some (VNum x) -> truthy (VNum x) = true ->
  own props (str "completion_tokens") = Some (VNum y) -> truthy (VNum y) = true ->
  Chat.calculatePrice model (VObj props) = PdfService.calculatePrice model (VObj props).
Proof.
  intros Hin Hx Htx Hy Hty.
  assert (H : exists i c o,
            own Chat.price_table model = Some (rates (VNum i) (VNum c) (VNum o))
            /\ own PdfService.price_table model = Some (rates (VNum i) (VNum c) (VNum o))).
  { unfold Rev1.AVAILABLE_MODELS in Hin. cbn [fmap list_fmap In] in Hin.
    destruct Hin as [<-|[<-|[<-|[]]]]; eexists _, _, _; split; reflexivity. }
  destruct H as (i & c & o & H1 & H2).
  rewrite (chat_calculatePrice_at_rates model props i c o x y H1);
    [|by left|by left].
  symmetry. apply calculatePrice_at_rates; [done| |]; by apply taken_from_number.
Qed.

Lemma revisions_agree_on_the_price_witness :
  Chat.calculatePrice (str "gpt-4o") sample_usage
  = PdfService.calculatePrice (str "gpt-4o") sample_usage.
Proof.
  apply (revisions_agree_on_the_price (str "gpt-4o")
           [ (str "prompt_tokens", lit 1000 0); (str "completion_tokens", lit 500 0) ]
           (of_decimal false 1000 0) (of_decimal false 500 0)).
  - vm_compute. tauto.
  - reflexivity.
  - vm_compute. reflexivity.
  - reflexivity.
  - vm_compute. reflexivity.
Defined.

(** ** The upload and the route *)

(** X22: [fileFilter] accepts a file exactly when its MIME type is the
    string 'application/pdf'; the error with which it rejects any
    other, passed on by the upload to [handleUploadError], is answered
    with 400 and the message 'Only PDF files are accepted'; and every
    error of the upload is answered with 400 and an error body, without
    the handler being run and without a change to the upload directory. *)
Theorem only_pdf_uploads_reach_the_handler
  (processPdf : http_request -> M http_response) (w : world) :
  (forall mimetype, fileFilter mimetype = Return true
                    <-> mimetype = VStr (str "application/pdf"))
  /\ (forall mimetype e,
        fileFilter mimetype = Throw e ->
        post_pdf processPdf (Failed (OtherError e)) w
        = (Return {| status := 400;
                     body := error_body (str "Only PDF files are accepted") |}, w))
  /\ (forall err,
        exists msg,
          post_pdf processPdf (Failed err) w
          = (Return {| status := 400; body := error_body msg |}, w)).
Proof.
  split; [|split].
  - intros mimetype. unfold fileFilter. split.
    + destruct mimetype; try done.
      destruct (JsString.eqb s (str "application/pdf")) eqn:E; [|done].
      apply eqb_eq in E as ->. done.
    + intros ->. reflexivity.
  - intros mimetype e. unfold fileFilter.
    destruct mimetype; try (intros [= <-]; reflexivity).
    destruct (JsString.eqb s (str "application/pdf")); [done|].
    intros [= <-]. reflexivity.
  - intros [e|e]; eexists; reflexivity.
Qed.

Lemma only_pdf_uploads_reach_the_handler_witness :
  post_pdf (handle_pdf answers_reply)
    (Failed (OtherError (mkError Error (str "Only PDF files are accepted")))) sample_world
  = (Return {| status := 400; body := error_body (str "Only PDF files are accepted") |},
     sample_world).
Proof.
  apply (proj1 (proj2 (only_pdf_uploads_reach_the_handler (handle_pdf answers_reply)
                         sample_world)) (VStr (str "image/png"))).
  reflexivity.
Defined.

(** ** The authentication placeholder *)

(** X23: [isAuthenticated] lets a request pass exactly when its
    authorization header starts with "Bearer "; what follows the
    prefix is not looked at (it may be empty).  The user it sets is
    always the same, and every other request is answered with 401. *)
Theorem isAuthenticated_checks_the_prefix_only (authHeader : option jstring) :
  (isAuthenticated authHeader = Next example_user
   <-> exists token, authHeader = Some (str "Bearer " ++ token))
  /\ (forall user, isAuthenticated authHeader = Next user -> user = example_user)
  /\ (forall r, isAuthenticated authHeader = Respond r -> status r = 401).
Proof.
  assert (Hne : forall token, Some [] <> Some (str "Bearer " ++ token)).
  { intros token H.
    change (str "Bearer " ++ token) with (66%N :: (str "earer " ++ token)) in H.
    discriminate H. }
  unfold isAuthenticated.
  destruct authHeader as [[|x h]|].
  - split; [split; [done|]|split].
    + intros [token H]. by destruct (Hne token).
    + done.
    + by intros r [= <-].
  - destruct (startsWith (x :: h) (str "Bearer ")) eqn:E.
    + split; [split; [|done]|split].
      * intros _. apply startsWith_spec in E as [token ->]. by exists token.
      * by intros user [= <-].
      * done.
    + split; [split; [done|]|split].
      * intros [token H].
        assert (H' : x :: h = str "Bearer " ++ token) by congruence.
        assert (startsWith (x :: h) (str "Bearer ") = true)
          by (apply startsWith_spec; by exists token).
        congruence.
      * done.
      * by intros r [= <-].
  - split; [split; [done|]|split].
    + intros [token H]. discriminate H.
    + done.
    + by intros r [= <-].
Qed.

Lemma isAuthenticated_checks_the_prefix_only_witness :
  isAuthenticated (Some (str "Bearer ")) = Next example_user.
Proof.
  apply (proj1 (isAuthenticated_checks_the_prefix_only (Some (str "Bearer ")))).
  by exists [].
Defined.

(** ** The validation of an address *)

Section Patterns.
Variable p : N -> bool.
Variable k : bool -> jstring -> bool.

Lemma accepts_plus_cons (x : N) (s : jstring) :
  Utils.accepts (Utils.Plus p) true (x :: s) k
  = p x && match s with
           | y :: _ => if p y then Utils.accepts (Utils.Plus p) false s k || k false s
                       else k false s
           | [] => k false []
           end.
Proof. destruct s as [|y s]; [reflexivity|]. simpl. by destruct (p y). Qed.

Lemma accepts_plus_start (b : bool) (s : jstring) :
  Utils.accepts (Utils.Plus p) b s k = Utils.accepts (Utils.Plus p) false s k.
Proof. reflexivity. Qed.

Lemma accepts_plus_spec (b : bool) (s : jstring) :
  Utils.accepts (Utils.Plus p) b s k = true
  <-> exists u v, s = u ++ v /\ u <> [] /\ forallb p u = true /\ k false v = true.
Proof.
  rewrite accepts_plus_start. clear b.
  induction s as [|x s IH].
  - split; [done|]. intros (u & v & H & Hu & _). by destruct u.
  - rewrite <- (accepts_plus_start true), accepts_plus_cons. split.
    + intros [Hx H]%andb_prop.
      destruct s as [|y s].
      * exists [x], []. simpl. by rewrite Hx.
      * destruct (p y) eqn:Hy.
        -- apply orb_prop in H as [H|H].
           ++ apply IH in H as (u & v & -> & Hu & Hall & Hk).
              exists (x :: u), v. simpl. by rewrite Hx, Hall.
           ++ exists [x], (y :: s). simpl. by rewrite Hx.
        -- exists [x], (y :: s). simpl. by rewrite Hx.
    + intros (u & v & H & Hu & Hall & Hk).
      destruct u as [|x' u]; [done|]. simpl in H. injection H as <- ->.
      simpl in Hall. apply andb_prop in Hall as [Hx Hall]. rewrite Hx, andb_true_l.
      destruct u as [|y u].
      * cbn [app]. destruct v as [|y v]; [done|]. destruct (p y); [|done].
        rewrite Hk. apply orb_true_r.
      * cbn [app]. simpl in Hall. apply andb_prop in Hall as [Hy Hall]. rewrite Hy.
        apply orb_true_intro. left. apply IH.
        exists (y :: u), v. simpl. by rewrite Hy, Hall.
Qed.

End Patterns.

Lemma test_emailRegex (s : jstring) :
  Utils.test Utils.emailRegex s
  = Utils.accepts Utils.emailRegex true s (fun _ _ => true).
Proof.
  unfold Utils.test. destruct s as [|x s]; cbn [Utils.test_from].
  - by rewrite orb_false_r.
  - assert (H : forall t, Utils.test_from Utils.emailRegex false t = false).
    { induction t as [|y t IH]; cbn [Utils.test_from]; [reflexivity|]. by rewrite IH. }
    by rewrite H, orb_false_r.
Qed.

Lemma accepts_one_spec (p : N -> bool) (k : bool -> jstring -> bool) (b : bool)
  (s : jstring) :
  Utils.accepts (Utils.One p) b s k = true
  <-> exists x s', s = x :: s' /\ p x = true /\ k false s' = true.
Proof.
  destruct s as [|x s]; simpl.
  - split; [done|]. by intros (? & ? & ? & _).
  - rewrite andb_true_iff. split.
    + intros [Hx Hk]. by exists x, s.
    + by intros (? & ? & [= <- <-] & ? & ?).
Qed.

Lemma accepts_eol_spec (s : jstring) :
  Utils.accepts Utils.Eol false s (fun _ _ => true) = true <-> s = [].
Proof. by destruct s. Qed.

Lemma accepts_emailRegex (s : jstring) :
  Utils.accepts Utils.emailRegex true s (fun _ _ => true)
  = Utils.accepts (Utils.Plus Utils.not_space_or_at) true s (fun _ s1 =>
      Utils.accepts (Utils.One (Utils.is_char 64)) false s1 (fun _ s2 =>
        Utils.accepts (Utils.Plus Utils.not_space_or_at) false s2 (fun _ s3 =>
          Utils.accepts (Utils.One (Utils.is_char 46)) false s3 (fun _ s4 =>
            Utils.accepts (Utils.Plus Utils.not_space_or_at) false s4 (fun _ s5 =>
              Utils.accepts Utils.Eol false s5 (fun _ _ => true)))))).
Proof. reflexivity. Qed.

(** X24: [isValidEmail] accepts a string exactly when it is made of a
    local part, an at sign, and a domain with a dot in it, where the
    local part, what precedes that dot and what follows it are not
    empty and hold no white space and no at sign. *)
Theorem isValidEmail_text (s : jstring) :
  Utils.isValidEmail (VStr s) = Return true
  <-> exists a b c, s = address a b c /\ word a /\ word b /\ word c.
Proof.
  assert (Hv : Utils.isValidEmail (VStr s)
               = Return (Utils.accepts Utils.emailRegex true s (fun _ _ => true))).
  { unfold Utils.isValidEmail. cbn [to_string]. cbv beta iota delta [mbind outcome_bind].
    by rewrite test_emailRegex. }
  rewrite Hv, accepts_emailRegex. clear Hv. unfold address, word, Utils.is_char.
  split.
  - intros H.
    assert (H' : forall b : bool, Return b = Return true -> b = true) by congruence.
    apply H' in H. clear H'.
    apply accepts_plus_spec in H as (a & v & -> & Ha & Halla & H).
    apply accepts_one_spec in H as (x & v1 & -> & ->%N.eqb_eq & H).
    apply accepts_plus_spec in H as (b & v & -> & Hb & Hallb & H).
    apply accepts_one_spec in H as (x & v2 & -> & ->%N.eqb_eq & H).
    apply accepts_plus_spec in H as (c & v & -> & Hc & Hallc & H).
    apply accepts_eol_spec in H as ->.
    rewrite app_nil_r. by exists a, b, c.
  - intros (a & b & c & -> & [Ha Halla] & [Hb Hallb] & [Hc Hallc]).
    f_equal. apply accepts_plus_spec. exists a, (64%N :: b ++ 46%N :: c).
    split; [done|]. split; [done|]. split; [done|].
    apply accepts_one_spec. exists 64%N, (b ++ 46%N :: c).
    split; [done|]. split; [done|].
    apply accepts_plus_spec. exists b, (46%N :: c).
    split; [done|]. split; [done|]. split; [done|].
    apply accepts_one_spec. exists 46%N, c.
    split; [done|]. split; [done|].
    apply accepts_plus_spec. exists c, [].
    split; [by rewrite app_nil_r|]. done.
Qed.

Lemma isValidEmail_text_witness :
  Utils.isValidEmail (VStr (str "billing@oorja.co.in")) = Return true.
Proof.
  apply (isValidEmail_text (str "billing@oorja.co.in")).
  exists (str "billing"), (str "oorja.co"), (str "in").
  split; [reflexivity|]. repeat split; try (vm_compute; discriminate); reflexivity.
Defined.

(** * The entries of the multi-model result, model by model *)








